(** * rpt2ogd77: repeater registry to OpenGD77 CPS channel and zone lists

    A shallow embedding of [rpt2ogd77.py] and the properties of its
    channel deriver, name disambiguation loop, sorted emission and zone
    bucketing.

    Conventions of the embedding.
    - A Python [str] is a [string]; every [ascii] stands for one code point
      below 256 (so the glyph O-with-stroke, U+00D8, is the character 216).
      The character classes of [str.strip], [str.isnumeric], [int] and
      [Decimal] are the Unicode ones restricted to that range.
    - An uncaught exception is a value of [exn]; code that can raise
      returns a [res].
    - The [while] loop of the name disambiguation is run with fuel; [None]
      means that the fuel ran out.
    - [print] appends a [msg] to a log. *)

From Stdlib Require Import String Ascii List ZArith Lia Bool Arith.
From Stdlib Require Import DecimalString DecimalPos Permutation Sorted.
Import ListNotations.

Local Open Scope string_scope.
Local Open Scope Z_scope.

(** ** Exceptions *)

Inductive exn : Set :=
| IndexError
| KeyError
| TypeError
| ValueError
| InvalidOperation
| Overflow.

Inductive res (A : Type) : Type :=
| Ok (a : A)
| Raise (e : exn).
Arguments Ok {A} a.
Arguments Raise {A} e.

Definition bind {A B : Type} (m : res A) (k : A -> res B) : res B :=
  match m with
  | Ok a => k a
  | Raise e => Raise e
  end.

Notation "x <- m ;; k" := (bind m (fun x => k))
  (at level 61, m at next level, right associativity).

(** ** Python string operations *)

Module Py.

(** Characters by code point. *)
Definition chr (n : nat) : ascii := ascii_of_nat n.
Definition ord (c : ascii) : nat := nat_of_ascii c.

Definition between (lo hi : nat) (c : ascii) : bool :=
  (Nat.leb lo (ord c) && Nat.leb (ord c) hi)%bool.

(** [c.isspace()] below 256: TAB..CR, FS..US, space, NEL, NBSP. *)
Definition isspace (c : ascii) : bool :=
  (between 9 13 c || between 28 32 c || Nat.eqb (ord c) 133
   || Nat.eqb (ord c) 160)%bool.

(** The ASCII digits: [[0-9]], and the only decimal digits below 256. *)
Definition isdigit (c : ascii) : bool := between 48 57 c.

(** [c.isnumeric()] below 256: the digits, superscripts 2, 3 and 1, and the
    vulgar fractions. *)
Definition isnumeric_char (c : ascii) : bool :=
  (isdigit c || Nat.eqb (ord c) 178 || Nat.eqb (ord c) 179
   || Nat.eqb (ord c) 185 || between 188 190 c)%bool.

Definition digit_val (c : ascii) : Z := Z.of_nat (ord c) - 48.

Fixpoint forallb_str (p : ascii -> bool) (s : string) : bool :=
  match s with
  | EmptyString => true
  | String c t => (p c && forallb_str p t)%bool
  end.

(** [s.isnumeric()]: at least one character, all of them numeric. *)
Definition isnumeric (s : string) : bool :=
  match s with
  | EmptyString => false
  | _ => forallb_str isnumeric_char s
  end.

(** [s[:n]] and [s[n:]] for [0 <= n]. *)
Fixpoint take (n : nat) (s : string) : string :=
  match n, s with
  | S k, String c t => String c (take k t)
  | _, _ => EmptyString
  end.

Fixpoint drop (n : nat) (s : string) : string :=
  match n, s with
  | S k, String _ t => drop k t
  | _, _ => s
  end.

(** [s[:k]] for any integer [k]: a negative bound counts from the end. *)
Definition slice_to (k : Z) (s : string) : string :=
  if k <? 0 then take (String.length s - Z.to_nat (- k)) s
  else take (Z.to_nat k) s.

(** [s[i:j]] for [0 <= i <= j]. *)
Definition slice (i j : Z) (s : string) : string :=
  take (Z.to_nat j - Z.to_nat i) (drop (Z.to_nat i) s).

(** [s[i]] for [0 <= i]. *)
Definition index (s : string) (i : nat) : res ascii :=
  match String.get i s with
  | Some c => Ok c
  | None => Raise IndexError
  end.

(** [s.find(sub)]: the first index where [sub] occurs, or -1. *)
Fixpoint find (sub s : string) : Z :=
  if prefix sub s then 0
  else match s with
       | EmptyString => -1
       | String _ t => let r := find sub t in if r <? 0 then -1 else r + 1
       end.

(** [s.rfind(sub)]: the last index where [sub] occurs, or -1. *)
Fixpoint rfind (sub s : string) : Z :=
  match s with
  | EmptyString => if prefix sub s then 0 else -1
  | String _ t =>
      let r := rfind sub t in
      if 0 <=? r then r + 1 else if prefix sub s then 0 else -1
  end.

(** [sub in s]. *)
Definition contains (sub s : string) : bool := 0 <=? find sub s.

(** [s.replace(old, new)] for a non-empty [old]: every occurrence, scanning
    from the left without overlap.  [skip] counts the characters of a
    matched occurrence still to be dropped. *)
Fixpoint replace_from (skip : nat) (old new s : string) : string :=
  match s with
  | EmptyString => EmptyString
  | String c t =>
      match skip with
      | S k => replace_from k old new t
      | O => if prefix old s
             then new ++ replace_from (String.length old - 1) old new t
             else String c (replace_from 0 old new t)
      end
  end.

Definition replace (old new s : string) : string := replace_from 0 old new s.

(** [s.replace(old, new, 1)] for a non-empty [old]. *)
Fixpoint replace1 (old new s : string) : string :=
  match s with
  | EmptyString => EmptyString
  | String c t => if prefix old s then new ++ drop (String.length old) s
                  else String c (replace1 old new t)
  end.

Fixpoint lstrip (s : string) : string :=
  match s with
  | String c t => if isspace c then lstrip t else s
  | EmptyString => EmptyString
  end.

Fixpoint rstrip (s : string) : string :=
  match s with
  | EmptyString => EmptyString
  | String c t =>
      match rstrip t with
      | EmptyString => if isspace c then EmptyString else String c EmptyString
      | r => String c r
      end
  end.

(** [s.strip()] *)
Definition strip (s : string) : string := rstrip (lstrip s).

(** [str(n)] for an integer. *)
Definition str_of_Z (n : Z) : string := NilZero.string_of_int (Z.to_int n).

(** The digits of [int(s)] after the sign: groups of digits separated by
    single underscores. *)
Fixpoint int_digits (acc : Z) (after_digit : bool) (s : string) : option Z :=
  match s with
  | EmptyString => if after_digit then Some acc else None
  | String c t =>
      if isdigit c then int_digits (10 * acc + digit_val c) true t
      else if (Ascii.eqb c "_" && after_digit)%bool then int_digits acc false t
      else None
  end.

(** [int(s)]: surrounding whitespace is ignored, then an optional sign and
    the digits.  (The cap on the number of digits of recent interpreters is
    not modelled.) *)
Definition int (s : string) : res Z :=
  let t := strip s in
  let '(neg, u) := match t with
                   | String "-" r => (true, r)
                   | String "+" r => (false, r)
                   | _ => (false, t)
                   end in
  match int_digits 0 false u with
  | Some n => Ok (if neg then - n else n)
  | None => Raise ValueError
  end.

End Py.

(** ** The [decimal] module

    A finite [Decimal] is a sign, a coefficient and an exponent; its value is
    [(-1)^sign * coeff * 10^exp].  Arithmetic follows the default context:
    28 significant digits, round-half-even, exponents within
    [-999999 .. 999999], the Overflow and InvalidOperation signals trapped.
    The special values (infinities and NaNs) that the constructor also
    accepts are outside this model: [Decimal] rejects their spellings. *)

Module Dec.

Record t : Set := mk { sign : bool; coeff : Z; exp : Z }.

Definition prec : Z := 28.
Definition Emax : Z := 999999.
Definition Emin : Z := -999999.
Definition Etiny : Z := Emin - prec + 1.
Definition Etop : Z := Emax - prec + 1.

(** The number of decimal digits of a coefficient ([len(self._int)]). *)
Fixpoint ndigits_fuel (fuel : nat) (c : Z) : Z :=
  match fuel with
  | O => 1
  | S f => if c <? 10 then 1 else 1 + ndigits_fuel f (c / 10)
  end.

Definition ndigits (c : Z) : Z := ndigits_fuel (Z.to_nat (Z.log2 c)) c.

(** The longest prefix of ASCII digits, and the rest. *)
Fixpoint span_digits (s : string) : string * string :=
  match s with
  | String c t =>
      if Py.isdigit c then let '(d, r) := span_digits t in (String c d, r)
      else (EmptyString, s)
  | EmptyString => (EmptyString, EmptyString)
  end.

Fixpoint digits_val (acc : Z) (s : string) : Z :=
  match s with
  | EmptyString => acc
  | String c t => digits_val (10 * acc + Py.digit_val c) t
  end.

Definition split_sign (s : string) : bool * string :=
  match s with
  | String "-" r => (true, r)
  | String "+" r => (false, r)
  | _ => (false, s)
  end.

(** The exponent part after the indicator: an optional sign and at least
    one digit, up to the end of the string. *)
Definition exponent (s : string) : option Z :=
  let '(neg, u) := split_sign s in
  match span_digits u with
  | (String c d, EmptyString) =>
      let n := digits_val 0 (String c d) in Some (if neg then - n else n)
  | _ => None
  end.

(** [Decimal(s)] for a string: whitespace around the literal and
    underscores are dropped; then
    [[sign] (digits [. [digits]] | . digits) [E [sign] digits]]. *)
Definition Decimal (s : string) : res t :=
  let '(neg, u) := split_sign (Py.replace "_" "" (Py.strip s)) in
  let '(ip, r1) := span_digits u in
  let '(fp, r2) := match r1 with
                   | String "." r => span_digits r
                   | _ => (EmptyString, r1)
                   end in
  match (ip ++ fp)%string with
  | EmptyString => Raise InvalidOperation
  | ds =>
      let c := digits_val 0 ds in
      let e := - Z.of_nat (String.length fp) in
      match r2 with
      | EmptyString => Ok (mk neg c e)
      | String i r3 =>
          if (Ascii.eqb i "e" || Ascii.eqb i "E")%bool then
            match exponent r3 with
            | Some x => Ok (mk neg c (e + x))
            | None => Raise InvalidOperation
            end
          else Raise InvalidOperation
      end
  end.

(** [Decimal(0)], the value an [int] zero is converted to. *)
Definition zero : t := mk false 0 0.

(** [_fix]: round to the context precision and check the exponent range. *)
Definition fix_ (d : t) : res t :=
  let '(mk s c e) := d in
  if c =? 0 then Ok (mk s 0 (Z.min (Z.max e Etiny) Emax))
  else
    let exp_min := ndigits c + e - prec in
    if Etop <? exp_min then Raise Overflow
    else
      let exp_min := Z.max exp_min Etiny in
      if e <? exp_min then
        let p := 10 ^ (exp_min - e) in
        let q := c / p in
        let r := c mod p in
        let up := ((p <? 2 * r) || ((p =? 2 * r) && Z.odd q))%bool in
        let q' := if up then q + 1 else q in
        let '(q'', exp_min') :=
          if (up && (prec <? ndigits q'))%bool
          then (q' / 10, exp_min + 1) else (q', exp_min) in
        if Etop <? exp_min' then Raise Overflow
        else Ok (mk s q'' exp_min')
      else Ok d.

Definition signed (d : t) (e : Z) : Z :=
  (if sign d then -1 else 1) * (coeff d * 10 ^ (exp d - e)).

(** The untruncated sum: exponent [min], coefficient the exact sum at that
    exponent.  A zero sum is negative only when both operands are negative
    zeros. *)
Definition add_exact (a b : t) : t :=
  let e := Z.min (exp a) (exp b) in
  let v := signed a e + signed b e in
  if v =? 0
  then mk ((coeff a =? 0) && (coeff b =? 0) && sign a && sign b)%bool 0 e
  else mk (v <? 0) (Z.abs v) e.

(** [a + b] in the default context. *)
Definition add (a b : t) : res t := fix_ (add_exact a b).

Definition zeros (n : Z) : string :=
  String.concat "" (repeat "0" (Z.to_nat n)).

Definition signed_str (n : Z) : string :=
  (if n <? 0 then "-" else "+") ++ Py.str_of_Z (Z.abs n).

(** [str(d)], which is also ['{0}'.format(d)]: plain notation when the
    exponent is not positive and the number is not too small, scientific
    notation otherwise. *)
Definition str (d : t) : string :=
  let ds := Py.str_of_Z (coeff d) in
  let len := Z.of_nat (String.length ds) in
  let leftdigits := exp d + len in
  let dotplace :=
    if ((exp d <=? 0) && (-6 <? leftdigits))%bool then leftdigits else 1 in
  let intpart :=
    if dotplace <=? 0 then "0"
    else if len <=? dotplace then (ds ++ zeros (dotplace - len))%string
    else Py.take (Z.to_nat dotplace) ds in
  let fracpart :=
    if dotplace <=? 0 then ("." ++ zeros (- dotplace) ++ ds)%string
    else if len <=? dotplace then ""
    else ("." ++ Py.drop (Z.to_nat dotplace) ds)%string in
  let e :=
    if leftdigits =? dotplace then ""
    else ("E" ++ signed_str (leftdigits - dotplace))%string in
  ((if sign d then "-" else "") ++ intpart ++ fracpart ++ e)%string.

(** Numeric comparison, as [<] and [==] do on finite decimals. *)
Definition value_at (e : Z) (d : t) : Z := signed d e.

Definition ltb (a b : t) : bool :=
  let e := Z.min (exp a) (exp b) in signed a e <? signed b e.

Definition eqb (a b : t) : bool :=
  let e := Z.min (exp a) (exp b) in signed a e =? signed b e.

End Dec.

(** ** Dictionaries

    A [dict] keyed by strings, in insertion order: assigning to a key that
    is present replaces its value in place, a new key goes to the end. *)

Definition dict (V : Type) : Type := list (string * V).

Fixpoint dict_get {V : Type} (k : string) (d : dict V) : option V :=
  match d with
  | [] => None
  | (k', v) :: t => if String.eqb k k' then Some v else dict_get k t
  end.

Fixpoint dict_set {V : Type} (k : string) (v : V) (d : dict V) : dict V :=
  match d with
  | [] => [(k, v)]
  | (k', v') :: t =>
      if String.eqb k k' then (k, v) :: t else (k', v') :: dict_set k v t
  end.

Definition dict_mem {V : Type} (k : string) (d : dict V) : bool :=
  match dict_get k d with Some _ => true | None => false end.

Definition keys {V : Type} (d : dict V) : list string := map fst d.

(** ** Data of the script *)

(** district numeral offset in name *)
Definition DN_OFF : nat := 2.

(** valid district numerals for SM *)
Definition valid_districts : list Z := [0; 1; 2; 3; 4; 5; 6; 7].

Definition in_Z (n : Z) (l : list Z) : bool := existsb (Z.eqb n) l.

(** OpenGD77 CPS Channels.csv field names *)
Definition fieldnames : list string :=
  ["Channel Number"; "Channel Name"; "Channel Type"; "Rx Frequency";
   "Tx Frequency"; "Bandwidth (kHz)"; "Colour Code"; "Timeslot"; "Contact";
   "TG List"; "DMR ID"; "TS1_TA_Tx"; "TS2_TA_Tx ID"; "RX Tone"; "TX Tone";
   "Squelch"; "Power"; "Rx Only"; "Zone Skip"; "All Skip"; "TOT"; "VOX";
   "No Beep"; "No Eco"; "APRS"; "Latitude"; "Longitude"].

(** The parsed command line: [--home] and [--allskip] (a list when the
    option was given at least once). *)
Record Args : Set := { home : option Z; allskip : option (list Z) }.

Definition home_given (args : Args) : bool :=
  match home args with Some h => negb (h =? 0) | None => false end.

Definition allskip_given (args : Args) : bool :=
  match allskip args with Some (_ :: _) => true | _ => false end.

(** One row of the repeater database, as [csv.DictReader] yields it. *)
Module Row.
Record t : Set := mk {
  district : string; type : string; status : string; mode : string;
  band : string; call : string; city : string; output : string;
  tx_shift : string; access : string; network : string;
  lat : string; lng : string }.
End Row.

(** A channel is a [dict] from field names to values; the two integer
    values (Timeslot, Channel Number) are kept as the text [csv] writes. *)
Definition channel : Type := dict string.

(** Everything the script prints. *)
Inductive msg : Set :=
| ErrAllskip (skip : Z)
| ErrExclusive
| ErrHome (h : Z)
| WarnCustomNumber (name : string)
| WarnDistrict (district : ascii) (name : string)
| ForcedShorten (name shortened : string)
| WarnZone (zone : string).

(** Code that prints and may raise: what was printed, then the result. *)
Definition io (A : Type) : Type := list msg * res A.

Definition ret {A : Type} (a : A) : io A := ([], Ok a).
Definition print (m : msg) : io unit := ([m], Ok tt).
Definition lift {A : Type} (r : res A) : io A := ([], r).

Definition bind_io {A B : Type} (m : io A) (k : A -> io B) : io B :=
  match m with
  | (w, Ok a) => let '(w', r) := k a in ((w ++ w')%list, r)
  | (w, Raise e) => (w, Raise e)
  end.

Notation "x <~ m ;; k" := (bind_io m (fun x => k))
  (at level 61, m at next level, right associativity).

Definition O_stroke : string := String (Py.chr 216) "".

(** ** Record filter (lines 73 and 76) *)

Definition accepted (row : Row.t) : bool :=
  ((String.length (Row.district row) =? 1)%nat
   && Py.contains "Repeater" (Row.type row)
   && Py.contains "QRV" (Row.status row)
   && (Py.contains "DMR" (Row.mode row) || Py.contains "FM" (Row.mode row))
   && (String.eqb (Row.band row) "2" || String.eqb (Row.band row) "70"))%bool.

(** ** Channel deriver (lines 77 to 153) *)

(** The match of [[0-9]+\.[0-9]] anchored at the start of [s]: the digits
    are taken greedily, so the point has to follow the whole run. *)
Fixpoint tone_at (s : string) : option string :=
  match s with
  | String c t =>
      if Py.isdigit c then
        match t with
        | String "." (String d _) =>
            if Py.isdigit d then Some (String c (String "." (String d "")))
            else None
        | _ => match tone_at t with
               | Some m => Some (String c m)
               | None => None
               end
        end
      else None
  | EmptyString => None
  end.

(** [tone_pattern.search(s)]: the leftmost match. *)
Fixpoint tone_search (s : string) : option string :=
  match tone_at s with
  | Some m => Some m
  | None => match s with
            | String _ t => tone_search t
            | EmptyString => None
            end
  end.

Definition proposed_name (row : Row.t) : string :=
  let callsign := Py.replace O_stroke "0" (Row.call row) in
  let callsign := if Py.contains "/" callsign
                  then Py.slice_to (Py.find "/" callsign) callsign
                  else callsign in
  let callsign := if Py.contains "-" callsign
                  then Py.slice_to (Py.find "-" callsign) callsign
                  else callsign in
  let city := Py.strip (Row.city row) in
  let city := if Py.contains " /" city
              then Py.slice_to (Py.find " /" city) city else city in
  let city := Py.replace "Upplands " "U." city in
  let band := if Py.contains "2" (Row.band row) then "2m" else "70cm" in
  Py.strip (Py.slice_to 16 (callsign ++ " " ++ city ++ " " ++ band)).

(** The guard of line 108 on the transmit shift. *)
Definition shift_guard (s : string) : bool :=
  Py.isnumeric (Py.replace "-" "" (Py.replace "." "" s)).

Definition digital_fields (row : Row.t) (ch : channel) : channel :=
  let cc_idx := Py.find "CC" (Row.access row) in
  if negb (cc_idx =? -1) then
    let ch := dict_set "Colour Code"
                (Py.slice (cc_idx + 3) (cc_idx + 5) (Row.access row)) ch in
    let ch := dict_set "Timeslot" "1" ch in
    let net := if negb (Py.contains "BM" (Row.network row))
               then Row.network row else "Brandmeister" in
    let ch := dict_set "TG List"
                (if negb (Py.contains "Brandmeister" net) then net
                 else "Brandmeister") ch in
    let ch := dict_set "DMR ID" "None" ch in
    let ch := dict_set "TS1_TA_Tx" "Off" ch in
    dict_set "TS2_TA_Tx ID" "Off" ch
  else ch.

Definition analogue_fields (row : Row.t) (ch : channel) : channel :=
  let ch := dict_set "Bandwidth (kHz)" "12.5" ch in
  let tone := match tone_search (Row.access row) with
              | None => ""
              | Some m => m
              end in
  let ch := dict_set "RX Tone" tone ch in
  let ch := dict_set "TX Tone" tone ch in
  dict_set "Squelch" "Disabled" ch.

Definition all_skip (args : Args) (district : Z) : bool :=
  (match home args with Some h => negb (district =? h) | None => false end
   || (allskip_given args
       && match allskip args with
          | Some l => in_Z district l
          | None => false
          end))%bool.

(** Lines 77 to 153: the proposed name and the channel, with the warning
    printed on the way, or the exception that ends the run. *)
Definition derive (args : Args) (row : Row.t) : io (string * channel) :=
  let name := proposed_name row in
  district <~ lift (Py.index name DN_OFF) ;;
  invalid <~ lift (if negb (Py.isnumeric_char district) then Ok true
                   else n <- Py.int (String district "") ;;
                        Ok (negb (in_Z n valid_districts))) ;;
  _ <~ (if invalid then print (WarnDistrict district name) else ret tt) ;;
  district <~ lift (Py.int (Row.district row)) ;;
  let ch : channel :=
    dict_set "Channel Type"
      (if Py.contains "DMR" (Row.mode row) then "Digital" else "Analogue")
      [] in
  let ch := dict_set "Rx Frequency" (Row.output row) ch in
  offset <~ lift (if shift_guard (Row.tx_shift row)
                  then Dec.Decimal (Row.tx_shift row) else Ok Dec.zero) ;;
  out <~ lift (Dec.Decimal (Row.output row)) ;;
  tx <~ lift (Dec.add out offset) ;;
  let ch := dict_set "Tx Frequency" (Dec.str tx) ch in
  let ch := if match dict_get "Channel Type" ch with
               | Some ty => String.eqb ty "Digital"
               | None => false
               end
            then digital_fields row ch else analogue_fields row ch in
  let ch := dict_set "Power" "Master" ch in
  let ch := dict_set "Rx Only" "No" ch in
  let ch := dict_set "Zone Skip" "No" ch in
  let ch := dict_set "All Skip"
              (if all_skip args district then "Yes" else "No") ch in
  let ch := dict_set "TOT" "0" ch in
  let ch := dict_set "VOX" "Off" ch in
  let ch := dict_set "No Beep" "No" ch in
  let ch := dict_set "No Eco" "No" ch in
  let ch := dict_set "APRS" "None" ch in
  let ch := dict_set "Latitude" (Py.replace "." "," (Row.lat row)) ch in
  let ch := dict_set "Longitude" (Py.replace "." "," (Row.lng row)) ch in
  ret (name, ch).

(** ** Name disambiguation (lines 156 to 188) *)

Definition mode_of (ch : channel) : string :=
  match dict_get "Channel Type" ch with
  | Some "Digital" => "DMR"
  | _ => "FM"
  end.

(** One pass through the body of the [while] loop. *)
Definition rename (mode name : string) : string * list msg :=
  if (Py.contains " 7" name || Py.contains " 2" (Py.drop 10 name))%bool
  then (Py.slice_to (Py.rfind " " name) name, [])
  else if (String.length name <? 15)%nat
  then (Py.slice_to 16 (name ++ " " ++ mode), [])
  else if (String.length name <? 16)%nat
  then (if String.eqb mode "FM" then name ++ "A" else name ++ "D", [])
  else if Py.contains " " name then (Py.replace1 " " "_" name, [])
  else if Py.contains "_" name then (Py.replace1 "_" "." name, [])
  else if Py.contains "." name then (Py.replace1 "." "-" name, [])
  else if Py.contains "-" name then (Py.replace1 "-" "/" name, [])
  else let short := Py.strip (Py.slice_to (-2) name) in
       (short, [ForcedShorten name short]).

(** [while name in channels: ...]: the name the loop ends with and what it
    printed, or [None] when [fuel] passes were not enough. *)
Fixpoint unique_name (fuel : nat) (channels : dict channel) (mode : string)
  (name : string) : option (string * list msg) :=
  if negb (dict_mem name channels) then Some (name, [])
  else match fuel with
       | O => None
       | S f =>
           let '(name', w) := rename mode name in
           match unique_name f channels mode name' with
           | Some (r, ws) => Some (r, (w ++ ws)%list)
           | None => None
           end
       end.

(** ** Reading the repeater database (lines 68 to 191)

    [None] when a disambiguation loop outlives the fuel; otherwise what was
    printed and the channels, or the exception that ended the run. *)
Fixpoint read_channels (fuel : nat) (args : Args) (rows : list Row.t)
  (channels : dict channel) : option (io (dict channel)) :=
  match rows with
  | [] => Some (ret channels)
  | row :: rest =>
      if accepted row then
        match derive args row with
        | (w, Raise e) => Some (w, Raise e)
        | (w, Ok (name, ch)) =>
            match unique_name fuel channels (mode_of ch) name with
            | None => None
            | Some (name', w') =>
                match read_channels fuel args rest
                        (dict_set name' ch channels) with
                | None => None
                | Some (ws, r) => Some ((w ++ w' ++ ws)%list, r)
                end
            end
        end
      else read_channels fuel args rest channels
  end.

(** ** Custom channels (lines 58 to 65)

    A row of the custom file is the list of its fields.  [csv.DictReader]
    skips rows without fields, fills missing fields with [None], and keeps
    surplus fields under the key [None], which [DictWriter] refuses. *)

Definition pad_fields (row : list string) : list string :=
  firstn (List.length fieldnames) (row ++ repeat "" (List.length fieldnames))%list.

Definition custom_row (row : list string) : res (list string) * list msg :=
  let name := nth_error row 1 in
  match Py.int (nth 0 row "") with
  | Raise e => (Raise e, [])
  | Ok n =>
      let w := if 499 <? n
               then [WarnCustomNumber
                       (match name with Some s => s | None => "None" end)]
               else [] in
      match name with
      | None => (Raise TypeError, w)
      | Some s =>
          let name' := Py.strip (Py.slice_to 16 s) in
          if (List.length fieldnames <? List.length row)%nat
          then (Raise ValueError, w)
          else (Ok (pad_fields (nth 0 row "" :: name' :: skipn 2 row)), w)
      end
  end.

(** The rows written so far, what was printed, and the exception if one
    ended the loop. *)
Fixpoint custom_channels (rows : list (list string))
  : list (list string) * list msg * option exn :=
  match rows with
  | [] => ([], [], None)
  | [] :: rest => custom_channels rest
  | row :: rest =>
      match custom_row row with
      | (Raise e, w) => ([], w, Some e)
      | (Ok out, w) =>
          let '(outs, ws, e) := custom_channels rest in
          (out :: outs, (w ++ ws)%list, e)
      end
  end.

(** ** Sorted emission (lines 194 to 201) *)

Definition sort_key : Type := string * ascii * Dec.t.

Definition field (k : string) (data : channel) : res string :=
  match dict_get k data with
  | Some v => Ok v
  | None => Raise KeyError
  end.

(** [key=lambda c: (c[1]['Channel Type'], c[0][DN_OFF],
    Decimal(c[1]['Rx Frequency']))] *)
Definition key_of (c : string * channel) : res sort_key :=
  ty <- field "Channel Type" (snd c) ;;
  d <- Py.index (fst c) DN_OFF ;;
  rx <- field "Rx Frequency" (snd c) ;;
  f <- Dec.Decimal rx ;;
  Ok (ty, d, f).

Definition char_ltb (a b : ascii) : bool := (Py.ord a <? Py.ord b)%nat.

(** [<] on the key tuples: the first component that differs decides. *)
Definition key_ltb (a b : sort_key) : bool :=
  let '(ta, ca, fa) := a in
  let '(tb, cb, fb) := b in
  if negb (String.eqb ta tb) then String.ltb ta tb
  else if negb (Ascii.eqb ca cb) then char_ltb ca cb
  else Dec.ltb fa fb.

Fixpoint keyed {A : Type} (key : A -> res sort_key) (l : list A)
  : res (list (sort_key * A)) :=
  match l with
  | [] => Ok []
  | x :: t => k <- key x ;; r <- keyed key t ;; Ok ((k, x) :: r)
  end.

(** A stable sort: an element is put before the first one that is not
    smaller, so equal keys keep the order they came in. *)
Fixpoint insert {A : Type} (x : sort_key * A) (l : list (sort_key * A))
  : list (sort_key * A) :=
  match l with
  | [] => [x]
  | y :: t => if key_ltb (fst y) (fst x) then y :: insert x t else x :: l
  end.

Fixpoint sort {A : Type} (l : list (sort_key * A)) : list (sort_key * A) :=
  match l with
  | [] => []
  | x :: t => insert x (sort t)
  end.

(** [sorted(channels.items(), key=...)] *)
Definition sorted (channels : dict channel) : res (list (string * channel)) :=
  ks <- keyed key_of channels ;; Ok (map snd (sort ks)).

(** [DictWriter.writerow]: the values in the order of [fieldnames], empty
    for a missing key. *)
Definition writerow (data : channel) : list string :=
  map (fun k => match dict_get k data with Some v => v | None => "" end)
    fieldnames.

(** The loop of line 195 from a given [id]. *)
Fixpoint number (id : Z) (l : list (string * channel)) : list (list string) :=
  match l with
  | [] => []
  | (name, data) :: t =>
      let id := id + 1 in
      let data := dict_set "Channel Number" (Py.str_of_Z id) data in
      let data := dict_set "Channel Name" name data in
      writerow data :: number id t
  end.

Definition generated (channels : dict channel) : res (list (list string)) :=
  l <- sorted channels ;; Ok (number 500 l).

(** ** The text written by [csv]

    The dialect is [excel] with [;] as the delimiter: a field is quoted
    when it holds the delimiter, the quote character or a line break, and
    quote characters inside it are doubled. *)

Definition quotechar : ascii := Py.chr 34.
Definition CR : ascii := Py.chr 13.
Definition LF : ascii := Py.chr 10.
Definition CRLF : string := String CR (String LF "").

Fixpoint existsb_str (p : ascii -> bool) (s : string) : bool :=
  match s with
  | EmptyString => false
  | String c t => (p c || existsb_str p t)%bool
  end.

Definition special (c : ascii) : bool :=
  (Ascii.eqb c ";" || Ascii.eqb c quotechar || Ascii.eqb c CR
   || Ascii.eqb c LF)%bool.

Fixpoint double_quotes (s : string) : string :=
  match s with
  | EmptyString => EmptyString
  | String c t =>
      if Ascii.eqb c quotechar
      then String c (String c (double_quotes t))
      else String c (double_quotes t)
  end.

Definition csv_field (s : string) : string :=
  if existsb_str special s
  then String quotechar (double_quotes s ++ String quotechar "")
  else s.

Definition csv_line (fields : list string) : string :=
  String.concat ";" (map csv_field fields) ++ CRLF.

Definition csv_lines (rows : list (list string)) : string :=
  String.concat "" (map csv_line rows).

(** ** Zones (lines 204 to 236) *)

Definition zones_t : Type := dict (list string).

(** The catalog, created empty. *)
Definition empty_zones : zones_t :=
  fold_left
    (fun zones district =>
       let d := Py.str_of_Z district in
       let zones := dict_set ("SM" ++ d ++ " All Channels") [] zones in
       let zones := dict_set ("SM" ++ d ++ " Analogue") [] zones in
       dict_set ("SM" ++ d ++ " DMR") [] zones)
    valid_districts
    (dict_set "All 70cm DMR" [] (dict_set "All 2m DMR" [] [])).

(** [zones[zone].append(name)] *)
Definition append (zone name : string) (zones : zones_t) : res zones_t :=
  match dict_get zone zones with
  | Some l => Ok (dict_set zone (l ++ [name])%list zones)
  | None => Raise KeyError
  end.

(** [len(zones[zone]) > 80] and the warning. *)
Definition check_size (zone : string) (zones : zones_t) : io unit :=
  match dict_get zone zones with
  | Some l => if (80 <? List.length l)%nat then print (WarnZone zone)
              else ret tt
  | None => lift (Raise KeyError)
  end.

Definition add_checked (zone name : string) (zones : zones_t) : io zones_t :=
  zones <~ lift (append zone name zones) ;;
  _ <~ check_size zone zones ;;
  ret zones.

(** The body of the loop of line 214 for one row read back from
    Channels.csv, given as its 27 fields. *)
Definition bucket (row : list string) (zones : zones_t) : io zones_t :=
  let name := Py.strip (nth 1 row "") in
  district <~ lift (Py.index name DN_OFF) ;;
  let mode := if Py.contains "Digital" (nth 2 row "")
              then "DMR" else "Analogue" in
  if Py.isnumeric_char district then
    let d := String district "" in
    zones <~ lift (append ("SM" ++ d ++ " " ++ mode) name zones) ;;
    zones <~ add_checked ("SM" ++ d ++ " All Channels") name zones ;;
    if String.eqb mode "DMR" then
      c <~ lift (Py.index (nth 3 row "") 0) ;;
      zones <~ (if Ascii.eqb c "1" then add_checked "All 2m DMR" name zones
                else ret zones) ;;
      c <~ lift (Py.index (nth 3 row "") 0) ;;
      if Ascii.eqb c "4" then add_checked "All 70cm DMR" name zones
      else ret zones
    else ret zones
  else ret zones.

Fixpoint populate (rows : list (list string)) (zones : zones_t)
  : io zones_t :=
  match rows with
  | [] => ret zones
  | row :: rest => zones <~ bucket row zones ;; populate rest zones
  end.

(** ** Zones.csv (lines 239 to 257) *)

Definition zone_fieldnames : list string :=
  "Zone Name"
  :: map (fun n => "Channel" ++ Py.str_of_Z (Z.of_nat n)) (seq 1 80).

(** [';' * n] *)
Definition semicolons (n : Z) : string :=
  String.concat "" (repeat ";" (Z.to_nat n)).

(** What lines 252 to 257 write for one zone. *)
Definition zone_row (zone : string * list string) : string :=
  let '(name, data) := zone in
  if (0 <? List.length data)%nat then
    let data := name :: data in
    String.concat ";" data ++ semicolons (81 - Z.of_nat (List.length data))
    ++ CRLF
  else "".

Definition zone_rows (zones : zones_t) : string :=
  String.concat "" (map zone_row zones).

Definition zones_csv (zones : zones_t) : string :=
  csv_line zone_fieldnames ++ zone_rows zones.

(** ** The whole run

    The two output files before and after the run ([None]: no such file),
    what was printed, and how the run ended. *)

Record files : Set := { Channels_csv : option string;
                        Zones_csv : option string }.

Inductive ending : Set :=
| Finished
| Exited
| Crashed (e : exn).

Record outcome : Set := { disk : files; printed : list msg; ended : ending }.

(** Lines 29 to 41: the message of the error that makes the script exit. *)
Fixpoint invalid_skip (l : list Z) : option msg :=
  match l with
  | [] => None
  | skip :: t => if negb (in_Z skip valid_districts)
                 then Some (ErrAllskip skip) else invalid_skip t
  end.

Definition validate (args : Args) : option msg :=
  match (if allskip_given args then
           match invalid_skip (match allskip args with
                               | Some l => l
                               | None => []
                               end) with
           | Some m => Some m
           | None => if home_given args then Some ErrExclusive else None
           end
         else None) with
  | Some m => Some m
  | None =>
      match home args with
      | Some h => if (home_given args && negb (in_Z h valid_districts))%bool
                  then Some (ErrHome h) else None
      | None => None
      end
  end.

(** Lines 44 to 201, the body of the first [with]: the rows written to
    Channels.csv after the header (those of the custom file, then the
    generated ones), what was printed, and the exception if one ended the
    block.  The generated rows are written only after every record has been
    read and the channels have been sorted.  [None]: a disambiguation loop
    never ends.  [custom] is the content of the [--custom] file when the
    option is given, [rows] the content of the repeater database; both files
    are taken to exist and to parse. *)
Definition write_channels (fuel : nat) (args : Args)
  (custom : option (list (list string))) (rows : list Row.t)
  : option (list (list string) * list (list string) * list msg * option exn) :=
  let '(crows, w1, e1) := match custom with
                          | Some c => custom_channels c
                          | None => ([], [], None)
                          end in
  match e1 with
  | Some e => Some (crows, [], w1, Some e)
  | None =>
      match read_channels fuel args rows [] with
      | None => None
      | Some (w2, Raise e) => Some (crows, [], (w1 ++ w2)%list, Some e)
      | Some (w2, Ok channels) =>
          match generated channels with
          | Raise e => Some (crows, [], (w1 ++ w2)%list, Some e)
          | Ok grows => Some (crows, grows, (w1 ++ w2)%list, None)
          end
      end
  end.

(** The script from line 29 on.  The rows that the second pass reads back
    from Channels.csv are the rows written. *)
Definition main (fuel : nat) (args : Args) (custom : option (list (list string)))
  (rows : list Row.t) (before : files) : option outcome :=
  match validate args with
  | Some m => Some {| disk := before; printed := [m]; ended := Exited |}
  | None =>
      match write_channels fuel args custom rows with
      | None => None
      | Some (crows, grows, w, e) =>
          let text := csv_line fieldnames ++ csv_lines (crows ++ grows) in
          match e with
          | Some e =>
              Some {| disk := {| Channels_csv := Some text;
                                 Zones_csv := Zones_csv before |};
                      printed := w; ended := Crashed e |}
          | None =>
              match populate (crows ++ grows)%list empty_zones with
              | (w3, Raise e) =>
                  Some {| disk := {| Channels_csv := Some text;
                                     Zones_csv := Zones_csv before |};
                          printed := (w ++ w3)%list; ended := Crashed e |}
              | (w3, Ok zones) =>
                  Some {| disk := {| Channels_csv := Some text;
                                     Zones_csv := Some (zones_csv zones) |};
                          printed := (w ++ w3)%list; ended := Finished |}
              end
          end
      end
  end.

(** ** Notions and inputs of the statements *)

(** No [--home], no [--allskip]. *)
Definition noargs : Args := {| home := None; allskip := None |}.

(** The record of the scenario, for any network and position. *)
Definition uppland (network lat lng : string) : Row.t :=
  Row.mk "3" "Repeater" "QRV" "FM" "2" ("SK3" ++ O_stroke ++ "A")
    "Uppland /X" "145.600" "-0.600" "67.0" network lat lng.

(** A record whose shift carries a plus sign. *)
Definition plus_shift : Row.t :=
  Row.mk "0" "Repeater" "QRV" "FM" "2" "SK0AB" "Solna" "145.600" "+0.600"
    "" "" "" "".

(** The channel derived from it. *)
Definition uppland_channel : channel :=
  Eval vm_compute in
    match derive noargs (uppland "" "" "") with
    | (_, Ok (_, ch)) => ch
    | _ => []
    end.

(** A record with a letter for a district and neither call sign nor city. *)
Definition nameless : Row.t :=
  Row.mk "x" "Repeater" "QRV" "FM" "2" "" "" "145.600" "" "" "" "" "".

(** A record with a letter for a district and a well-formed call sign. *)
Definition letter_district : Row.t :=
  Row.mk "x" "Repeater" "QRV" "FM" "2" "SK0XX" "Kista" "145.600" "" ""
    "" "" "".

(** A record whose call sign fills the sixteen characters of the name. *)
Definition twin : Row.t :=
  Row.mk "0" "Repeater" "QRV" "FM" "2" "ABCDEFGHIJKLMNOP" "" "145.600" ""
    "" "" "" "".

(** The six names the loop goes round. *)
Definition cycle : list string :=
  ["ABCDEFGHIJKLMN"; "ABCDEFGHIJKLMN F"; "ABCDEFGHIJKLMN_F";
   "ABCDEFGHIJKLMN.F"; "ABCDEFGHIJKLMN-F"; "ABCDEFGHIJKLMN/F"].

(** [a] is not after [b] in the order of the keys. *)
Definition key_le (a b : sort_key) : Prop := key_ltb b a = false.

(** What holds of the registry all along: no name twice, no name longer
    than sixteen characters, and in every channel a type and a receive
    frequency that [Decimal] reads. *)
Definition well_formed (channels : dict channel) : Prop :=
  NoDup (keys channels) /\
  forall name ch, In (name, ch) channels ->
    (String.length name <= 16)%nat /\
    (exists ty, dict_get "Channel Type" ch = Some ty) /\
    (exists rx out, dict_get "Rx Frequency" ch = Some rx
                    /\ Dec.Decimal rx = Ok out).

(** The fields of a row that the second pass and the sort look at. *)
Definition number_of (row : list string) : string := nth 0 row "".
Definition name_of (row : list string) : string := nth 1 row "".
Definition type_of (row : list string) : string := nth 2 row "".
Definition rx_of (row : list string) : string := nth 3 row "".


(** What is written for a row of the custom file: the name cut to sixteen
    characters and stripped, the other fields as they are. *)
Definition custom_written (row : list string) : list string :=
  pad_fields (nth 0 row "" :: Py.strip (Py.slice_to 16 (nth 1 row ""))
              :: skipn 2 row).

(** The rows that [csv.DictReader] does not skip. *)
Definition nonblank (row : list string) : bool :=
  match row with [] => false | _ => true end.

(** Two rows of a custom file that bear the same name. *)
Definition namesakes : list (list string) := [["1"; "DUP"]; ["2"; "DUP"]].

(** A digital repeater. *)
Definition boras : Row.t :=
  Row.mk "6" "Repeater" "QRV" "DMR FM" "70" "SK6RFQ" "Boras" "434.5625"
    "-2.000" "CC 6" "BM" "57.72" "12.94".

(** Five accepted records; the last two are the same. *)
Definition database : list Row.t :=
  [twin; boras; uppland "" "57.1" "17.6"; plus_shift; plus_shift].

(** The registry and the warnings that reading the database yields, and
    the rows written for the custom file and for the registry. *)
Definition registry : dict channel :=
  Eval vm_compute in
    match read_channels 1 noargs database [] with
    | Some (_, Ok channels) => channels
    | _ => []
    end.

Definition database_log : list msg :=
  Eval vm_compute in
    match read_channels 1 noargs database [] with
    | Some (w, _) => w
    | _ => []
    end.

Definition namesakes_written : list (list string) :=
  Eval vm_compute in map custom_written namesakes.

Definition database_rows : list (list string) :=
  Eval vm_compute in
    match generated registry with Ok grows => grows | _ => [] end.

(** An accepted record whose call sign has the numeral 9, which is no
    district of SM. *)
Definition morokulien : Row.t :=
  Row.mk "4" "Repeater" "QRV" "FM" "2" "SJ9WL" "Morokulien" "145.600"
    "-0.600" "" "" "" "".

(** A crowd of 81 channels of district 0, as they are read back from
    Channels.csv. *)
Definition crowd : list (list string) :=
  map (fun i => [Py.str_of_Z (500 + Z.of_nat i);
                 "SM0" ++ Py.str_of_Z (Z.of_nat i); "Analogue"; "145.600"])
    (seq 1 81).

(** The fields of a line: the pieces between the semicolons. *)
Fixpoint split_fields (s : string) : list string :=
  match s with
  | EmptyString => [""]
  | String c t =>
      if Ascii.eqb c ";" then "" :: split_fields t
      else match split_fields t with
           | f :: fs => String c f :: fs
           | [] => [String c ""]
           end
  end.

(** Files left by an earlier run. *)
Definition old_files : files :=
  {| Channels_csv := Some "old channels"; Zones_csv := Some "old zones" |}.

(** The value of a string of decimal digits read after a value [acc]. *)
Fixpoint uint_val (acc : Z) (d : Decimal.uint) : Z :=
  match d with
  | Decimal.Nil => acc
  | Decimal.D0 l => uint_val (10 * acc + 0) l
  | Decimal.D1 l => uint_val (10 * acc + 1) l
  | Decimal.D2 l => uint_val (10 * acc + 2) l
  | Decimal.D3 l => uint_val (10 * acc + 3) l
  | Decimal.D4 l => uint_val (10 * acc + 4) l
  | Decimal.D5 l => uint_val (10 * acc + 5) l
  | Decimal.D6 l => uint_val (10 * acc + 6) l
  | Decimal.D7 l => uint_val (10 * acc + 7) l
  | Decimal.D8 l => uint_val (10 * acc + 8) l
  | Decimal.D9 l => uint_val (10 * acc + 9) l
  end.

(** Neither key is before the other. *)
Definition same_key (a b : sort_key) : bool :=
  (negb (key_ltb a b) && negb (key_ltb b a))%bool.

(** The channels whose sort key ties with [k]. *)
Definition tied (k : sort_key) (c : string * channel) : bool :=
  match key_of c with
  | Ok k' => same_key k k'
  | Raise _ => false
  end.

(** The registry in the order of the emission, and the key of its two
    channels of Solna, with the frequency written in another way. *)
Definition registry_sorted : list (string * channel) :=
  Eval vm_compute in
    match sorted registry with Ok l => l | Raise _ => [] end.

Definition solna_key : sort_key :=
  ("Analogue", "0"%char, Dec.mk false 1456 (-1)).

(** The zones to which the second pass appends the name of a row, in the
    order of lines 223 to 236, each with whether its size is checked after
    the append.  No zone when the name has no numeral at the district
    offset. *)
Definition targets (row : list string) : list (string * bool) :=
  match Py.index (Py.strip (nth 1 row "")) DN_OFF with
  | Ok district =>
      if Py.isnumeric_char district then
        let d := String district "" in
        if Py.contains "Digital" (nth 2 row "") then
          ("SM" ++ d ++ " DMR", false)
          :: ("SM" ++ d ++ " All Channels", true)
          :: match Py.index (nth 3 row "") 0 with
             | Ok c =>
                 ((if Ascii.eqb c "1" then [("All 2m DMR", true)] else [])
                  ++ (if Ascii.eqb c "4" then [("All 70cm DMR", true)]
                      else []))%list
             | Raise _ => []
             end
        else [("SM" ++ d ++ " Analogue", false);
              ("SM" ++ d ++ " All Channels", true)]
      else []
  | Raise _ => []
  end.

(** The appends of one row, one zone after the other. *)
Fixpoint add_all (name : string) (ts : list (string * bool))
  (zones : zones_t) : io zones_t :=
  match ts with
  | [] => ret zones
  | (zone, checked) :: rest =>
      zones <~ (if checked then add_checked zone name zones
                else lift (append zone name zones)) ;;
      add_all name rest zones
  end.

(** Whether the row is appended to the zone. *)
Definition joins (zone : string) (row : list string) : bool :=
  existsb (fun t => String.eqb zone (fst t)) (targets row).

(** The names of the rows that are appended to the zone, in the order of
    the rows. *)
Definition members (zone : string) (rows : list (list string))
  : list string :=
  map (fun row => Py.strip (name_of row)) (filter (joins zone) rows).

(** The zones of the modes are never bigger than the zone of all channels
    of their district, and no zone has more than 80 members. *)
Definition fits (zones : zones_t) : Prop :=
  (forall z l, dict_get z zones = Some l -> (List.length l <= 80)%nat) /\
  (forall c all l,
      dict_get ("SM" ++ String c "" ++ " All Channels") zones = Some all ->
      dict_get ("SM" ++ String c "" ++ " Analogue") zones = Some l \/
      dict_get ("SM" ++ String c "" ++ " DMR") zones = Some l ->
      (List.length l <= List.length all)%nat).

(** The zones that the rows of the database yield. *)
Definition database_zones : zones_t :=
  Eval vm_compute in
    match populate database_rows empty_zones with
    | (_, Ok zones) => zones
    | (_, Raise _) => []
    end.

(** What [[0-9]+\.[0-9]] matches: one digit or more, a point, one digit. *)
Definition tone_shape (m : string) : Prop :=
  exists ds d,
    m = ds ++ String "." (String d "") /\ ds <> "" /\
    Py.forallb_str Py.isdigit ds = true /\ Py.isdigit d = true.

(** The channel derived from the digital repeater. *)
Definition boras_channel : channel :=
  Eval vm_compute in
    match derive noargs boras with
    | (_, Ok (_, ch)) => ch
    | _ => []
    end.

(** A record with a call sign of one letter and no city, twice over. *)
Definition short_call : Row.t :=
  Row.mk "0" "Repeater" "QRV" "FM" "70" "S" "" "434.000" "" "" "" "" "".

Definition short_names : dict channel :=
  Eval vm_compute in
    match read_channels 1 noargs [short_call; short_call] [] with
    | Some (_, Ok channels) => channels
    | _ => []
    end.

Definition short_names_log : list msg :=
  Eval vm_compute in
    match read_channels 1 noargs [short_call; short_call] [] with
    | Some (w, _) => w
    | None => []
    end.

(** An accepted record whose call sign has a superscript two for a
    numeral. *)
Definition superscript : Row.t :=
  Row.mk "0" "Repeater" "QRV" "FM" "2" ("SK" ++ String (Py.chr 178) "AB")
    "Solna" "145.600" "" "" "" "" "".

(** The channel derived from the record of the scenario with its position. *)
Definition located_channel : channel :=
  Eval vm_compute in
    match derive noargs (uppland "" "57.1" "17.6") with
    | (_, Ok (_, ch)) => ch
    | _ => []
    end.

(** A text without a semicolon. *)
Definition no_semicolon (s : string) : bool :=
  negb (existsb_str (fun c => Ascii.eqb c ";") s).

(** An accepted record whose city holds a semicolon, the channel list and
    the zones that it yields. *)
Definition semicolon_city : Row.t :=
  Row.mk "0" "Repeater" "QRV" "FM" "2" "SK0AB" "a;b" "145.600" "" "" ""
    "" "".

Definition semicolon_rows : list (list string) :=
  Eval vm_compute in
    match write_channels 1 noargs None [semicolon_city] with
    | Some (_, grows, _, _) => grows
    | None => []
    end.

(** The spellings that [Decimal] reads as a special value, an infinity or
    a NaN: after the white space around the text and the underscores are
    dropped, an optional sign and then, in any case of the letters, [inf],
    [infinity], or [nan] or [snan] followed by digits.  These values are
    outside the model of [Decimal]. *)
Definition lower (c : ascii) : ascii :=
  if Py.between 65 90 c then Py.chr (Py.ord c + 32) else c.

Fixpoint lowercase (s : string) : string :=
  match s with
  | EmptyString => EmptyString
  | String c t => String (lower c) (lowercase t)
  end.

Definition special_value (s : string) : bool :=
  let u := lowercase (snd (Dec.split_sign (Py.replace "_" "" (Py.strip s)))) in
  (String.eqb u "inf" || String.eqb u "infinity"
   || (prefix "nan" u && Py.forallb_str Py.isdigit (Py.drop 3 u))
   || (prefix "snan" u && Py.forallb_str Py.isdigit (Py.drop 4 u)))%bool.

(** * Properties *)

(** ** The operations on examples *)

Example find_ex : Py.find "CC" "DMR CC 3" = 4. Proof. reflexivity. Qed.
Example rfind_ex : Py.rfind " " "SK7AB Lund 2m" = 10. Proof. reflexivity. Qed.
Example replace_ex :
  Py.replace "Upplands " "U." "Upplands Vasby" = "U.Vasby".
Proof. reflexivity. Qed.
Example strip_ex : Py.strip "  2m " = "2m". Proof. reflexivity. Qed.
Example slice_to_ex : Py.slice_to (-2) "abcde" = "abc". Proof. reflexivity. Qed.
Example int_ex : Py.int " 12_3" = Ok 123. Proof. reflexivity. Qed.
Example int_bad : Py.int "x" = Raise ValueError. Proof. reflexivity. Qed.

Example Decimal_ex : Dec.Decimal "145.600" = Ok (Dec.mk false 145600 (-3)).
Proof. reflexivity. Qed.
Example Decimal_shift : Dec.Decimal "-0.600" = Ok (Dec.mk true 600 (-3)).
Proof. reflexivity. Qed.
Example Decimal_two_points : Dec.Decimal "1.2.3" = Raise InvalidOperation.
Proof. reflexivity. Qed.
Example Decimal_point_only : Dec.Decimal "." = Raise InvalidOperation.
Proof. reflexivity. Qed.
Example Decimal_exp : Dec.Decimal " 1_0E+3 " = Ok (Dec.mk false 10 3).
Proof. reflexivity. Qed.
Example str_plain : Dec.str (Dec.mk false 145000 (-3)) = "145.000".
Proof. reflexivity. Qed.
Example str_sci : Dec.str (Dec.mk false 1 (-7)) = "1E-7".
Proof. reflexivity. Qed.
Example str_sci_zero : Dec.str (Dec.mk false 0 (-7)) = "0E-7".
Proof. reflexivity. Qed.
Example str_small : Dec.str (Dec.mk true 5 (-1)) = "-0.5".
Proof. reflexivity. Qed.
Example add_ex :
  Dec.add (Dec.mk false 145600 (-3)) (Dec.mk true 600 (-3))
  = Ok (Dec.mk false 145000 (-3)).
Proof. reflexivity. Qed.
Example add_cancel :
  Dec.add (Dec.mk true 600 (-3)) (Dec.mk false 600 (-3))
  = Ok (Dec.mk false 0 (-3)).
Proof. reflexivity. Qed.
Example add_int_zero :
  Dec.add (Dec.mk false 1 3) Dec.zero = Ok (Dec.mk false 1000 0).
Proof. reflexivity. Qed.
Example add_rounds :
  Dec.add (Dec.mk false 1 0) (Dec.mk false 1 (-29))
  = Ok (Dec.mk false (10 ^ 27) (-27)).
Proof. vm_compute. reflexivity. Qed.

Example tone_ex : tone_search "CTCSS 123.05 Hz" = Some "123.0".
Proof. reflexivity. Qed.
Example tone_none : tone_search "1750 Hz" = None.
Proof. reflexivity. Qed.
Example tone_second : tone_search "12.x 82.5" = Some "82.5".
Proof. reflexivity. Qed.

Example empty_zones_keys :
  firstn 5 (keys empty_zones)
  = ["All 2m DMR"; "All 70cm DMR"; "SM0 All Channels"; "SM0 Analogue";
     "SM0 DMR"].
Proof. reflexivity. Qed.

(** ** Lengths of the string operations *)

Section StringLengths.

Local Open Scope nat_scope.

Lemma take_length_le (n : nat) (s : string) :
  String.length (Py.take n s) <= n.
Proof.
  revert s; induction n as [|n IH]; intros [|c t]; simpl; try lia.
  specialize (IH t); lia.
Qed.

Lemma take_length_le_str (n : nat) (s : string) :
  String.length (Py.take n s) <= String.length s.
Proof.
  revert s; induction n as [|n IH]; intros [|c t]; simpl; try lia.
  specialize (IH t); lia.
Qed.

Lemma drop_length (n : nat) (s : string) :
  String.length (Py.drop n s) = String.length s - n.
Proof.
  revert s; induction n as [|n IH]; intros [|c t]; simpl; auto.
Qed.

Lemma slice_to_length_le (k : Z) (s : string) :
  String.length (Py.slice_to k s) <= String.length s.
Proof.
  unfold Py.slice_to; destruct (k <? 0)%Z; apply take_length_le_str.
Qed.

Lemma slice_to_16 (s : string) : String.length (Py.slice_to 16 s) <= 16.
Proof. apply (take_length_le 16). Qed.

Lemma append_length (s t : string) :
  String.length (s ++ t) = String.length s + String.length t.
Proof. induction s as [|c s IH]; simpl; auto. Qed.

Lemma prefix_length (p s : string) :
  prefix p s = true -> String.length p <= String.length s.
Proof.
  revert s; induction p as [|a p IH]; intros [|c t]; simpl; try lia;
    try discriminate.
  destruct (ascii_dec a c); try discriminate.
  intros H; specialize (IH _ H); lia.
Qed.

Lemma replace1_length (old new s : string) :
  String.length new <= String.length old ->
  String.length (Py.replace1 old new s) <= String.length s.
Proof.
  intros Hn; induction s as [|c t IH]; [simpl; auto|].
  change (Py.replace1 old new (String c t))
    with (if prefix old (String c t)
          then new ++ Py.drop (String.length old) (String c t)
          else String c (Py.replace1 old new t)).
  destruct (prefix old (String c t)) eqn:Hp.
  - apply prefix_length in Hp. rewrite append_length, drop_length. lia.
  - simpl; lia.
Qed.

Lemma lstrip_length (s : string) :
  String.length (Py.lstrip s) <= String.length s.
Proof.
  induction s as [|c t IH]; simpl; auto.
  destruct (Py.isspace c); simpl; lia.
Qed.

Lemma rstrip_length (s : string) :
  String.length (Py.rstrip s) <= String.length s.
Proof.
  induction s as [|c t IH]; simpl; auto.
  destruct (Py.rstrip t); [destruct (Py.isspace c)|]; simpl in *; lia.
Qed.

Lemma strip_length (s : string) :
  String.length (Py.strip s) <= String.length s.
Proof.
  unfold Py.strip.
  pose proof (rstrip_length (Py.lstrip s)); pose proof (lstrip_length s); lia.
Qed.

Lemma proposed_name_length (row : Row.t) :
  String.length (proposed_name row) <= 16.
Proof.
  unfold proposed_name.
  match goal with |- String.length (Py.strip ?s) <= _ =>
    pose proof (strip_length s) as H1 end.
  match type of H1 with _ <= String.length (Py.slice_to 16 ?s) =>
    pose proof (slice_to_16 s) as H2 end.
  lia.
Qed.

(** A pass of the loop never makes a name longer than 16 characters. *)
Lemma rename_length (mode name : string) :
  String.length name <= 16 ->
  String.length (fst (rename mode name)) <= 16.
Proof.
  intros H; unfold rename.
  destruct (_ || _)%bool; simpl.
  { pose proof (slice_to_length_le (Py.rfind " " name) name); lia. }
  destruct (String.length name <? 15) eqn:H15; simpl.
  { apply slice_to_16. }
  destruct (String.length name <? 16) eqn:H16; simpl.
  { apply Nat.ltb_lt in H16.
    destruct (String.eqb mode "FM"); rewrite append_length; simpl; lia. }
  repeat match goal with
  | |- context [if Py.contains ?a name then _ else _] =>
      destruct (Py.contains a name); simpl;
      [ match goal with |- String.length (Py.replace1 ?o ?n _) <= _ =>
          pose proof (replace1_length o n name (Nat.le_refl 1)); lia end | ]
  end.
  pose proof (strip_length (Py.slice_to (-2) name)).
  pose proof (slice_to_length_le (-2) name); lia.
Qed.

End StringLengths.

(** ** The loop of the name disambiguation *)

Lemma unique_name_unfold fuel channels mode name :
  dict_mem name channels = true ->
  unique_name (S fuel) channels mode name
  = match unique_name fuel channels mode (fst (rename mode name)) with
    | Some (r, ws) => Some (r, (snd (rename mode name) ++ ws)%list)
    | None => None
    end.
Proof.
  intros H; simpl; rewrite H; simpl.
  destruct (rename mode name); reflexivity.
Qed.

(** When the loop ends, the name it ends with is not taken. *)
Lemma unique_name_fresh fuel channels mode name r w :
  unique_name fuel channels mode name = Some (r, w) ->
  dict_mem r channels = false.
Proof.
  revert name w; induction fuel as [|f IH]; intros name w; simpl;
    destruct (dict_mem name channels) eqn:Hm; simpl;
    try discriminate; try (intros [= <- _]; assumption).
  destruct (rename mode name) as [name' w0].
  destruct (unique_name f channels mode name') as [[r' ws]|] eqn:Hu;
    try discriminate.
  intros [= <- _]; eauto.
Qed.

Lemma unique_name_length fuel channels mode name r w :
  (String.length name <= 16)%nat ->
  unique_name fuel channels mode name = Some (r, w) ->
  (String.length r <= 16)%nat.
Proof.
  revert name w; induction fuel as [|f IH]; intros name w Hl; simpl;
    destruct (dict_mem name channels) eqn:Hm; simpl;
    try discriminate; try (intros [= <- _]; assumption).
  pose proof (rename_length mode name Hl) as Hr.
  destruct (rename mode name) as [name' w0]; simpl in Hr.
  destruct (unique_name f channels mode name') as [[r' ws]|] eqn:Hu;
    try discriminate.
  intros [= <- _]; eauto.
Qed.

(** The result does not depend on the fuel, once there is enough of it. *)
Lemma unique_name_mono fuel fuel' channels mode name r :
  (fuel <= fuel')%nat ->
  unique_name fuel channels mode name = Some r ->
  unique_name fuel' channels mode name = Some r.
Proof.
  revert fuel' name r; induction fuel as [|f IH]; intros fuel' name r Hle;
    simpl; destruct (dict_mem name channels) eqn:Hm; simpl; try discriminate.
  - intros [= <-]; destruct fuel'; simpl; rewrite Hm; reflexivity.
  - destruct fuel' as [|f']; [lia|]. simpl; rewrite Hm; simpl.
    destruct (rename mode name) as [name' w0].
    destruct (unique_name f channels mode name') as [[r' ws]|] eqn:Hu;
      try discriminate.
    intros [= <-]. rewrite (IH f' name' (r', ws)); auto; lia.
  - intros [= <-]; destruct fuel'; simpl; rewrite Hm; reflexivity.
Qed.

Lemma unique_name_det fuel fuel' channels mode name r r' :
  unique_name fuel channels mode name = Some r ->
  unique_name fuel' channels mode name = Some r' ->
  r = r'.
Proof.
  intros H H'.
  destruct (Nat.le_ge_cases fuel fuel') as [Hle|Hle].
  - rewrite (unique_name_mono _ _ _ _ _ _ Hle H) in H'; congruence.
  - rewrite (unique_name_mono _ _ _ _ _ _ Hle H') in H; congruence.
Qed.

(** ** Decimal arithmetic *)

Lemma ndigits_fuel_spec (fuel : nat) (c : Z) :
  0 < c -> c < 2 ^ (Z.of_nat fuel + 1) ->
  let n := Dec.ndigits_fuel fuel c in
  1 <= n /\ 10 ^ (n - 1) <= c < 10 ^ n.
Proof.
  revert c; induction fuel as [|f IH]; intros c Hc Hlt.
  - simpl in *. change (2 ^ 1) with 2 in Hlt.
    assert (c = 1) by lia; subst; simpl; lia.
  - cbn [Dec.ndigits_fuel]. destruct (c <? 10) eqn:H10.
    + apply Z.ltb_lt in H10; cbn; lia.
    + apply Z.ltb_ge in H10.
      assert (Hq : 0 < c / 10) by (apply Z.div_str_pos; lia).
      assert (Hq2 : c / 10 < 2 ^ (Z.of_nat f + 1)).
      { apply Z.div_lt_upper_bound; [lia|].
        replace (Z.of_nat (S f) + 1) with (Z.succ (Z.of_nat f + 1)) in Hlt
          by lia.
        rewrite Z.pow_succ_r in Hlt by lia. lia. }
      destruct (IH _ Hq Hq2) as (Hn & Hlo & Hhi).
      set (n := Dec.ndigits_fuel f (c / 10)) in *.
      cbv zeta. split; [lia|].
      replace (1 + n - 1) with (Z.succ (n - 1)) by lia.
      replace (1 + n) with (Z.succ n) by lia.
      rewrite !Z.pow_succ_r by lia.
      pose proof (Z.mul_div_le c 10 ltac:(lia)).
      pose proof (Z.mod_pos_bound c 10 ltac:(lia)).
      pose proof (Z.div_mod c 10 ltac:(lia)). lia.
Qed.

(** [ndigits c] is the number of decimal digits of a positive [c]. *)
Lemma ndigits_spec (c : Z) :
  0 < c -> 10 ^ (Dec.ndigits c - 1) <= c < 10 ^ Dec.ndigits c.
Proof.
  intros Hc. unfold Dec.ndigits.
  apply ndigits_fuel_spec; auto.
  rewrite Z2Nat.id by apply Z.log2_nonneg.
  replace (Z.log2 c + 1) with (Z.succ (Z.log2 c)) by lia.
  apply Z.log2_spec; auto.
Qed.

(** A number within the precision and the exponent range is left as it
    is. *)
Lemma fix_fits (d : Dec.t) :
  Dec.ndigits (Dec.coeff d) <= Dec.prec ->
  0 <= Dec.coeff d ->
  Dec.Etiny <= Dec.exp d <= Dec.Etop ->
  Dec.fix_ d = Ok d.
Proof.
  destruct d as [s c e]; cbn [Dec.coeff Dec.exp]; intros Hn Hc He.
  unfold Dec.fix_.
  destruct (c =? 0) eqn:H0.
  - apply Z.eqb_eq in H0; subst.
    unfold Dec.Etiny, Dec.Etop, Dec.Emin, Dec.Emax, Dec.prec in *.
    f_equal; f_equal; lia.
  - unfold Dec.Etiny, Dec.Etop, Dec.Emin, Dec.Emax, Dec.prec in *.
    destruct (_ <? Dec.ndigits c + e - 28) eqn:H1;
      [apply Z.ltb_lt in H1; lia|].
    destruct (e <? _) eqn:H2; [apply Z.ltb_lt in H2; lia|reflexivity].
Qed.

(** The untruncated sum has the value of the sum. *)
Lemma add_exact_value (a b : Dec.t) :
  let e := Z.min (Dec.exp a) (Dec.exp b) in
  Dec.exp (Dec.add_exact a b) = e /\
  Dec.signed (Dec.add_exact a b) e = Dec.signed a e + Dec.signed b e.
Proof.
  cbv zeta. unfold Dec.add_exact.
  set (e := Z.min (Dec.exp a) (Dec.exp b)).
  set (v := Dec.signed a e + Dec.signed b e).
  destruct (v =? 0) eqn:Hv; unfold Dec.signed;
    cbn [Dec.exp Dec.coeff Dec.sign]; rewrite Z.sub_diag; (split; [auto|]).
  - apply Z.eqb_eq in Hv. fold (Dec.signed a e) (Dec.signed b e).
    fold v. rewrite Hv. destruct (_ && _)%bool; lia.
  - fold (Dec.signed a e) (Dec.signed b e). fold v.
    destruct (v <? 0) eqn:Hs;
      [apply Z.ltb_lt in Hs|apply Z.ltb_ge in Hs]; lia.
Qed.

Lemma add_exact_coeff_nonneg (a b : Dec.t) :
  0 <= Dec.coeff (Dec.add_exact a b).
Proof.
  unfold Dec.add_exact. destruct (_ =? 0); cbn; lia.
Qed.

(** So a sum that fits the context is the exact sum. *)
Lemma add_fits (a b : Dec.t) :
  Dec.ndigits (Dec.coeff (Dec.add_exact a b)) <= Dec.prec ->
  Dec.Etiny <= Z.min (Dec.exp a) (Dec.exp b) <= Dec.Etop ->
  Dec.add a b = Ok (Dec.add_exact a b).
Proof.
  intros Hn He. apply fix_fits; auto using add_exact_coeff_nonneg.
  destruct (add_exact_value a b) as [-> _]; auto.
Qed.

(** ** The channel deriver *)

Lemma int_raises (s : string) (e : exn) :
  Py.int s = Raise e -> e = ValueError.
Proof.
  unfold Py.int.
  destruct (match Py.strip s with
            | String "-" r => (true, r)
            | String "+" r => (false, r)
            | _ => (false, Py.strip s)
            end) as [neg u].
  destruct (Py.int_digits 0 false u); congruence.
Qed.

Lemma index_raises (s : string) (i : nat) (e : exn) :
  Py.index s i = Raise e -> e = IndexError.
Proof. unfold Py.index; destruct (String.get i s); congruence. Qed.

Lemma index_length (s : string) (i : nat) :
  (exists c, Py.index s i = Ok c) <-> (i < String.length s)%nat.
Proof.
  unfold Py.index. revert i; induction s as [|a s IH]; intros i; simpl.
  - split; [intros [c H]; discriminate | lia].
  - destruct i as [|i]; simpl.
    + split; [lia | eauto].
    + rewrite IH; lia.
Qed.

(** [int] of one character succeeds on the ten digits only. *)
Lemma int_single (c : ascii) (n : Z) :
  Py.int (String c "") = Ok n -> Py.isdigit c = true.
Proof.
  destruct c as [[] [] [] [] [] [] [] []]; vm_compute;
    solve [reflexivity | discriminate].
Qed.

Lemma int_single_digit (c : ascii) :
  Py.isdigit c = true -> Py.int (String c "") = Ok (Py.digit_val c).
Proof.
  destruct c as [[] [] [] [] [] [] [] []]; vm_compute;
    solve [reflexivity | discriminate].
Qed.

Lemma length_one (s : string) :
  String.length s = 1%nat -> exists c, s = String c "".
Proof.
  destruct s as [|c [|]]; simpl; try discriminate; eauto.
Qed.

(** What a completed derivation went through. *)
Lemma derive_ok args row w name ch :
  derive args row = (w, Ok (name, ch)) ->
  name = proposed_name row /\
  exists c d off out tx,
    Py.index name DN_OFF = Ok c /\
    Py.int (Row.district row) = Ok d /\
    (if shift_guard (Row.tx_shift row)
     then Dec.Decimal (Row.tx_shift row) else Ok Dec.zero) = Ok off /\
    Dec.Decimal (Row.output row) = Ok out /\
    Dec.add out off = Ok tx /\
    dict_get "Rx Frequency" ch = Some (Row.output row) /\
    dict_get "Tx Frequency" ch = Some (Dec.str tx) /\
    (w = [] \/ w = [WarnDistrict c name]).
Proof.
  unfold derive.
  destruct (Py.index (proposed_name row) DN_OFF) as [c|e] eqn:Hc;
    [|discriminate].
  cbn [lift bind_io].
  set (inv := if negb (Py.isnumeric_char c) then Ok true else _).
  destruct inv as [invalid|e] eqn:Hinv; [|discriminate].
  set (pr := if invalid then _ else _).
  assert (Hpr : pr = ([], Ok tt) \/
                pr = ([WarnDistrict c (proposed_name row)], Ok tt))
    by (subst pr; destruct invalid; auto).
  destruct (Py.int (Row.district row)) as [d|e] eqn:Hd;
    [|destruct Hpr as [-> | ->]; discriminate].
  set (o := if shift_guard (Row.tx_shift row) then _ else _).
  destruct o as [off|e] eqn:Hoff;
    [|destruct Hpr as [-> | ->]; discriminate].
  destruct (Dec.Decimal (Row.output row)) as [out|e] eqn:Hout;
    [|destruct Hpr as [-> | ->]; discriminate].
  destruct (Dec.add out off) as [tx|e] eqn:Htx;
    [|destruct Hpr as [-> | ->]; discriminate].
  intros H.
  assert (Hw : w = fst pr /\ name = proposed_name row
     /\ dict_get "Rx Frequency" ch = Some (Row.output row)
     /\ dict_get "Tx Frequency" ch = Some (Dec.str tx)).
  { destruct Hpr as [Hp | Hp]; rewrite Hp in H; cbn [bind_io ret app] in H;
      injection H as Hw Hn Hch; rewrite Hp; subst w name ch;
      (split; [reflexivity|]); (split; [reflexivity|]);
      destruct (Py.contains "DMR" (Row.mode row)); cbn;
      unfold digital_fields;
      try destruct (Py.find "CC" (Row.access row) =? -1);
      split; reflexivity. }
  destruct Hw as (-> & -> & Hrx & Htxf).
  split; [reflexivity|].
  exists c, d, off, out, tx. repeat split; auto.
  destruct Hpr as [-> | ->]; auto.
Qed.

(** A district field that [int] refuses ends the derivation: with an
    [IndexError] when the composed name has no character at [DN_OFF], with
    a [ValueError] otherwise. *)
Lemma derive_bad_district args row :
  Py.int (Row.district row) = Raise ValueError ->
  exists w e, derive args row = (w, Raise e) /\
    ((e = IndexError /\ (String.length (proposed_name row) <= DN_OFF)%nat)
     \/ (e = ValueError /\ (DN_OFF < String.length (proposed_name row))%nat)).
Proof.
  intros Hd. unfold derive.
  destruct (Py.index (proposed_name row) DN_OFF) as [c|e] eqn:Hc.
  - assert (Hlen : (DN_OFF < String.length (proposed_name row))%nat)
      by (apply index_length; eauto).
    cbn [lift bind_io].
    set (inv := if negb (Py.isnumeric_char c) then Ok true else _).
    destruct inv as [invalid|e] eqn:Hinv.
    + rewrite Hd. destruct invalid; cbn; eauto 6.
    + exists [], e; split; [reflexivity|right; split; auto].
      subst inv. destruct (negb _); [discriminate|].
      unfold bind in Hinv.
      destruct (Py.int (String c "")) eqn:Hi; [discriminate|].
      injection Hinv as <-. eapply int_raises; eauto.
  - pose proof (index_raises _ _ _ Hc); subst e.
    exists [], IndexError; split; [reflexivity|left; split; auto].
    destruct (Nat.le_gt_cases (String.length (proposed_name row)) DN_OFF)
      as [|Hlt]; auto.
    apply index_length in Hlt; destruct Hlt as [c Hc']; congruence.
Qed.

(** C9. The record district=3, type=Repeater, status=QRV, mode=FM, band=2,
    call=SK3(O-stroke)A, city='Uppland /X', output=145.600,
    tx_shift=-0.600, access=67.0 passes the filter and is derived, with no
    warning, into an Analogue channel named 'SK30A Uppland 2m' with
    Rx Frequency 145.600, Tx Frequency 145.000, RX Tone and TX Tone 67.0
    and Bandwidth 12.5. *)
Theorem uppland_scenario (args : Args) (network lat lng : string) :
  accepted (uppland network lat lng) = true /\
  exists ch,
    derive args (uppland network lat lng)
    = ([], Ok ("SK30A Uppland 2m", ch)) /\
    dict_get "Channel Type" ch = Some "Analogue" /\
    dict_get "Rx Frequency" ch = Some "145.600" /\
    dict_get "Tx Frequency" ch = Some "145.000" /\
    dict_get "RX Tone" ch = Some "67.0" /\
    dict_get "TX Tone" ch = Some "67.0" /\
    dict_get "Bandwidth (kHz)" ch = Some "12.5".
Proof.
  split; [reflexivity|].
  eexists; split; [vm_compute; reflexivity|].
  repeat split; reflexivity.
Qed.

(** C3, as stated, fails: ["+0.600"] is a decimal that [Decimal] reads, the
    record is accepted and derived, and yet the Tx Frequency is not the sum
    146.200 of output and shift but the output, 145.600. *)
Lemma plus_signed_shift_is_dropped :
  accepted plus_shift = true /\
  exists out s tx name ch,
    Dec.Decimal (Row.output plus_shift) = Ok out /\
    Dec.Decimal (Row.tx_shift plus_shift) = Ok s /\
    Dec.add out s = Ok tx /\
    Dec.str tx = "146.200" /\
    derive noargs plus_shift = ([], Ok (name, ch)) /\
    dict_get "Tx Frequency" ch = Some "145.600" /\
    dict_get "Tx Frequency" ch <> Some (Dec.str tx).
Proof.
  split; [reflexivity|].
  do 5 eexists.
  split; [vm_compute; reflexivity|].
  split; [vm_compute; reflexivity|].
  split; [vm_compute; reflexivity|].
  split; [vm_compute; reflexivity|].
  split; [vm_compute; reflexivity|].
  split; [reflexivity|]. vm_compute; discriminate.
Qed.

(** C3, amended.  For every accepted record whose derivation completes:
    the Rx Frequency is the output field verbatim; the output field is a
    decimal; when the tx_shift, with every '.' and '-' deleted, is a
    non-empty numeric string, it is a decimal too and the Tx Frequency is
    the text of output + tx_shift in the decimal context; for every other
    tx_shift (empty, or holding any other character) the shift is zero and
    the Tx Frequency is the text of output + 0; in both cases the sum is
    the exact one whenever it fits the 28 digits and the exponent range of
    the context; and nothing is printed but, at most, the warning about
    the district numeral. *)
Theorem frequencies_of_derived_channel
  (args : Args) (row : Row.t) (w : list msg) (name : string) (ch : channel) :
  accepted row = true ->
  derive args row = (w, Ok (name, ch)) ->
  dict_get "Rx Frequency" ch = Some (Row.output row) /\
  (exists out shift tx,
     Dec.Decimal (Row.output row) = Ok out /\
     (if shift_guard (Row.tx_shift row)
      then Dec.Decimal (Row.tx_shift row) = Ok shift
      else shift = Dec.zero) /\
     Dec.add out shift = Ok tx /\
     dict_get "Tx Frequency" ch = Some (Dec.str tx) /\
     (Dec.ndigits (Dec.coeff (Dec.add_exact out shift)) <= Dec.prec ->
      Dec.Etiny <= Z.min (Dec.exp out) (Dec.exp shift) <= Dec.Etop ->
      let e := Z.min (Dec.exp out) (Dec.exp shift) in
      Dec.exp tx = e /\
      Dec.signed tx e = Dec.signed out e + Dec.signed shift e)) /\
  (forall m, In m w -> exists c, m = WarnDistrict c name).
Proof.
  intros _ H.
  destruct (derive_ok _ _ _ _ _ H)
    as (Hn & c & d & off & out & tx & Hc & Hd & Hoff & Hout & Htx & Hrx
        & Htxf & Hw).
  split; [assumption|]. split.
  - exists out, off, tx.
    split; [assumption|]. split.
    { destruct (shift_guard (Row.tx_shift row)); congruence. }
    split; [assumption|]. split; [assumption|].
    intros Hdigits Hexp.
    pose proof (add_fits out off Hdigits Hexp) as Hfit.
    rewrite Htx in Hfit; injection Hfit as ->.
    apply add_exact_value.
  - intros m Hm. destruct Hw as [-> | ->]; [destruct Hm|].
    destruct Hm as [<- | []]; eauto.
Qed.

Lemma frequencies_of_derived_channel_witness :
  accepted (uppland "" "" "") = true /\
  derive noargs (uppland "" "" "")
  = ([], Ok ("SK30A Uppland 2m", uppland_channel)) /\
  dict_get "Rx Frequency" uppland_channel = Some "145.600" /\
  (exists out shift tx,
     Dec.Decimal "145.600" = Ok out /\
     Dec.Decimal "-0.600" = Ok shift /\
     Dec.add out shift = Ok tx /\
     dict_get "Tx Frequency" uppland_channel = Some (Dec.str tx) /\
     (Dec.ndigits (Dec.coeff (Dec.add_exact out shift)) <= Dec.prec ->
      Dec.Etiny <= Z.min (Dec.exp out) (Dec.exp shift) <= Dec.Etop ->
      let e := Z.min (Dec.exp out) (Dec.exp shift) in
      Dec.exp tx = e /\
      Dec.signed tx e = Dec.signed out e + Dec.signed shift e)) /\
  (forall m, In m (@nil msg) ->
             exists c, m = WarnDistrict c "SK30A Uppland 2m").
Proof.
  assert (H1 : accepted (uppland "" "" "") = true) by reflexivity.
  assert (H2 : derive noargs (uppland "" "" "")
               = ([], Ok ("SK30A Uppland 2m", uppland_channel)))
    by (vm_compute; reflexivity).
  split; [exact H1|]. split; [exact H2|].
  exact (frequencies_of_derived_channel noargs (uppland "" "" "") []
           "SK30A Uppland 2m" uppland_channel H1 H2).
Defined.

(** C10, as stated, fails in its last clause: this accepted record has a
    one-character district that is no digit, and its derivation raises an
    [IndexError] (the name "2m" has no character at offset 2), not a
    [ValueError]. *)
Lemma nameless_raises_IndexError :
  accepted nameless = true /\
  Row.district nameless = "x" /\
  proposed_name nameless = "2m" /\
  forall args, derive args nameless = ([], Raise IndexError).
Proof. repeat split. Qed.

(** C10, amended.  The deriver is not total over the accepted records: the
    filter accepts any district of one character, and the derivation
    completes only if that character is a decimal digit.  With any other
    character the run is aborted by an uncaught exception: a [ValueError]
    when the composed name has a character at offset 2, and else the
    [IndexError] of [name[DN_OFF]]. *)
Theorem derive_needs_digit_district (args : Args) (row : Row.t) :
  accepted row = true ->
  exists c, Row.district row = String c "" /\
    ((forall w r, derive args row = (w, Ok r) -> Py.isdigit c = true) /\
     (Py.isdigit c = false ->
      exists w e, derive args row = (w, Raise e) /\
        ((e = ValueError /\ (DN_OFF < String.length (proposed_name row))%nat)
         \/ (e = IndexError
             /\ (String.length (proposed_name row) <= DN_OFF)%nat)))).
Proof.
  intros Hacc. unfold accepted in Hacc.
  repeat (apply andb_prop in Hacc; destruct Hacc as [Hacc ?]).
  apply Nat.eqb_eq, length_one in Hacc. destruct Hacc as [c Hc].
  exists c; split; [assumption|]. split.
  - intros w [name ch] Hder.
    destruct (derive_ok _ _ _ _ _ Hder)
      as (_ & _ & d & _ & _ & _ & _ & Hd & _).
    rewrite Hc in Hd. eapply int_single; eauto.
  - intros Hdig.
    assert (Hd : Py.int (Row.district row) = Raise ValueError).
    { rewrite Hc. destruct (Py.int (String c "")) as [n|e] eqn:Hi.
      - apply int_single in Hi; congruence.
      - apply int_raises in Hi; congruence. }
    destruct (derive_bad_district args row Hd) as (w & e & Hder & He).
    exists w, e; split; [assumption|]. tauto.
Qed.

Lemma derive_needs_digit_district_witness :
  accepted letter_district = true /\
  exists c, Row.district letter_district = String c "" /\
    ((forall w r, derive noargs letter_district = (w, Ok r) ->
                  Py.isdigit c = true) /\
     (Py.isdigit c = false ->
      exists w e, derive noargs letter_district = (w, Raise e) /\
        ((e = ValueError
          /\ (DN_OFF < String.length (proposed_name letter_district))%nat)
         \/ (e = IndexError
             /\ (String.length (proposed_name letter_district)
                 <= DN_OFF)%nat)))).
Proof.
  assert (H : accepted letter_district = true) by reflexivity.
  split; [exact H|].
  exact (derive_needs_digit_district noargs letter_district H).
Defined.

(** What the letter leads to. *)
Example letter_district_raises_ValueError :
  derive noargs letter_district = ([], Raise ValueError).
Proof. reflexivity. Qed.

(** ** A loop that does not end *)

(** Once the six names are taken, the loop started on any of them never
    finds a free name: every pass leads to the next of the six, and the
    forced shortening of the last leads back to the first. *)
Lemma cycle_never_ends (channels : dict channel) :
  (forall n, In n cycle -> dict_mem n channels = true) ->
  forall fuel n, In n cycle -> unique_name fuel channels "FM" n = None.
Proof.
  intros Htaken fuel; induction fuel as [|f IH]; intros n Hn.
  - simpl. rewrite (Htaken n Hn). reflexivity.
  - rewrite unique_name_unfold by auto.
    assert (Hnext : In (fst (rename "FM" n)) cycle).
    { simpl in Hn.
      repeat (destruct Hn as [<- | Hn]; [vm_compute; tauto|]).
      destruct Hn. }
    rewrite (IH _ Hnext). reflexivity.
Qed.

Lemma twin_enters_cycle (channels : dict channel) :
  dict_mem "ABCDEFGHIJKLMNOP" channels = true ->
  (forall n, In n cycle -> dict_mem n channels = true) ->
  forall fuel, unique_name fuel channels "FM" "ABCDEFGHIJKLMNOP" = None.
Proof.
  intros H16 Htaken [|f].
  - simpl. rewrite H16. reflexivity.
  - rewrite unique_name_unfold by auto.
    change (fst (rename "FM" "ABCDEFGHIJKLMNOP")) with "ABCDEFGHIJKLMN".
    rewrite (cycle_never_ends channels Htaken f); simpl; auto.
Qed.

(** More fuel does not change what a completed reading returns. *)
Lemma read_channels_mono fuel fuel' args rows channels r :
  (fuel <= fuel')%nat ->
  read_channels fuel args rows channels = Some r ->
  read_channels fuel' args rows channels = Some r.
Proof.
  intros Hle. revert channels r.
  induction rows as [|row rest IH]; intros channels r; simpl; auto.
  destruct (accepted row); auto.
  destruct (derive args row) as [w [[name ch]|e]]; auto.
  destruct (unique_name fuel channels (mode_of ch) name) as [[name' w']|]
    eqn:Hu; [|discriminate].
  rewrite (unique_name_mono _ _ _ _ _ _ Hle Hu).
  destruct (read_channels fuel args rest (dict_set name' ch channels))
    as [[ws r']|] eqn:Hr; [|discriminate].
  rewrite (IH _ _ Hr). auto.
Qed.

Lemma read_channels_app fuel args rows1 rows2 channels w channels' :
  read_channels fuel args rows1 channels = Some (w, Ok channels') ->
  read_channels fuel args (rows1 ++ rows2)%list channels
  = match read_channels fuel args rows2 channels' with
    | Some (ws, r) => Some ((w ++ ws)%list, r)
    | None => None
    end.
Proof.
  revert channels w.
  induction rows1 as [|row rest IH]; intros channels w; simpl.
  - intros [= <- <-]. destruct (read_channels fuel args rows2 channels)
      as [[ws r]|]; reflexivity.
  - destruct (accepted row); auto.
    destruct (derive args row) as [w0 [[name ch]|e]]; [|discriminate].
    destruct (unique_name fuel channels (mode_of ch) name) as [[name' w']|];
      [|discriminate].
    destruct (read_channels fuel args rest (dict_set name' ch channels))
      as [[ws [chs|e]]|] eqn:Hr; try discriminate.
    intros [= <- <-]. rewrite (IH _ _ Hr).
    destruct (read_channels fuel args rows2 chs) as [[ws2 r2]|]; auto.
    rewrite <- !app_assoc. reflexivity.
Qed.

(** Seven twins are read, with the names the loop gives them. *)
Lemma seven_twins :
  exists w channels,
    read_channels 6 noargs (repeat twin 7) [] = Some (w, Ok channels) /\
    keys channels = ("ABCDEFGHIJKLMNOP" :: cycle)%list.
Proof. do 2 eexists; split; vm_compute; reflexivity. Qed.

(** The eighth is never given a name. *)
Lemma eight_twins_never_read (fuel : nat) :
  read_channels fuel noargs (repeat twin 8) [] = None.
Proof.
  destruct (read_channels fuel noargs (repeat twin 8) []) as [r|] eqn:H;
    [exfalso|reflexivity].
  apply (read_channels_mono fuel (fuel + 6)) in H; [|lia].
  destruct seven_twins as (w & channels & H7 & Hk).
  apply (read_channels_mono 6 (fuel + 6)) in H7; [|lia].
  change (repeat twin 8) with (repeat twin 7 ++ [twin])%list in H.
  rewrite (read_channels_app _ _ _ _ _ _ _ H7) in H.
  cbn [read_channels] in H.
  change (accepted twin) with true in H.
  replace (derive noargs twin) with
    (match derive noargs twin with
     | (w0, Ok p) => (w0, Ok p) | (w0, Raise e) => (w0, Raise e) end) in H
    by (destruct (derive noargs twin) as [? []]; reflexivity).
  assert (Hd : exists w0 ch, derive noargs twin
                 = (w0, Ok ("ABCDEFGHIJKLMNOP", ch)) /\ mode_of ch = "FM")
    by (do 2 eexists; split; vm_compute; reflexivity).
  destruct Hd as (w0 & ch & Hd & Hm). rewrite Hd, Hm in H.
  assert (Hmem : forall n, In n ("ABCDEFGHIJKLMNOP" :: cycle) ->
                           dict_mem n channels = true).
  { intros n Hn. rewrite <- Hk in Hn. unfold keys in Hn.
    apply in_map_iff in Hn. destruct Hn as ([k v] & <- & Hin).
    clear - Hin. unfold dict_mem.
    induction channels as [|[k' v'] t IH]; [destruct Hin|].
    simpl. destruct (String.eqb_spec k k'); [reflexivity|].
    destruct Hin as [[= -> ->]|Hin]; [congruence|auto]. }
  rewrite twin_enters_cycle in H; [discriminate| |].
  - apply Hmem; left; reflexivity.
  - intros n Hn; apply Hmem; right; assumption.
Qed.

(** C2 does not hold of the code.  Eight accepted records that are the same
    (call sign ABCDEFGHIJKLMNOP) make the run hang, whatever the fuel and
    the files on disk: the first seven take the sixteen-character name, its
    forced shortening and the five names derived from it, and for the
    eighth the loop goes round these names for ever. *)
Theorem eight_twins_hang (fuel : nat) (before : files) :
  main fuel noargs None (repeat twin 8) before = None.
Proof.
  unfold main. change (validate noargs) with (@None msg). cbv iota beta.
  unfold write_channels. rewrite eight_twins_never_read. reflexivity.
Qed.

(** ** The order of the sort keys *)

Lemma ascii_compare_lt (a b : ascii) :
  Ascii.compare a b = Lt <-> (N_of_ascii a < N_of_ascii b)%N.
Proof. unfold Ascii.compare. apply N.compare_lt_iff. Qed.

Lemma ascii_compare_eq (a b : ascii) : Ascii.compare a b = Eq <-> a = b.
Proof.
  split; [apply Ascii.compare_eq_iff|intros ->].
  unfold Ascii.compare. apply N.compare_refl.
Qed.

Lemma string_compare_refl (s : string) : String.compare s s = Eq.
Proof.
  induction s as [|c s IH]; simpl; auto.
  rewrite (proj2 (ascii_compare_eq c c) eq_refl). assumption.
Qed.

Lemma string_compare_trans (a b c : string) :
  String.compare a b = Lt -> String.compare b c = Lt ->
  String.compare a c = Lt.
Proof.
  revert b c; induction a as [|x a IH]; intros [|y b] [|z c]; simpl;
    try congruence.
  destruct (Ascii.compare x y) eqn:Hxy; try discriminate;
    destruct (Ascii.compare y z) eqn:Hyz; try discriminate; intros H1 H2.
  - apply ascii_compare_eq in Hxy, Hyz; subst.
    rewrite (proj2 (ascii_compare_eq z z) eq_refl). eauto.
  - apply ascii_compare_eq in Hxy; subst. rewrite Hyz. reflexivity.
  - apply ascii_compare_eq in Hyz; subst. rewrite Hxy. reflexivity.
  - apply ascii_compare_lt in Hxy, Hyz.
    rewrite (proj2 (ascii_compare_lt x z))
      by (eapply N.lt_trans; eassumption).
    reflexivity.
Qed.

(** [String.ltb] is a strict linear order. *)
Lemma string_ltb_trichotomy (a b : string) :
  String.ltb a b = false -> String.ltb b a = false -> a = b.
Proof.
  unfold String.ltb. rewrite (String.compare_antisym b a).
  destruct (String.compare a b) eqn:H; simpl; try discriminate.
  intros _ _. apply String.compare_eq_iff; assumption.
Qed.


Lemma string_ltb_trans (a b c : string) :
  String.ltb a b = true -> String.ltb b c = true -> String.ltb a c = true.
Proof.
  unfold String.ltb.
  destruct (String.compare a b) eqn:H1; try discriminate.
  destruct (String.compare b c) eqn:H2; try discriminate.
  rewrite (string_compare_trans _ _ _ H1 H2). reflexivity.
Qed.

Lemma ord_inj (a b : ascii) : Py.ord a = Py.ord b -> a = b.
Proof.
  unfold Py.ord; intros H.
  rewrite <- (ascii_nat_embedding a), <- (ascii_nat_embedding b), H.
  reflexivity.
Qed.

(** Scaling to a lower exponent multiplies by a power of ten. *)
Lemma signed_rescale (d : Dec.t) (e e' : Z) :
  e' <= e <= Dec.exp d ->
  Dec.signed d e' = Dec.signed d e * 10 ^ (e - e').
Proof.
  intros H. unfold Dec.signed.
  replace (Dec.exp d - e') with ((Dec.exp d - e) + (e - e')) by lia.
  rewrite Z.pow_add_r by lia. ring.
Qed.

(** So [<] on decimals can be read at any exponent below both. *)
Lemma dec_ltb_at (a b : Dec.t) (e : Z) :
  e <= Dec.exp a -> e <= Dec.exp b ->
  Dec.ltb a b = (Dec.signed a e <? Dec.signed b e).
Proof.
  intros Ha Hb. unfold Dec.ltb.
  set (m := Z.min (Dec.exp a) (Dec.exp b)).
  rewrite (signed_rescale a m e), (signed_rescale b m e) by lia.
  assert (0 < 10 ^ (m - e)) by (apply Z.pow_pos_nonneg; lia).
  destruct (Dec.signed a m <? Dec.signed b m) eqn:H1; symmetry.
  - apply Z.ltb_lt in H1. apply Z.ltb_lt. nia.
  - apply Z.ltb_ge in H1. apply Z.ltb_ge. nia.
Qed.


Lemma key_le_trans (a b c : sort_key) :
  key_le a b -> key_le b c -> key_le a c.
Proof.
  destruct a as [[ta ca] fa], b as [[tb cb] fb], c as [[tc cc] fc].
  unfold key_le, key_ltb.
  destruct (String.eqb_spec tb ta) as [E1|Hba];
    destruct (String.eqb_spec tc tb) as [E2|Hcb]; simpl.
  - assert (E3 : tc = ta) by congruence. subst tc tb.
    rewrite String.eqb_refl; simpl.
    destruct (Ascii.eqb_spec cb ca) as [C1|Hcba];
      destruct (Ascii.eqb_spec cc cb) as [C2|Hccb]; simpl.
    + assert (C3 : cc = ca) by congruence. subst cc cb.
      rewrite Ascii.eqb_refl; simpl.
      set (e := Z.min (Dec.exp fa) (Z.min (Dec.exp fb) (Dec.exp fc))).
      rewrite (dec_ltb_at fb fa e), (dec_ltb_at fc fb e),
        (dec_ltb_at fc fa e) by lia. lia.
    + subst cb. intros _ H.
      destruct (Ascii.eqb_spec cc ca); [congruence|exact H].
    + subst cc. intros H _.
      destruct (Ascii.eqb_spec cb ca); [congruence|exact H].
    + unfold char_ltb. intros H1 H2.
      apply Nat.ltb_ge in H1, H2.
      destruct (Ascii.eqb_spec cc ca) as [C3|]; simpl.
      * exfalso. apply Hccb. apply ord_inj. subst cc. lia.
      * apply Nat.ltb_ge. lia.
  - subst tb. intros _ H.
    destruct (String.eqb_spec tc ta); [congruence|exact H].
  - subst tc. intros H _.
    destruct (String.eqb_spec tb ta); [congruence|exact H].
  - intros H1 H2.
    destruct (String.eqb_spec tc ta) as [E3|Hca]; simpl.
    + subst tc. exfalso. apply Hba. apply string_ltb_trichotomy; auto.
    + destruct (String.ltb tc ta) eqn:H3; auto. exfalso.
      destruct (String.ltb ta tb) eqn:H4.
      * rewrite (string_ltb_trans _ _ _ H3 H4) in H2. discriminate.
      * apply Hba. apply string_ltb_trichotomy; auto.
Qed.

(** ** The stable sort *)

Section Sort.

Context {A : Type}.


Lemma insert_perm (x : sort_key * A) (l : list (sort_key * A)) :
  Permutation (insert x l) (x :: l).
Proof.
  induction l as [|y t IH]; simpl; auto.
  destruct (key_ltb (fst y) (fst x)); auto.
  rewrite IH. apply perm_swap.
Qed.

Lemma sort_perm (l : list (sort_key * A)) : Permutation (sort l) l.
Proof.
  induction l as [|x t IH]; simpl; auto.
  rewrite insert_perm. auto.
Qed.



Lemma keyed_spec (key : A -> res sort_key) (l : list A)
  (ks : list (sort_key * A)) :
  keyed key l = Ok ks ->
  map snd ks = l /\ Forall (fun p => key (snd p) = Ok (fst p)) ks.
Proof.
  revert ks; induction l as [|x t IH]; intros ks; simpl.
  - intros [= <-]; auto.
  - destruct (key x) as [k|e] eqn:Hk; [|discriminate]. simpl.
    destruct (keyed key t) as [r|e]; [|discriminate]. simpl.
    intros [= <-]. destruct (IH r eq_refl) as [Hm Hf].
    simpl; split; [congruence|]. constructor; auto.
Qed.


End Sort.

(** ** Dictionaries *)

Lemma dict_get_set_same {V : Type} (k : string) (v : V) (d : dict V) :
  dict_get k (dict_set k v d) = Some v.
Proof.
  induction d as [|[k' v'] t IH]; simpl.
  - rewrite String.eqb_refl; reflexivity.
  - destruct (String.eqb k k') eqn:E; simpl; rewrite ?E, ?String.eqb_refl;
      auto.
Qed.

Lemma dict_get_set_other {V : Type} (k k' : string) (v : V) (d : dict V) :
  k <> k' -> dict_get k (dict_set k' v d) = dict_get k d.
Proof.
  intros Hne. induction d as [|[k0 v0] t IH]; simpl.
  - destruct (String.eqb_spec k k'); congruence.
  - destruct (String.eqb_spec k' k0) as [->|]; simpl.
    + destruct (String.eqb_spec k k0); congruence.
    + destruct (String.eqb_spec k k0); auto.
Qed.

Lemma dict_mem_keys {V : Type} (k : string) (d : dict V) :
  dict_mem k d = true <-> In k (keys d).
Proof.
  unfold dict_mem. induction d as [|[k' v'] t IH]; simpl.
  - split; [discriminate|tauto].
  - destruct (String.eqb_spec k k') as [->|Hne]; [tauto|].
    rewrite IH. split; [tauto|]. intros [H|H]; congruence.
Qed.

(** Assigning to a key that is not there puts it at the end. *)
Lemma dict_set_fresh {V : Type} (k : string) (v : V) (d : dict V) :
  dict_mem k d = false -> dict_set k v d = (d ++ [(k, v)])%list.
Proof.
  unfold dict_mem. induction d as [|[k' v'] t IH]; simpl; auto.
  destruct (String.eqb k k'); [discriminate|].
  intros H; rewrite IH; auto.
Qed.

(** ** The registry of channels *)

Lemma derive_type args row w name ch :
  derive args row = (w, Ok (name, ch)) ->
  dict_get "Channel Type" ch
  = Some (if Py.contains "DMR" (Row.mode row) then "Digital" else "Analogue").
Proof.
  unfold derive, bind_io, lift, ret.
  destruct (Py.index (proposed_name row) DN_OFF) as [c|]; [|discriminate].
  destruct (if negb (Py.isnumeric_char c) then Ok true else _)
    as [invalid|]; [|discriminate].
  destruct (if invalid then print _ else ([], Ok tt)) as [w0 [[]|]];
    [|discriminate].
  destruct (Py.int (Row.district row)); [|discriminate].
  destruct (if shift_guard (Row.tx_shift row) then _ else _);
    [|discriminate].
  destruct (Dec.Decimal (Row.output row)); [|discriminate].
  destruct (Dec.add _ _); [|discriminate].
  intros [= _ _ <-].
  destruct (Py.contains "DMR" (Row.mode row)); cbn;
    unfold digital_fields;
    try destruct (Py.find "CC" (Row.access row) =? -1); reflexivity.
Qed.

Lemma read_channels_wf fuel args rows channels w channels' :
  read_channels fuel args rows channels = Some (w, Ok channels') ->
  well_formed channels -> well_formed channels'.
Proof.
  revert channels w; induction rows as [|row rest IH]; intros channels w;
    simpl.
  - intros [= _ <-]; auto.
  - destruct (accepted row); [|apply IH].
    destruct (derive args row) as [w0 [[name ch]|e]] eqn:Hd; [|discriminate].
    destruct (unique_name fuel channels (mode_of ch) name) as [[name' w']|]
      eqn:Hu; [|discriminate].
    destruct (read_channels fuel args rest (dict_set name' ch channels))
      as [[ws [chs|e]]|] eqn:Hr; try discriminate.
    intros [= _ <-] [Hnd Hall]. apply (IH _ _ Hr).
    pose proof (unique_name_fresh _ _ _ _ _ _ Hu) as Hfresh.
    rewrite (dict_set_fresh _ _ _ Hfresh). split.
    + unfold keys. rewrite map_app. simpl.
      apply NoDup_app; [assumption|repeat constructor; simpl; tauto|].
      intros k Hin [<-|[]].
      apply dict_mem_keys in Hin. congruence.
    + intros n c Hin. apply in_app_or in Hin.
      destruct Hin as [Hin|[[= <- <-]|[]]]; [auto|].
      destruct (derive_ok _ _ _ _ _ Hd)
        as (Hn & _ & _ & _ & out & _ & _ & _ & _ & Hout & _ & Hrx & _).
      split; [|split].
      * eapply unique_name_length; [|exact Hu].
        subst name; apply proposed_name_length.
      * rewrite (derive_type _ _ _ _ _ Hd); eauto.
      * eauto.
Qed.

Lemma well_formed_empty : well_formed [].
Proof. split; [constructor|intros ? ? []]. Qed.

(** ** The rows of Channels.csv *)

Lemma custom_channels_spec (c : list (list string)) crows w :
  custom_channels c = (crows, w, None) ->
  crows = map custom_written (filter nonblank c).
Proof.
  revert crows w; induction c as [|row rest IH]; intros crows w.
  - intros [= <- _]; reflexivity.
  - destruct row as [|f0 fs]; [simpl; apply IH|].
    cbn [custom_channels filter nonblank map].
    destruct (custom_row (f0 :: fs)) as [[out|e] w0] eqn:Hrow;
      [|discriminate].
    destruct (custom_channels rest) as [[outs ws] e].
    intros [= <- _ ->]. f_equal; [|eapply IH; reflexivity].
    unfold custom_row in Hrow.
    destruct (Py.int (nth 0 (f0 :: fs) "")); [|discriminate].
    destruct fs as [|f1 fs]; [discriminate|].
    cbn [nth_error] in Hrow.
    destruct (_ <? _)%nat; [discriminate|].
    injection Hrow as <- _. reflexivity.
Qed.

Lemma custom_written_name (row : list string) :
  (String.length (name_of (custom_written row)) <= 16)%nat.
Proof.
  change (name_of (custom_written row))
    with (Py.strip (Py.slice_to 16 (nth 1 row ""))).
  pose proof (strip_length (Py.slice_to 16 (nth 1 row ""))).
  pose proof (slice_to_16 (nth 1 row "")). lia.
Qed.

Lemma writerow_fields (data : channel) :
  let get k := match dict_get k data with Some v => v | None => "" end in
  number_of (writerow data) = get "Channel Number" /\
  name_of (writerow data) = get "Channel Name" /\
  type_of (writerow data) = get "Channel Type" /\
  rx_of (writerow data) = get "Rx Frequency".
Proof. repeat split. Qed.

(** A generated row carries its number, its name, and the type and the
    frequency of its channel. *)
Lemma numbered_row (id : Z) (name : string) (data : channel) :
  let row := writerow (dict_set "Channel Name" name
                         (dict_set "Channel Number" (Py.str_of_Z id) data)) in
  number_of row = Py.str_of_Z id /\
  name_of row = name /\
  (forall ty, dict_get "Channel Type" data = Some ty -> type_of row = ty) /\
  (forall rx, dict_get "Rx Frequency" data = Some rx -> rx_of row = rx).
Proof.
  cbv zeta.
  destruct (writerow_fields (dict_set "Channel Name" name
              (dict_set "Channel Number" (Py.str_of_Z id) data)))
    as (-> & -> & -> & ->).
  rewrite (dict_get_set_other "Channel Number" "Channel Name"),
    (dict_get_set_other "Channel Type" "Channel Name"),
    (dict_get_set_other "Rx Frequency" "Channel Name"),
    (dict_get_set_other "Channel Type" "Channel Number"),
    (dict_get_set_other "Rx Frequency" "Channel Number") by discriminate.
  rewrite !dict_get_set_same.
  split; [reflexivity|]. split; [reflexivity|].
  split; intros v Hv; rewrite Hv; reflexivity.
Qed.

Lemma number_names (id : Z) (l : list (string * channel)) :
  map name_of (number id l) = map fst l.
Proof.
  revert id; induction l as [|[name data] t IH]; intros id; simpl; auto.
  rewrite IH. f_equal. apply (numbered_row (id + 1) name data).
Qed.








(** C1, amended.  In every completed channel list, every Channel Name, of a
    custom row or of a generated row, has at most 16 characters, and no two
    generated rows share a Channel Name.  (The names of the custom rows are
    written as they come: nothing compares them with each other or with
    the generated names.) *)
Theorem emitted_names fuel args custom rows crows grows w :
  write_channels fuel args custom rows = Some (crows, grows, w, None) ->
  (forall row, In row (crows ++ grows)%list ->
               (String.length (name_of row) <= 16)%nat) /\
  NoDup (map name_of grows).
Proof.
  unfold write_channels.
  destruct (match custom with
            | Some c => custom_channels c
            | None => ([], [], None)
            end) as [[crows0 w1] e1] eqn:Hc.
  destruct e1 as [e|]; [discriminate|].
  destruct (read_channels fuel args rows []) as [[w2 [channels|e]]|] eqn:Hr;
    try discriminate.
  destruct (generated channels) as [grows0|e] eqn:Hg; [|discriminate].
  intros [= -> -> _].
  pose proof (read_channels_wf _ _ _ _ _ _ Hr well_formed_empty) as Hwf.
  unfold generated, sorted in Hg.
  destruct (keyed key_of channels) as [ks|e] eqn:Hks; [|discriminate].
  simpl in Hg. injection Hg as <-.
  destruct (keyed_spec _ _ _ Hks) as [Hsnd _].
  assert (Hperm : Permutation (map name_of (number 500 (map snd (sort ks))))
                    (keys channels)).
  { rewrite number_names. unfold keys. rewrite <- Hsnd.
    apply Permutation_map, Permutation_map, sort_perm. }
  split.
  - intros row Hin. apply in_app_or in Hin. destruct Hin as [Hin|Hin].
    + assert (Hcr : exists c, crows = map custom_written (filter nonblank c)).
      { destruct custom as [c|].
        - exists c. eapply custom_channels_spec; eauto.
        - exists []. injection Hc as <- _. reflexivity. }
      destruct Hcr as [c ->]. apply in_map_iff in Hin.
      destruct Hin as (r & <- & _). apply custom_written_name.
    + assert (Hk : In (name_of row) (keys channels)).
      { apply (Permutation_in _ Hperm). apply in_map. assumption. }
      unfold keys in Hk. apply in_map_iff in Hk.
      destruct Hk as ([name ch] & Hn & Hin'). simpl in Hn. subst name.
      destruct Hwf as [_ Hwf]. apply (Hwf _ _ Hin').
  - apply (Permutation_NoDup (Permutation_sym Hperm)). apply Hwf.
Qed.

(** C1, as stated, fails: the two custom rows are both written, with the
    one name. *)
Lemma custom_names_repeat :
  exists crows,
    write_channels 0 noargs (Some namesakes) [] = Some (crows, [], [], None)
    /\ map name_of (crows ++ []) = ["DUP"; "DUP"]
    /\ ~ NoDup (map name_of (crows ++ [])).
Proof.
  eexists; split; [vm_compute; reflexivity|].
  split; [reflexivity|].
  intros H. inversion H as [|x l Hx _]; subst. apply Hx. left; reflexivity.
Qed.

Example registry_names :
  keys registry
  = ["ABCDEFGHIJKLMNOP"; "SK6RFQ Boras 70c"; "SK30A Uppland 2m";
     "SK0AB Solna 2m"; "SK0AB Solna"].
Proof. reflexivity. Qed.

Example database_rows_names :
  map (fun row => (number_of row, name_of row, type_of row, rx_of row))
    database_rows
  = [("501", "SK0AB Solna 2m", "Analogue", "145.600");
     ("502", "SK0AB Solna", "Analogue", "145.600");
     ("503", "SK30A Uppland 2m", "Analogue", "145.600");
     ("504", "ABCDEFGHIJKLMNOP", "Analogue", "145.600");
     ("505", "SK6RFQ Boras 70c", "Digital", "434.5625")].
Proof. reflexivity. Qed.


Lemma emitted_names_witness :
  write_channels 1 noargs (Some namesakes) database
  = Some (namesakes_written, database_rows, database_log, None) /\
  (forall row, In row (namesakes_written ++ database_rows)%list ->
               (String.length (name_of row) <= 16)%nat) /\
  NoDup (map name_of database_rows).
Proof.
  assert (H : write_channels 1 noargs (Some namesakes) database
              = Some (namesakes_written, database_rows, database_log, None))
    by (vm_compute; reflexivity).
  split; [exact H|].
  apply (emitted_names 1 noargs (Some namesakes) database namesakes_written
           database_rows database_log H).
Defined.

(** ** The zones *)

(** C5 does not hold of the code.  The one record above is derived, with a
    warning about the numeral 9, into the channel 'SJ9WL Morokulien', which
    is written to Channels.csv as number 501; the second pass then finds a
    numeric character at index 2 of that name and looks up the zone
    'SM9 Analogue', which the catalog does not have: the run ends with an
    uncaught [KeyError] and Zones.csv is not written. *)
Theorem numeral_nine_crashes (fuel : nat) (before : files) :
  exists text,
    main fuel noargs None [morokulien] before
    = Some {| disk := {| Channels_csv := Some text;
                         Zones_csv := Zones_csv before |};
              printed := [WarnDistrict "9" "SJ9WL Morokulien"];
              ended := Crashed KeyError |} /\
    dict_mem "SM9 Analogue" empty_zones = false /\
    exists row,
      write_channels fuel noargs None [morokulien]
      = Some ([], [row], [WarnDistrict "9" "SJ9WL Morokulien"], None) /\
      number_of row = "501" /\ name_of row = "SJ9WL Morokulien" /\
      Py.index (name_of row) DN_OFF = Ok "9"%char /\
      Py.isnumeric_char "9" = true.
Proof.
  destruct fuel; vm_compute; eexists; (split; [reflexivity|]);
    (split; [reflexivity|]); eexists; repeat split.
Qed.

(** The same station under a call sign of district 4 is put in its two
    zones. *)
Example numeral_four_is_bucketed (fuel : nat) (before : files) :
  exists text,
    main fuel noargs None
      [Row.mk "4" "Repeater" "QRV" "FM" "2" "SK4WL" "Morokulien" "145.600"
         "-0.600" "" "" "" ""] before
    = Some {| disk := {| Channels_csv := Some text;
                         Zones_csv :=
                           Some (csv_line zone_fieldnames
                                 ++ zone_row ("SM4 All Channels",
                                              ["SK4WL Morokulien"])
                                 ++ zone_row ("SM4 Analogue",
                                              ["SK4WL Morokulien"])) |};
              printed := [];
              ended := Finished |}.
Proof. destruct fuel; vm_compute; eexists; reflexivity. Qed.

(** ** The rows of Zones.csv *)

Lemma append_assoc (s t u : string) : (s ++ t) ++ u = s ++ (t ++ u).
Proof. induction s as [|c s IH]; simpl; congruence. Qed.

Lemma concat_app_sep (sep : string) (l1 l2 : list string) :
  l1 <> [] -> l2 <> [] ->
  String.concat sep (l1 ++ l2)
  = String.concat sep l1 ++ sep ++ String.concat sep l2.
Proof.
  intros H1 H2. induction l1 as [|x [|y t] IH]; [congruence| |].
  - destruct l2; [congruence|]. reflexivity.
  - change (String.concat sep ((x :: y :: t) ++ l2))
      with (x ++ sep ++ String.concat sep ((y :: t) ++ l2)).
    rewrite IH by discriminate.
    change (String.concat sep (x :: y :: t))
      with (x ++ sep ++ String.concat sep (y :: t)).
    rewrite <- !append_assoc. reflexivity.
Qed.

Lemma append_empty_r (s : string) : s ++ "" = s.
Proof. induction s as [|c s IH]; simpl; congruence. Qed.

(** Joining [n] empty fields after a non-empty list of fields adds [n]
    delimiters. *)
Lemma concat_padding (l : list string) (n : nat) :
  l <> [] ->
  String.concat ";" (l ++ repeat "" n)
  = String.concat ";" l ++ String.concat "" (repeat ";" n).
Proof.
  intros Hl. revert l Hl; induction n as [|n IH]; intros l Hl.
  - simpl. rewrite app_nil_r, append_empty_r. reflexivity.
  - change (repeat "" (S n)) with ([""] ++ repeat "" n)%list.
    rewrite app_assoc, IH by (destruct l; discriminate).
    rewrite concat_app_sep by (auto; discriminate).
    simpl. rewrite append_assoc. f_equal.
    destruct (repeat ";" n); reflexivity.
Qed.

Lemma split_fields_plain (x : string) :
  no_semicolon x = true -> split_fields x = [x].
Proof.
  unfold no_semicolon. induction x as [|c t IH]; [reflexivity|].
  cbn [existsb_str split_fields].
  destruct (Ascii.eqb c ";"); [discriminate|]. cbn [orb].
  intros H. rewrite (IH H). reflexivity.
Qed.

Lemma split_fields_cons (x rest : string) :
  no_semicolon x = true ->
  split_fields (x ++ String ";" rest) = x :: split_fields rest.
Proof.
  unfold no_semicolon. induction x as [|c t IH].
  - intros _. reflexivity.
  - cbn [existsb_str String.append split_fields].
    destruct (Ascii.eqb c ";"); [discriminate|]. cbn [orb].
    intros H. rewrite (IH H). reflexivity.
Qed.

(** Without a semicolon in the fields, the pieces between the semicolons of
    the joined fields are the fields. *)
Lemma split_fields_concat (l : list string) :
  l <> [] -> Forall (fun x => no_semicolon x = true) l ->
  split_fields (String.concat ";" l) = l.
Proof.
  intros Hne H. induction H as [|x t Hx Ht IH]; [congruence|].
  destruct t as [|y t'].
  - cbn. apply split_fields_plain, Hx.
  - change (String.concat ";" (x :: y :: t'))
      with (x ++ String ";" (String.concat ";" (y :: t'))).
    rewrite (split_fields_cons _ _ Hx), IH by discriminate. reflexivity.
Qed.

(** C6, as stated, fails: 81 channels of district 0 fill the zone
    'SM0 All Channels' beyond 80 (a warning is printed, and the run goes
    on), and the row written for that zone has the zone name and 81 channel
    slots, not 80. *)
Lemma crowded_zone_row :
  let members := map name_of crowd in
  let body := String.concat ";" ("SM0 All Channels" :: members) in
  List.length members = 81%nat /\
  (exists zones,
      populate crowd empty_zones
      = ([WarnZone "SM0 All Channels"], Ok zones) /\
      dict_get "SM0 All Channels" zones = Some members) /\
  zone_row ("SM0 All Channels", members) = body ++ CRLF /\
  List.length (split_fields body) = (1 + 81)%nat.
Proof.
  cbv zeta. split; [reflexivity|]. split.
  - eexists. split; vm_compute; reflexivity.
  - split; vm_compute; reflexivity.
Qed.

(** Names are joined as they are, without quoting: when the name of a
    member holds a semicolon, the row of a zone with a single member has
    one field more than the zone name and 80 channel slots. *)
Example semicolon_in_a_name :
  map name_of semicolon_rows = ["SK0AB a;b 2m"] /\
  (exists zones,
      populate semicolon_rows empty_zones = ([], Ok zones) /\
      dict_get "SM0 Analogue" zones = Some ["SK0AB a;b 2m"]) /\
  zone_row ("SM0 Analogue", ["SK0AB a;b 2m"])
  = String.concat ";" ("SM0 Analogue" :: "SK0AB a;b 2m" :: repeat "" 79)
    ++ CRLF /\
  List.length
    (split_fields
       (String.concat ";" ("SM0 Analogue" :: "SK0AB a;b 2m" :: repeat "" 79)))
  = (1 + 81)%nat.
Proof.
  split; [reflexivity|]. split.
  - eexists. split; vm_compute; reflexivity.
  - split; vm_compute; reflexivity.
Qed.

(** C6, amended.  A zone with no member writes nothing, so the zone rows
    are those of the zones that have members, in the order of the catalog.
    The row of a zone with 1 to 80 members is the zone name, the member
    names in insertion order and then empty fields up to 80 channel slots,
    joined by semicolons and ended by carriage return and line feed; when
    neither the zone name nor a member name holds a semicolon, the fields
    between the semicolons of that row are exactly the zone name and these
    80 slots.  The row of a zone with more than 80 members is the zone
    name followed by all its members, without padding; without a semicolon
    in the names its fields are the zone name and the members. *)
Theorem zone_rows_written (zones : zones_t) :
  zone_rows zones
  = String.concat ""
      (map zone_row (filter (fun z => negb (Nat.eqb (List.length (snd z)) 0))
                       zones)) /\
  (forall name, zone_row (name, []) = "") /\
  (forall name data,
      data <> [] -> (List.length data <= 80)%nat ->
      let slots := (data ++ repeat "" (80 - List.length data))%list in
      List.length slots = 80%nat /\
      zone_row (name, data) = String.concat ";" (name :: slots) ++ CRLF /\
      (no_semicolon name = true ->
       Forall (fun m => no_semicolon m = true) data ->
       split_fields (String.concat ";" (name :: slots)) = name :: slots)) /\
  (forall name data,
      (80 < List.length data)%nat ->
      zone_row (name, data) = String.concat ";" (name :: data) ++ CRLF /\
      (no_semicolon name = true ->
       Forall (fun m => no_semicolon m = true) data ->
       split_fields (String.concat ";" (name :: data)) = name :: data)).
Proof.
  split; [|split; [reflexivity|split]].
  - unfold zone_rows. induction zones as [|[name data] t IH]; [reflexivity|].
    cbn [map filter snd]. destruct data as [|m ms].
    + cbn [List.length Nat.eqb negb]. simpl String.concat at 1.
      change (zone_row (name, [])) with "". simpl.
      destruct (map zone_row t); exact IH.
    + cbn [List.length Nat.eqb negb map].
      set (r := zone_row (name, m :: ms)). fold zone_rows.
      destruct t as [|z t']; [reflexivity|].
      assert (Hc : forall (x : string) l, String.concat "" (x :: l)
                                          = x ++ String.concat "" l).
      { intros x [|y l]; simpl; [rewrite append_empty_r|]; reflexivity. }
      rewrite !Hc. f_equal. exact IH.
  - intros name data Hne Hlen. cbv zeta. split; [|split].
    { rewrite length_app, repeat_length. lia. }
    { unfold zone_row.
      destruct data as [|m ms]; [congruence|].
      cbn [List.length Nat.ltb Nat.leb].
      change (0 <? S (List.length ms))%nat with true. cbv iota.
      change (name :: (m :: ms) ++ repeat "" (80 - S (List.length ms)))%list
        with ((name :: m :: ms) ++ repeat "" (80 - S (List.length ms)))%list.
      rewrite concat_padding by discriminate.
      unfold semicolons. rewrite append_assoc. do 4 f_equal.
      simpl List.length in *. lia. }
    intros Hname Hdata. apply split_fields_concat; [discriminate|].
    constructor; [exact Hname|]. apply Forall_app. split; [exact Hdata|].
    apply Forall_forall. intros x Hx. apply repeat_spec in Hx. subst x.
    reflexivity.
  - intros name data Hlen. split.
    { unfold zone_row.
      destruct data as [|m ms]; [simpl in Hlen; lia|].
      change (0 <? List.length (m :: ms))%nat with true. cbv iota.
      unfold semicolons.
      replace (Z.to_nat (81 - Z.of_nat (List.length (name :: m :: ms))))
        with 0%nat by (simpl List.length in *; lia).
      reflexivity. }
    intros Hname Hdata. apply split_fields_concat; [discriminate|].
    constructor; assumption.
Qed.

Lemma zone_rows_written_witness :
  dict_get "SM0 All Channels" database_zones
  = Some ["SK0AB Solna 2m"; "SK0AB Solna"] /\
  zone_row ("SM0 All Channels", ["SK0AB Solna 2m"; "SK0AB Solna"])
  = String.concat ";"
      ("SM0 All Channels"
       :: ["SK0AB Solna 2m"; "SK0AB Solna"] ++ repeat "" 78)
    ++ CRLF /\
  split_fields
    (String.concat ";"
       ("SM0 All Channels"
        :: ["SK0AB Solna 2m"; "SK0AB Solna"] ++ repeat "" 78))
  = "SM0 All Channels" :: ["SK0AB Solna 2m"; "SK0AB Solna"] ++ repeat "" 78.
Proof.
  split; [reflexivity|].
  destruct (zone_rows_written database_zones) as (_ & _ & H & _).
  destruct (H "SM0 All Channels" ["SK0AB Solna 2m"; "SK0AB Solna"])
    as (_ & H1 & H2); [discriminate|simpl; lia|].
  split; [exact H1|]. apply H2; [reflexivity|repeat constructor].
Defined.

(** ** Fatal errors and warnings *)


(** [--home 0] together with [--allskip] passes the validation: the test of
    line 35 is on the truth value of the numeral. *)
Example home_zero_with_allskip :
  validate {| home := Some 0; allskip := Some [3] |} = None.
Proof. reflexivity. Qed.



(** ** Two runs on the same input *)

Lemma read_channels_det fuel fuel' args rows channels r r' :
  read_channels fuel args rows channels = Some r ->
  read_channels fuel' args rows channels = Some r' ->
  r = r'.
Proof.
  intros H H'.
  destruct (Nat.le_ge_cases fuel fuel') as [Hle|Hle].
  - rewrite (read_channels_mono _ _ _ _ _ _ Hle H) in H'; congruence.
  - rewrite (read_channels_mono _ _ _ _ _ _ Hle H') in H; congruence.
Qed.

Lemma write_channels_det fuel fuel' args custom rows r r' :
  write_channels fuel args custom rows = Some r ->
  write_channels fuel' args custom rows = Some r' ->
  r = r'.
Proof.
  unfold write_channels.
  destruct (match custom with
            | Some c => custom_channels c
            | None => ([], [], None)
            end) as [[crows w1] [e|]]; [congruence|].
  destruct (read_channels fuel args rows []) as [r1|] eqn:H1; [|discriminate].
  destruct (read_channels fuel' args rows []) as [r2|] eqn:H2;
    [|discriminate].
  rewrite (read_channels_det _ _ _ _ _ _ _ H1 H2). congruence.
Qed.

(** C8.  Two completed runs on the same records, the same custom file and
    the same arguments write the same two files, byte for byte, and print
    the same, whatever the files that were there before each of them and
    however many passes the disambiguation loops were allowed: when one run
    finishes, so does the other, with the same Channels.csv and Zones.csv
    and the same rows (hence the same names and numbers). *)
Theorem runs_agree fuel1 fuel2 args custom rows before1 before2 o1 o2 :
  main fuel1 args custom rows before1 = Some o1 ->
  main fuel2 args custom rows before2 = Some o2 ->
  ended o1 = Finished ->
  ended o2 = Finished /\
  disk o1 = disk o2 /\
  printed o1 = printed o2 /\
  write_channels fuel1 args custom rows = write_channels fuel2 args custom rows.
Proof.
  unfold main. destruct (validate args); [intros [= <-] _; discriminate|].
  destruct (write_channels fuel1 args custom rows) as [r1|] eqn:H1;
    [|discriminate].
  destruct (write_channels fuel2 args custom rows) as [r2|] eqn:H2;
    [|discriminate].
  rewrite (write_channels_det _ _ _ _ _ _ _ H1 H2).
  destruct r2 as [[[crows grows] w] [e|]]; [intros [= <-] _; discriminate|].
  destruct (populate (crows ++ grows) empty_zones) as [w3 [zones|e3]];
    intros [= <-] [= <-]; [|discriminate].
  intros _. repeat split.
Qed.

Lemma runs_agree_witness :
  exists o1 o2,
    main 1 noargs (Some namesakes) database
      {| Channels_csv := None; Zones_csv := None |} = Some o1 /\
    main 5 noargs (Some namesakes) database old_files = Some o2 /\
    ended o1 = Finished /\
    ended o2 = Finished /\
    disk o1 = disk o2 /\
    printed o1 = printed o2 /\
    write_channels 1 noargs (Some namesakes) database
    = write_channels 5 noargs (Some namesakes) database.
Proof.
  destruct (main 1 noargs (Some namesakes) database
              {| Channels_csv := None; Zones_csv := None |}) as [o1|] eqn:H1;
    [|vm_compute in H1; discriminate].
  destruct (main 5 noargs (Some namesakes) database old_files) as [o2|] eqn:H2;
    [|vm_compute in H2; discriminate].
  assert (H3 : ended o1 = Finished)
    by (vm_compute in H1; injection H1 as <-; reflexivity).
  exists o1, o2. split; [reflexivity|]. split; [reflexivity|].
  split; [exact H3|].
  exact (runs_agree 1 5 noargs (Some namesakes) database _ _ o1 o2 H1 H2 H3).
Defined.

(** A shift that passes the guard of line 108 and is no decimal ends the
    run. *)
Example malformed_shift_aborts :
  shift_guard "1.2.3" = true /\
  derive noargs
    (Row.mk "0" "Repeater" "QRV" "FM" "2" "SK0AB" "Solna" "145.600" "1.2.3"
       "" "" "" "")
  = ([], Raise InvalidOperation).
Proof. split; reflexivity. Qed.

(** ** What the bucketing does with one row *)

(** A row whose name has no numeral at the district offset is put in no
    zone. *)
Lemma bucket_non_numeric (row : list string) (zones : zones_t) (c : ascii) :
  Py.index (Py.strip (name_of row)) DN_OFF = Ok c ->
  Py.isnumeric_char c = false ->
  bucket row zones = ([], Ok zones).
Proof.
  intros Hc Hn. unfold bucket. fold (name_of row). rewrite Hc.
  cbn [lift bind_io]. rewrite Hn. reflexivity.
Qed.

(** An analogue row with a numeral for which the two zones exist is
    appended to both, with a warning when the district zone already had 80
    members. *)
Lemma bucket_analogue (row : list string) (zones : zones_t) (c : ascii)
  (l1 l2 : list string) :
  let name := Py.strip (name_of row) in
  let z1 := "SM" ++ String c "" ++ " Analogue" in
  let z2 := "SM" ++ String c "" ++ " All Channels" in
  Py.index name DN_OFF = Ok c ->
  Py.isnumeric_char c = true ->
  Py.contains "Digital" (type_of row) = false ->
  dict_get z1 zones = Some l1 ->
  dict_get z2 zones = Some l2 ->
  bucket row zones
  = (if (80 <=? List.length l2)%nat then [WarnZone z2] else [],
     Ok (dict_set z2 (l2 ++ [name])%list
           (dict_set z1 (l1 ++ [name])%list zones))).
Proof.
  cbv zeta. intros Hc Hn Ht H1 H2.
  unfold bucket. fold (name_of row) (type_of row). rewrite Hc, Ht.
  cbn [lift bind_io]. rewrite Hn.
  change ("SM" ++ String c "" ++ " " ++ "Analogue")
    with ("SM" ++ String c "" ++ " Analogue").
  change ("Analogue" =? "DMR")%string with false. cbv iota.
  unfold append at 1. rewrite H1. cbn [bind_io].
  unfold add_checked, append, check_size.
  rewrite dict_get_set_other by (simpl; discriminate).
  rewrite H2. cbn [lift bind_io]. rewrite dict_get_set_same.
  rewrite length_app. simpl List.length.
  replace (80 <? List.length l2 + 1)%nat with (80 <=? List.length l2)%nat.
  - destruct (80 <=? List.length l2)%nat; reflexivity.
  - destruct (Nat.leb_spec 80 (List.length l2));
      symmetry; [apply Nat.ltb_lt|apply Nat.ltb_ge]; lia.
Qed.

Lemma dict_get_absent {V : Type} (k : string) (d : dict V) :
  existsb (String.eqb k) (keys d) = false -> dict_get k d = None.
Proof.
  induction d as [|[k' v] t IH]; simpl; auto.
  destruct (String.eqb k k'); simpl; [discriminate|auto].
Qed.

(** With the zones of the catalog, a row whose name has at the district
    offset a numeral other than 0..7 (8, 9, a superscript or a fraction)
    ends the second pass with a [KeyError]. *)
Lemma bucket_unknown_numeral (row : list string) (zones : zones_t)
  (c : ascii) :
  keys zones = keys empty_zones ->
  Py.index (Py.strip (name_of row)) DN_OFF = Ok c ->
  Py.isnumeric_char c = true ->
  Py.between 48 55 c = false ->
  bucket row zones = ([], Raise KeyError).
Proof.
  intros Hk Hc Hn Hv. unfold bucket. fold (name_of row). rewrite Hc.
  cbn [lift bind_io]. rewrite Hn.
  assert (Habs : forall mode, mode = "DMR" \/ mode = "Analogue" ->
            dict_get ("SM" ++ String c "" ++ " " ++ mode) zones = None).
  { intros mode Hmode. apply dict_get_absent. rewrite Hk.
    destruct c as [[] [] [] [] [] [] [] []]; try discriminate Hn;
      try discriminate Hv; destruct Hmode as [-> | ->]; reflexivity. }
  unfold append at 1.
  destruct (Py.contains "Digital" (nth 2 row ""));
    rewrite Habs by auto; reflexivity.
Qed.

(** A custom row may also bear the name that a generated row is given: the
    names of the custom rows are not entered in the registry. *)
Example custom_and_generated_names_coincide :
  exists crows grows w,
    write_channels 0 noargs
      (Some [["7"; "SK30A Uppland 2m"; "Analogue"; "145.600"]])
      [uppland "" "" ""]
    = Some (crows, grows, w, None) /\
    map name_of (crows ++ grows) = ["SK30A Uppland 2m"; "SK30A Uppland 2m"].
Proof. do 3 eexists; split; vm_compute; reflexivity. Qed.

(** * Further properties of the script *)

(** ** The filter and the registry *)

Lemma read_channels_filter fuel args rows channels :
  read_channels fuel args rows channels
  = read_channels fuel args (filter accepted rows) channels.
Proof.
  revert channels; induction rows as [|row rest IH]; intros channels;
    [reflexivity|].
  cbn [filter read_channels]. destruct (accepted row) eqn:Ha; [|apply IH].
  cbn [read_channels]. rewrite Ha.
  destruct (derive args row) as [w [[name ch]|e]]; [|reflexivity].
  destruct (unique_name fuel channels (mode_of ch) name) as [[name' w']|];
    [|reflexivity].
  rewrite IH. reflexivity.
Qed.

(** X1.  The records that the filter rejects are dropped without a trace:
    the run on a database is the run on its accepted records, down to the
    files written, what is printed and how the run ends. *)
Theorem rejected_records_leave_no_trace fuel args custom rows before :
  main fuel args custom rows before
  = main fuel args custom (filter accepted rows) before.
Proof.
  unfold main, write_channels. rewrite read_channels_filter. reflexivity.
Qed.

Lemma read_channels_entries fuel args rows channels w channels' :
  read_channels fuel args rows channels = Some (w, Ok channels') ->
  exists added,
    channels' = (channels ++ added)%list /\
    Forall2 (fun row entry =>
               dict_mem (fst entry) channels' = true /\
               exists w0 name, derive args row = (w0, Ok (name, snd entry)))
      (filter accepted rows) added.
Proof.
  revert channels w; induction rows as [|row rest IH]; intros channels w.
  - intros [= _ <-]. exists []. rewrite app_nil_r. split; constructor.
  - cbn [read_channels filter]. destruct (accepted row); [|apply IH].
    destruct (derive args row) as [w0 [[name ch]|e]] eqn:Hd; [|discriminate].
    destruct (unique_name fuel channels (mode_of ch) name) as [[name' w']|]
      eqn:Hu; [|discriminate].
    destruct (read_channels fuel args rest (dict_set name' ch channels))
      as [[ws [chs|e]]|] eqn:Hr; try discriminate.
    intros [= _ <-].
    destruct (IH _ _ Hr) as (added & Heq & Hall).
    rewrite (dict_set_fresh _ _ _ (unique_name_fresh _ _ _ _ _ _ Hu)) in Heq.
    exists ((name', ch) :: added). rewrite <- app_assoc in Heq.
    split; [exact Heq|]. constructor; [|exact Hall].
    split; [|eauto]. apply dict_mem_keys. rewrite Heq. unfold keys.
    rewrite map_app. apply in_or_app. right. left. reflexivity.
Qed.

(** X2.  When the database has been read, the registry holds one channel
    for each accepted record, in the order of the records: the channel of
    the i-th entry is the one derived from the i-th accepted record.  No
    accepted record is lost and no channel overwrites another. *)
Theorem one_channel_per_accepted_record fuel args rows w channels :
  read_channels fuel args rows [] = Some (w, Ok channels) ->
  List.length channels = List.length (filter accepted rows) /\
  Forall2 (fun row entry =>
             exists w0 name, derive args row = (w0, Ok (name, snd entry)))
    (filter accepted rows) channels.
Proof.
  intros H. destruct (read_channels_entries _ _ _ _ _ _ H)
    as (added & -> & Hall). simpl.
  split; [symmetry; eapply Forall2_length; eassumption|].
  eapply Forall2_impl; [|exact Hall]. simpl. tauto.
Qed.

Lemma one_channel_per_accepted_record_witness :
  read_channels 1 noargs database [] = Some (database_log, Ok registry) /\
  List.length registry = List.length (filter accepted database) /\
  Forall2 (fun row entry =>
             exists w0 name, derive noargs row = (w0, Ok (name, snd entry)))
    (filter accepted database) registry.
Proof.
  assert (H : read_channels 1 noargs database []
              = Some (database_log, Ok registry)) by (vm_compute; reflexivity).
  split; [exact H|].
  exact (one_channel_per_accepted_record 1 noargs database database_log
           registry H).
Defined.

(** ** The name given by the loop *)

Lemma rename_messages mode name m :
  In m (snd (rename mode name)) -> exists a b, m = ForcedShorten a b.
Proof.
  unfold rename.
  repeat match goal with
         | |- context [if ?b then _ else _] => destruct b
         end; simpl; intros Hm; try tauto.
  destruct Hm as [<-|[]]; eauto.
Qed.

Lemma unique_name_messages fuel channels mode name r w :
  unique_name fuel channels mode name = Some (r, w) ->
  forall m, In m w -> exists a b, m = ForcedShorten a b.
Proof.
  revert name w; induction fuel as [|f IH]; intros name w; simpl;
    destruct (dict_mem name channels); simpl; try discriminate;
    try (intros [= _ <-] m []).
  pose proof (rename_messages mode name) as Hren.
  destruct (rename mode name) as [name' w0].
  destruct (unique_name f channels mode name') as [[r' ws]|] eqn:Hu;
    [|discriminate].
  intros [= -> <-] m Hm. apply in_app_or in Hm. destruct Hm as [Hm|Hm];
    [apply Hren; exact Hm|eapply IH; eauto].
Qed.

(** X3.  When the loop of the name disambiguation ends on a proposed name
    of at most 16 characters: the name it ends with is not in the registry
    and has at most 16 characters; a proposed name that is free is kept as
    it is, without a message; and the loop prints nothing but forced
    shortenings. *)
Theorem name_given_by_the_loop fuel channels mode name r w :
  (String.length name <= 16)%nat ->
  unique_name fuel channels mode name = Some (r, w) ->
  dict_mem r channels = false /\
  (String.length r <= 16)%nat /\
  (dict_mem name channels = false -> r = name /\ w = []) /\
  (forall m, In m w -> exists a b, m = ForcedShorten a b).
Proof.
  intros Hl H. split; [eapply unique_name_fresh; eauto|].
  split; [eapply unique_name_length; eauto|].
  split; [|eapply unique_name_messages; eauto].
  intros Hfree. destruct fuel; simpl in H; rewrite Hfree in H; simpl in H;
    injection H as <- <-; auto.
Qed.

Lemma name_given_by_the_loop_witness :
  (String.length "SK0AB Solna 2m" <= 16)%nat /\
  unique_name 1 (firstn 4 registry) "FM" "SK0AB Solna 2m"
  = Some ("SK0AB Solna", []) /\
  dict_mem "SK0AB Solna" (firstn 4 registry) = false /\
  (String.length "SK0AB Solna" <= 16)%nat /\
  (dict_mem "SK0AB Solna 2m" (firstn 4 registry) = false ->
   "SK0AB Solna" = "SK0AB Solna 2m" /\ @nil msg = []) /\
  (forall m, In m (@nil msg) -> exists a b, m = ForcedShorten a b).
Proof.
  assert (H1 : (String.length "SK0AB Solna 2m" <= 16)%nat)
    by (vm_compute; lia).
  assert (H2 : unique_name 1 (firstn 4 registry) "FM" "SK0AB Solna 2m"
               = Some ("SK0AB Solna", [])) by (vm_compute; reflexivity).
  split; [exact H1|]. split; [exact H2|].
  exact (name_given_by_the_loop 1 (firstn 4 registry) "FM" "SK0AB Solna 2m"
           "SK0AB Solna" [] H1 H2).
Defined.

(** ** Every pass of the loop changes the name *)

Lemma take_length (n : nat) (s : string) :
  String.length (Py.take n s) = Nat.min n (String.length s).
Proof.
  revert s; induction n as [|n IH]; intros [|c t]; simpl; auto.
Qed.

Lemma rfind_lt (sub s : string) :
  sub <> "" -> Py.rfind sub s < Z.of_nat (String.length s).
Proof.
  intros Hsub. induction s as [|c t IH].
  - simpl. destruct sub; [congruence|]. simpl. lia.
  - cbn [Py.rfind String.length].
    destruct (0 <=? Py.rfind sub t); [lia|].
    destruct (prefix sub (String c t)); lia.
Qed.

Lemma slice_to_shorter (k : Z) (s : string) :
  s <> "" -> k < Z.of_nat (String.length s) ->
  (String.length (Py.slice_to k s) < String.length s)%nat.
Proof.
  intros Hs Hk. unfold Py.slice_to.
  assert (0 < String.length s)%nat by (destruct s; [congruence|simpl; lia]).
  destruct (k <? 0) eqn:Hneg; [apply Z.ltb_lt in Hneg|apply Z.ltb_ge in Hneg];
    rewrite take_length; lia.
Qed.

Lemma contains_nonempty (sub s : string) :
  sub <> "" -> Py.contains sub s = true -> s <> "".
Proof.
  intros Hsub H ->. destruct sub; [congruence|]. discriminate H.
Qed.

Lemma contains_cons (sub : string) (c : ascii) (t : string) :
  Py.contains sub (String c t) = true ->
  prefix sub (String c t) = false ->
  Py.contains sub t = true.
Proof.
  unfold Py.contains. cbn [Py.find]. intros H Hp. rewrite Hp in H.
  destruct (Py.find sub t <? 0) eqn:Hneg; [discriminate|].
  apply Z.ltb_ge in Hneg. apply Z.leb_le. assumption.
Qed.

(** Replacing the first occurrence of a character by another one changes
    the string. *)
Lemma replace1_changes (a b : ascii) (s : string) :
  a <> b -> Py.contains (String a "") s = true ->
  Py.replace1 (String a "") (String b "") s <> s.
Proof.
  intros Hab. induction s as [|c t IH]; [discriminate|].
  intros Hc.
  change (Py.replace1 (String a "") (String b "") (String c t))
    with (if prefix (String a "") (String c t)
          then String b "" ++ Py.drop 1 (String c t)
          else String c (Py.replace1 (String a "") (String b "") t)).
  destruct (prefix (String a "") (String c t)) eqn:Hp.
  - simpl in Hp. destruct (ascii_dec a c) as [->|]; [|discriminate].
    simpl. intros [= E]. congruence.
  - intros [= E]. apply IH; [|exact E].
    eapply contains_cons; eassumption.
Qed.

(** X4.  A pass of the loop never gives back the name it was given: the
    name gets shorter (band token stripped, forced shortening), longer
    (mode tag appended) or has one character replaced.  So the loop cannot
    stall on one name; when it does not end, it goes round several. *)
Theorem rename_changes_the_name (mode name : string) :
  fst (rename mode name) <> name.
Proof.
  unfold rename.
  destruct (_ || _)%bool eqn:H1; cbn [fst].
  { assert (Hne : name <> "").
    { apply orb_true_iff in H1. destruct H1 as [H1|H1].
      - eapply contains_nonempty; [|exact H1]. discriminate.
      - intros ->. discriminate H1. }
    intros E.
    pose proof (slice_to_shorter (Py.rfind " " name) name Hne
                  (rfind_lt " " name ltac:(discriminate))) as Hlt.
    rewrite E in Hlt. lia. }
  destruct (String.length name <? 15)%nat eqn:H15; cbn [fst].
  { apply Nat.ltb_lt in H15. intros E.
    assert (Hl : String.length (Py.slice_to 16 (name ++ " " ++ mode))
                 = String.length name) by (rewrite E; reflexivity).
    change (Py.slice_to 16 (name ++ " " ++ mode))
      with (Py.take 16 (name ++ " " ++ mode)) in Hl.
    rewrite take_length, !append_length in Hl.
    change (String.length " ") with 1%nat in Hl. lia. }
  destruct (String.length name <? 16)%nat eqn:H16; cbn [fst].
  { intros E.
    assert (Hl : (String.length name + 1 = String.length name)%nat);
      [|lia].
    destruct (String.eqb mode "FM");
      rewrite <- E at 2; rewrite append_length; reflexivity. }
  apply Nat.ltb_ge in H15, H16.
  destruct (Py.contains " " name) eqn:Hs; cbn [fst].
  { apply replace1_changes; [discriminate|exact Hs]. }
  destruct (Py.contains "_" name) eqn:Hu; cbn [fst].
  { apply replace1_changes; [discriminate|exact Hu]. }
  destruct (Py.contains "." name) eqn:Hp; cbn [fst].
  { apply replace1_changes; [discriminate|exact Hp]. }
  destruct (Py.contains "-" name) eqn:Hh; cbn [fst].
  { apply replace1_changes; [discriminate|exact Hh]. }
  intros E.
  pose proof (strip_length (Py.slice_to (-2) name)) as H2.
  assert (Hne : name <> "") by (intros ->; simpl in H16; lia).
  pose proof (slice_to_shorter (-2) name Hne ltac:(lia)) as H3.
  rewrite E in H2. lia.
Qed.

(** ** Stripping *)

Lemma rstrip_idem (s : string) : Py.rstrip (Py.rstrip s) = Py.rstrip s.
Proof.
  induction s as [|c t IH]; [reflexivity|].
  cbn [Py.rstrip]. destruct (Py.rstrip t) as [|d r] eqn:Hr.
  - destruct (Py.isspace c) eqn:Hc; [reflexivity|].
    cbn [Py.rstrip]. rewrite Hc. reflexivity.
  - change (Py.rstrip (String c (String d r)))
      with (match Py.rstrip (String d r) with
            | EmptyString =>
                if Py.isspace c then EmptyString else String c EmptyString
            | r' => String c r'
            end).
    rewrite IH. reflexivity.
Qed.

Lemma lstrip_rstrip (s : string) :
  Py.lstrip s = s -> Py.lstrip (Py.rstrip s) = Py.rstrip s.
Proof.
  destruct s as [|c t]; [reflexivity|]. cbn [Py.lstrip Py.rstrip].
  destruct (Py.isspace c) eqn:Hc.
  - intros H. exfalso.
    pose proof (lstrip_length t) as Hl. rewrite H in Hl. simpl in Hl. lia.
  - intros _. destruct (Py.rstrip t); cbn [Py.lstrip]; rewrite Hc;
      reflexivity.
Qed.

Lemma lstrip_idem (s : string) : Py.lstrip (Py.lstrip s) = Py.lstrip s.
Proof.
  induction s as [|c t IH]; [reflexivity|]. cbn [Py.lstrip].
  destruct (Py.isspace c) eqn:Hc; [exact IH|].
  cbn [Py.lstrip]. rewrite Hc. reflexivity.
Qed.

(** Stripping twice is stripping once. *)
Lemma strip_idem (s : string) : Py.strip (Py.strip s) = Py.strip s.
Proof.
  unfold Py.strip.
  rewrite (lstrip_rstrip (Py.lstrip s) (lstrip_idem s)).
  apply rstrip_idem.
Qed.

Lemma take_all (n : nat) (s : string) :
  (String.length s <= n)%nat -> Py.take n s = s.
Proof.
  revert s; induction n as [|n IH]; intros [|c t]; simpl; auto; try lia.
  intros H. rewrite IH by lia. reflexivity.
Qed.

(** X5.  A name as it is proposed for a channel has at most 16 characters
    and no white space at either end: stripping it again leaves it as it
    is. *)
Theorem proposed_name_is_trimmed (row : Row.t) :
  (String.length (proposed_name row) <= 16)%nat /\
  Py.strip (proposed_name row) = proposed_name row.
Proof.
  split; [apply proposed_name_length|].
  unfold proposed_name. apply strip_idem.
Qed.

(** ** The rows of the custom file *)

Lemma pad_fields_length (row : list string) :
  List.length (pad_fields row) = List.length fieldnames.
Proof.
  unfold pad_fields. rewrite length_firstn, length_app, repeat_length. lia.
Qed.

Lemma pad_fields_full (row : list string) :
  List.length row = List.length fieldnames -> pad_fields row = row.
Proof.
  intros H. unfold pad_fields. rewrite <- H.
  rewrite firstn_app, Nat.sub_diag, firstn_all. simpl. apply app_nil_r.
Qed.

Lemma writerow_length (data : channel) :
  List.length (writerow data) = List.length fieldnames.
Proof. unfold writerow. apply length_map. Qed.

Lemma number_rows_length (id : Z) (l : list (string * channel)) row :
  In row (number id l) -> List.length row = List.length fieldnames.
Proof.
  revert id; induction l as [|[name data] t IH]; intros id; simpl; [tauto|].
  intros [<-|Hin]; [apply writerow_length|eauto].
Qed.

Lemma custom_channels_rows (c : list (list string)) crows w e :
  custom_channels c = (crows, w, e) ->
  exists c', crows = map custom_written c' /\
             Forall (fun row => row <> []) c'.
Proof.
  revert crows w e; induction c as [|row rest IH]; intros crows w e.
  - intros [= <- _ _]. exists []; split; constructor.
  - destruct row as [|f0 fs]; [simpl; apply IH|].
    cbn [custom_channels].
    destruct (custom_row (f0 :: fs)) as [[out|e0] w0] eqn:Hrow.
    + destruct (custom_channels rest) as [[outs ws] e1] eqn:Hrest.
      intros [= <- _ _]. destruct (IH _ _ _ eq_refl) as (c' & -> & Hc').
      exists ((f0 :: fs) :: c'). split; [|constructor; [discriminate|auto]].
      cbn [map]. f_equal. unfold custom_row in Hrow.
      destruct (Py.int (nth 0 (f0 :: fs) "")); [|discriminate].
      destruct fs as [|f1 fs]; [discriminate|]. cbn [nth_error] in Hrow.
      destruct (_ <? _)%nat; [discriminate|].
      injection Hrow as <- _. reflexivity.
    + intros [= <- _ _]. exists []; split; constructor.
Qed.

(** X6.  Every row written to Channels.csv after the header, of the custom
    file or generated, has exactly the 27 fields of the header, also when
    the run is ended by an exception. *)
Theorem rows_have_27_fields fuel args custom rows crows grows w e :
  write_channels fuel args custom rows = Some (crows, grows, w, e) ->
  Forall (fun row => List.length row = 27%nat) (crows ++ grows).
Proof.
  unfold write_channels.
  destruct (match custom with
            | Some c => custom_channels c
            | None => ([], [], None)
            end) as [[crows0 w1] e1] eqn:Hc.
  assert (Hcr : Forall (fun row => List.length row = 27%nat) crows0).
  { destruct custom as [c|]; [|injection Hc as <- _ _; constructor].
    destruct (custom_channels_rows _ _ _ _ Hc) as (c' & -> & _).
    apply Forall_map, Forall_forall. intros r _.
    apply (pad_fields_length (nth 0 r "" :: _)). }
  assert (Hnil : forall l : list (list string), (l ++ [])%list = l)
    by (intros; apply app_nil_r).
  destruct e1 as [e1|]; [intros [= <- <- _ _]; rewrite Hnil; exact Hcr|].
  destruct (read_channels fuel args rows []) as [[w2 [channels|e2]]|];
    [| |discriminate].
  - destruct (generated channels) as [grows0|e3] eqn:Hg.
    + intros [= <- <- _ _]. apply Forall_app; split; [exact Hcr|].
      unfold generated in Hg. destruct (sorted channels) as [l|];
        [|discriminate]. injection Hg as <-.
      apply Forall_forall. intros r Hr.
      apply (number_rows_length _ _ _ Hr).
    + intros [= <- <- _ _]; rewrite Hnil; exact Hcr.
  - intros [= <- <- _ _]; rewrite Hnil; exact Hcr.
Qed.

Lemma rows_have_27_fields_witness :
  write_channels 1 noargs (Some namesakes) database
  = Some (namesakes_written, database_rows, database_log, None) /\
  Forall (fun row => List.length row = 27%nat)
    (namesakes_written ++ database_rows).
Proof.
  assert (H : write_channels 1 noargs (Some namesakes) database
              = Some (namesakes_written, database_rows, database_log, None))
    by (vm_compute; reflexivity).
  split; [exact H|].
  exact (rows_have_27_fields 1 noargs (Some namesakes) database _ _ _ _ H).
Defined.

Lemma first_two_fields (row : list string) :
  (2 <= List.length row)%nat ->
  nth_error row 1 = Some (nth 1 row "") /\
  (nth 0 row "" :: nth 1 row "" :: skipn 2 row)%list = row.
Proof.
  destruct row as [|f0 [|f1 fs]]; simpl; try lia. auto.
Qed.

(** X7.  A row of the custom file that has its 27 fields, a number that
    [int] reads and a name of at most 16 characters without white space at
    either end is written exactly as it is; the warning about the number is
    printed when, and only when, the number is above 499. *)
Theorem custom_row_passes_through (row : list string) (n : Z) :
  List.length row = List.length fieldnames ->
  Py.int (number_of row) = Ok n ->
  (String.length (name_of row) <= 16)%nat ->
  Py.strip (name_of row) = name_of row ->
  custom_row row
  = (Ok row, if 499 <? n then [WarnCustomNumber (name_of row)] else []).
Proof.
  intros Hlen Hn Hl Hs. unfold custom_row.
  destruct (first_two_fields row) as [H1 H2];
    [rewrite Hlen; simpl; lia|].
  fold (number_of row). rewrite Hn, H1. fold (name_of row).
  rewrite Hlen, Nat.ltb_irrefl.
  change (Py.slice_to 16 (name_of row)) with (Py.take 16 (name_of row)).
  rewrite (take_all 16 _ Hl), Hs.
  unfold number_of, name_of. rewrite H2, (pad_fields_full row Hlen).
  reflexivity.
Qed.

Lemma custom_row_passes_through_witness :
  List.length (nth 0 namesakes_written []) = List.length fieldnames /\
  Py.int (number_of (nth 0 namesakes_written [])) = Ok 1 /\
  (String.length (name_of (nth 0 namesakes_written [])) <= 16)%nat /\
  Py.strip (name_of (nth 0 namesakes_written []))
  = name_of (nth 0 namesakes_written []) /\
  custom_row (nth 0 namesakes_written [])
  = (Ok (nth 0 namesakes_written []),
     if 499 <? 1
     then [WarnCustomNumber (name_of (nth 0 namesakes_written []))]
     else []).
Proof.
  assert (H1 : List.length (nth 0 namesakes_written [])
               = List.length fieldnames) by reflexivity.
  assert (H2 : Py.int (number_of (nth 0 namesakes_written [])) = Ok 1)
    by reflexivity.
  assert (H3 : (String.length (name_of (nth 0 namesakes_written [])) <= 16)%nat)
    by (vm_compute; lia).
  assert (H4 : Py.strip (name_of (nth 0 namesakes_written []))
               = name_of (nth 0 namesakes_written [])) by reflexivity.
  split; [exact H1|]. split; [exact H2|]. split; [exact H3|].
  split; [exact H4|].
  exact (custom_row_passes_through (nth 0 namesakes_written []) 1
           H1 H2 H3 H4).
Defined.

Lemma custom_written_first (f0 : string) (fs : list string) :
  exists name tl,
    custom_written (f0 :: fs) = (f0 :: name :: tl)%list /\
    name = Py.strip (Py.slice_to 16 (nth 1 (f0 :: fs) "")).
Proof.
  unfold custom_written, pad_fields. cbn [nth app List.length fieldnames].
  eexists _, _. split; reflexivity.
Qed.

Lemma custom_written_again (row : list string) (n : Z) :
  row <> [] ->
  Py.int (nth 0 row "") = Ok n ->
  exists w, custom_row (custom_written row) = (Ok (custom_written row), w).
Proof.
  intros Hne Hn. destruct row as [|f0 fs]; [congruence|].
  destruct (custom_written_first f0 fs) as (name & tl & Heq & Hname).
  eexists. apply (custom_row_passes_through _ n).
  - apply (pad_fields_length (nth 0 (f0 :: fs) "" :: _)).
  - rewrite Heq. exact Hn.
  - rewrite Heq. unfold name_of. cbn [nth]. rewrite Hname.
    pose proof (strip_length (Py.slice_to 16 (nth 1 (f0 :: fs) ""))).
    pose proof (slice_to_16 (nth 1 (f0 :: fs) "")). lia.
  - rewrite Heq. unfold name_of. cbn [nth]. rewrite Hname.
    apply strip_idem.
Qed.

(** X8.  Ingesting the custom file is idempotent on the rows: when a custom
    file has been ingested without an exception, the rows written for it,
    given as a custom file in turn, are ingested without an exception and
    written unchanged. *)
Theorem custom_rows_are_stable (c : list (list string)) crows w :
  custom_channels c = (crows, w, None) ->
  exists w', custom_channels crows = (crows, w', None).
Proof.
  revert crows w; induction c as [|row rest IH]; intros crows w.
  - intros [= <- _]. exists []. reflexivity.
  - destruct row as [|f0 fs]; [simpl; apply IH|].
    cbn [custom_channels].
    destruct (custom_row (f0 :: fs)) as [[out|e0] w0] eqn:Hrow;
      [|discriminate].
    destruct (custom_channels rest) as [[outs ws] e1] eqn:Hrest.
    intros [= <- _ ->]. destruct (IH _ _ eq_refl) as [w' Hw'].
    assert (Hout : out = custom_written (f0 :: fs)
                   /\ exists n, Py.int (nth 0 (f0 :: fs) "") = Ok n).
    { unfold custom_row in Hrow.
      destruct (Py.int (nth 0 (f0 :: fs) "")) as [n|]; [|discriminate].
      destruct fs as [|f1 fs]; [discriminate|]. cbn [nth_error] in Hrow.
      destruct (_ <? _)%nat; [discriminate|].
      injection Hrow as <- _. split; [reflexivity|eauto]. }
    destruct Hout as [-> [n Hn]].
    destruct (custom_written_again (f0 :: fs) n ltac:(discriminate) Hn)
      as [w1 H1].
    destruct (custom_written_first f0 fs) as (name & tl & Heq & _).
    rewrite Heq in *. cbn [custom_channels]. rewrite H1, Hw'. eauto.
Qed.

Lemma custom_rows_are_stable_witness :
  custom_channels namesakes = (namesakes_written, [], None) /\
  exists w', custom_channels namesakes_written
             = (namesakes_written, w', None).
Proof.
  assert (H : custom_channels namesakes = (namesakes_written, [], None))
    by (vm_compute; reflexivity).
  split; [exact H|].
  exact (custom_rows_are_stable namesakes namesakes_written [] H).
Defined.

(** ** Channel numbers: [int] after [str] *)

Lemma int_digits_uint (d : Decimal.uint) (acc : Z) :
  Py.int_digits acc true (NilEmpty.string_of_uint d) = Some (uint_val acc d).
Proof.
  revert acc; induction d; intros acc; cbn [NilEmpty.string_of_uint uint_val];
    [reflexivity|..];
    cbn [Py.int_digits]; change (Py.isdigit _) with true; cbv iota;
    rewrite <- IHd; reflexivity.
Qed.

Lemma uint_val_acc (d : Decimal.uint) (acc : positive) :
  Z.pos (Pos.of_uint_acc d acc) = uint_val (Z.pos acc) d.
Proof.
  revert acc; induction d; intros acc; cbn [Pos.of_uint_acc uint_val];
    [reflexivity|..]; rewrite IHd; f_equal; lia.
Qed.

Lemma uint_val_of_uint (d : Decimal.uint) :
  Z.of_N (Pos.of_uint d) = uint_val 0 d.
Proof.
  induction d; cbn [Pos.of_uint uint_val]; [reflexivity|exact IHd|..];
    cbn [Z.of_N]; rewrite uint_val_acc; reflexivity.
Qed.

Lemma uint_val_to_uint (p : positive) :
  uint_val 0 (Pos.to_uint p) = Z.pos p.
Proof.
  rewrite <- uint_val_of_uint, Unsigned.of_to. reflexivity.
Qed.

Lemma digits_unstripped (d : Decimal.uint) :
  Py.lstrip (NilEmpty.string_of_uint d) = NilEmpty.string_of_uint d /\
  Py.rstrip (NilEmpty.string_of_uint d) = NilEmpty.string_of_uint d.
Proof.
  induction d; cbn [NilEmpty.string_of_uint]; [split; reflexivity|..];
    destruct IHd as [_ IH]; (split; [reflexivity|]);
    cbn [Py.rstrip]; rewrite IH;
    destruct (NilEmpty.string_of_uint d); reflexivity.
Qed.

Lemma int_digits_first (d : Decimal.uint) :
  d <> Decimal.Nil ->
  Py.int_digits 0 false (NilEmpty.string_of_uint d) = Some (uint_val 0 d).
Proof.
  intros Hd.
  destruct d; [congruence|..]; cbn [NilEmpty.string_of_uint];
    cbn [Py.int_digits]; change (Py.isdigit _) with true; cbv iota;
    rewrite int_digits_uint; reflexivity.
Qed.

Lemma int_of_digits (d : Decimal.uint) :
  d <> Decimal.Nil ->
  Py.int (NilEmpty.string_of_uint d) = Ok (uint_val 0 d).
Proof.
  intros Hd. unfold Py.int, Py.strip.
  destruct (digits_unstripped d) as [-> ->].
  pose proof (int_digits_first d Hd) as H.
  destruct d; [congruence|..]; cbn [NilEmpty.string_of_uint] in H |- *;
    rewrite H; reflexivity.
Qed.

Lemma to_uint_nonnil (p : positive) : Pos.to_uint p <> Decimal.Nil.
Proof.
  intros H. pose proof (Unsigned.of_to p) as E. rewrite H in E.
  discriminate E.
Qed.

(** [int(str(n)) = n]: a number written by [str] is read back by [int] as
    the same number. *)
Lemma int_of_str (n : Z) : Py.int (Py.str_of_Z n) = Ok n.
Proof.
  unfold Py.str_of_Z. destruct n as [|p|p]; [reflexivity| |];
    cbn [Z.to_int NilZero.string_of_int];
    pose proof (to_uint_nonnil p) as Hn;
    assert (Hs : NilZero.string_of_uint (Pos.to_uint p)
                 = NilEmpty.string_of_uint (Pos.to_uint p))
      by (unfold NilZero.string_of_uint; destruct (Pos.to_uint p);
          [congruence|reflexivity..]);
    rewrite Hs.
  - rewrite (int_of_digits _ Hn), uint_val_to_uint. reflexivity.
  - pose proof (int_digits_first _ Hn) as Hd.
    rewrite uint_val_to_uint in Hd.
    destruct (digits_unstripped (Pos.to_uint p)) as [_ Hr].
    assert (Hst : Py.strip (String "-" (NilEmpty.string_of_uint (Pos.to_uint p)))
                  = String "-" (NilEmpty.string_of_uint (Pos.to_uint p))).
    { unfold Py.strip. cbn [Py.lstrip]. change (Py.isspace "-") with false.
      cbv iota. cbn [Py.rstrip]. rewrite Hr.
      destruct (NilEmpty.string_of_uint (Pos.to_uint p)); reflexivity. }
    unfold Py.int. rewrite Hst. cbv iota beta. rewrite Hd. reflexivity.
Qed.

(** ** The channel numbers *)

Lemma custom_channels_numbers (c : list (list string)) crows w :
  custom_channels c = (crows, w, None) ->
  forall row, In row crows ->
    exists n name,
      Py.int (number_of row) = Ok n /\
      name_of row = Py.strip (Py.slice_to 16 name) /\
      (499 < n -> In (WarnCustomNumber name) w).
Proof.
  revert crows w; induction c as [|r rest IH]; intros crows w.
  - intros [= <- _] row [].
  - destruct r as [|f0 fs]; [simpl; apply IH|].
    cbn [custom_channels].
    destruct (custom_row (f0 :: fs)) as [[out|e] w0] eqn:Hrow;
      [|discriminate].
    destruct (custom_channels rest) as [[outs ws] e] eqn:Hrest.
    intros [= <- <- ->] row [<-|Hin].
    + unfold custom_row in Hrow.
      destruct (Py.int (nth 0 (f0 :: fs) "")) as [n|] eqn:Hn; [|discriminate].
      destruct fs as [|f1 fs]; [discriminate|].
      cbn [nth_error] in Hrow.
      destruct (_ <? _)%nat; [discriminate|].
      injection Hrow as <- <-.
      exists n, f1. split; [exact Hn|]. split; [reflexivity|].
      intros H. apply in_or_app. left.
      destruct (Z.ltb_spec 499 n); [left; reflexivity|lia].
    + destruct (IH _ _ eq_refl row Hin) as (n & name & H1 & H2 & H3).
      exists n, name. split; [exact H1|]. split; [exact H2|].
      intros H. apply in_or_app. right. auto.
Qed.

Lemma number_nth (id : Z) (l : list (string * channel)) (i : nat) row :
  nth_error (number id l) i = Some row ->
  number_of row = Py.str_of_Z (id + 1 + Z.of_nat i).
Proof.
  revert id i; induction l as [|[name data] t IH]; intros id i.
  - destruct i; discriminate.
  - cbn [number]. destruct i as [|i]; cbn [nth_error].
    + intros [= <-]. rewrite Z.add_0_r.
      apply (numbered_row (id + 1) name data).
    + intros H. rewrite (IH _ _ H). f_equal. lia.
Qed.

(** X9.  In a completed channel list the Channel Number of every custom
    row is a number, and one above 499 has had its warning printed, with
    the name as it stood in the custom file; the generated rows are numbered
    501, 502, ... in the order they are written, and [int] reads these
    numbers back. *)
Theorem channel_numbers fuel args custom rows crows grows w :
  write_channels fuel args custom rows = Some (crows, grows, w, None) ->
  (forall row, In row crows ->
     exists n name,
       Py.int (number_of row) = Ok n /\
       name_of row = Py.strip (Py.slice_to 16 name) /\
       (499 < n -> In (WarnCustomNumber name) w)) /\
  (forall i row, nth_error grows i = Some row ->
     Py.int (number_of row) = Ok (501 + Z.of_nat i)).
Proof.
  unfold write_channels.
  destruct (match custom with
            | Some c => custom_channels c
            | None => ([], [], None)
            end) as [[crows0 w1] e1] eqn:Hc.
  destruct e1 as [e|]; [discriminate|].
  destruct (read_channels fuel args rows []) as [[w2 [channels|e]]|] eqn:Hr;
    try discriminate.
  destruct (generated channels) as [grows0|e] eqn:Hg; [|discriminate].
  intros [= -> -> <-]. split.
  - intros row Hin. destruct custom as [c|].
    + destruct (custom_channels_numbers _ _ _ Hc row Hin)
        as (n & name & H1 & H2 & H3).
      exists n, name. split; [exact H1|]. split; [exact H2|].
      intros H. apply in_or_app. left. auto.
    + injection Hc as <- _ . destruct Hin.
  - intros i row Hi. unfold generated in Hg.
    destruct (sorted channels) as [l|]; [|discriminate].
    injection Hg as <-. rewrite (number_nth _ _ _ _ Hi), int_of_str.
    f_equal.
Qed.

Lemma channel_numbers_witness :
  write_channels 1 noargs (Some namesakes) database
  = Some (namesakes_written, database_rows, database_log, None) /\
  (forall row, In row namesakes_written ->
     exists n name,
       Py.int (number_of row) = Ok n /\
       name_of row = Py.strip (Py.slice_to 16 name) /\
       (499 < n -> In (WarnCustomNumber name) database_log)) /\
  (forall i row, nth_error database_rows i = Some row ->
     Py.int (number_of row) = Ok (501 + Z.of_nat i)).
Proof.
  assert (H : write_channels 1 noargs (Some namesakes) database
              = Some (namesakes_written, database_rows, database_log, None))
    by (vm_compute; reflexivity).
  split; [exact H|].
  exact (channel_numbers 1 noargs (Some namesakes) database _ _ _ H).
Defined.


(** ** Channels with the same sort key *)

Lemma before_tied (k x y : sort_key) :
  key_ltb y x = true -> same_key k x = true -> same_key k y = false.
Proof.
  unfold same_key. intros Hyx Hx.
  apply andb_true_iff in Hx. destruct Hx as [Hkx Hxk].
  apply negb_true_iff in Hkx, Hxk.
  destruct (key_ltb y k) eqn:Hyk; [rewrite andb_false_r; reflexivity|].
  pose proof (key_le_trans x k y Hkx Hyk) as H. unfold key_le in H.
  congruence.
Qed.

Lemma insert_filter_tied {A : Type} (k : sort_key) (x : sort_key * A)
  (l : list (sort_key * A)) :
  filter (fun p => same_key k (fst p)) (insert x l)
  = filter (fun p => same_key k (fst p)) (x :: l).
Proof.
  induction l as [|y t IH]; [reflexivity|].
  cbn [insert]. destruct (key_ltb (fst y) (fst x)) eqn:Hlt; [|reflexivity].
  cbn [filter] in IH |- *. rewrite IH.
  destruct (same_key k (fst x)) eqn:Hx; [|reflexivity].
  rewrite (before_tied _ _ _ Hlt Hx). reflexivity.
Qed.

Lemma sort_filter_tied {A : Type} (k : sort_key) (l : list (sort_key * A)) :
  filter (fun p => same_key k (fst p)) (sort l)
  = filter (fun p => same_key k (fst p)) l.
Proof.
  induction l as [|x t IH]; [reflexivity|].
  cbn [sort]. rewrite insert_filter_tied. cbn [filter]. rewrite IH.
  reflexivity.
Qed.

Lemma filter_tied_keyed (k : sort_key) (ks : list (sort_key * (string * channel))) :
  Forall (fun p => key_of (snd p) = Ok (fst p)) ks ->
  filter (tied k) (map snd ks)
  = map snd (filter (fun p => same_key k (fst p)) ks).
Proof.
  induction 1 as [|p t Hp _ IH]; [reflexivity|].
  cbn [map filter]. unfold tied at 1. rewrite Hp, IH.
  destruct (same_key k (fst p)); reflexivity.
Qed.

(** X10.  The sort is stable: the channels whose keys tie (same type, same
    character at the district offset, same receive frequency as a number)
    are written in the order in which they were registered. *)
Theorem ties_keep_registry_order (channels : dict channel)
  (l : list (string * channel)) (k : sort_key) :
  sorted channels = Ok l ->
  filter (tied k) l = filter (tied k) channels.
Proof.
  unfold sorted. destruct (keyed key_of channels) as [ks|e] eqn:Hks;
    [|discriminate].
  cbn [bind]. intros [= <-].
  destruct (keyed_spec _ _ _ Hks) as [Hsnd Hall].
  rewrite <- Hsnd.
  rewrite !filter_tied_keyed, sort_filter_tied; auto.
  apply (Permutation_Forall (Permutation_sym (sort_perm ks))). exact Hall.
Qed.

Lemma ties_keep_registry_order_witness :
  sorted registry = Ok registry_sorted /\
  filter (tied solna_key) registry_sorted = filter (tied solna_key) registry.
Proof.
  assert (H : sorted registry = Ok registry_sorted) by (vm_compute; reflexivity).
  split; [exact H|].
  exact (ties_keep_registry_order registry registry_sorted solna_key H).
Defined.


(** ** The zones after the second pass *)

Lemma dict_set_keys {V : Type} (k : string) (v v0 : V) (d : dict V) :
  dict_get k d = Some v0 -> keys (dict_set k v d) = keys d.
Proof.
  induction d as [|[k' v'] t IH]; simpl; [discriminate|].
  destruct (String.eqb_spec k k') as [->|Hne]; simpl; [reflexivity|].
  intros H. f_equal. apply IH, H.
Qed.

Lemma append_spec (zone name : string) (zones zones' : zones_t) :
  append zone name zones = Ok zones' ->
  keys zones' = keys zones /\
  exists l0, dict_get zone zones = Some l0 /\
  forall k, dict_get k zones'
            = if String.eqb k zone then Some (l0 ++ [name])%list
              else dict_get k zones.
Proof.
  unfold append. destruct (dict_get zone zones) as [l|] eqn:Hl;
    [|discriminate].
  intros [= <-]. split; [eapply dict_set_keys; eauto|].
  exists l. split; [reflexivity|]. intros k.
  destruct (String.eqb_spec k zone) as [->|Hne].
  - apply dict_get_set_same.
  - apply dict_get_set_other, Hne.
Qed.

Lemma add_checked_spec (zone name : string) (zones zones' : zones_t) w :
  add_checked zone name zones = (w, Ok zones') ->
  append zone name zones = Ok zones' /\
  exists l, dict_get zone zones' = Some l /\
            w = if (80 <? List.length l)%nat then [WarnZone zone] else [].
Proof.
  unfold add_checked. destruct (append zone name zones) as [z1|e] eqn:Ha;
    [|discriminate].
  cbn [lift bind_io]. unfold check_size.
  destruct (dict_get zone z1) as [l|] eqn:Hl; [|discriminate].
  destruct (80 <? List.length l)%nat eqn:Hlen; intros [= <- <-];
    (split; [reflexivity|]); exists l; rewrite Hlen; auto.
Qed.

Lemma bucket_targets (row : list string) (zones zones' : zones_t) w :
  bucket row zones = (w, Ok zones') ->
  add_all (Py.strip (name_of row)) (targets row) zones = (w, Ok zones').
Proof.
  unfold bucket, targets. fold (name_of row).
  destruct (Py.index (Py.strip (name_of row)) DN_OFF) as [c|e];
    [|discriminate].
  cbn [lift bind_io].
  destruct (Py.isnumeric_char c); [|exact (fun H => H)].
  destruct (Py.contains "Digital" (nth 2 row "")).
  - change ("SM" ++ String c "" ++ " " ++ "DMR")
      with ("SM" ++ String c "" ++ " DMR").
    change ("DMR" =? "DMR")%string with true. cbv iota.
    cbn [add_all lift bind_io].
    destruct (append ("SM" ++ String c "" ++ " DMR") _ zones) as [z1|];
      [|discriminate].
    destruct (add_checked ("SM" ++ String c "" ++ " All Channels") _ z1)
      as [w2 [z2|]]; [|discriminate].
    destruct (Py.index (nth 3 row "") 0) as [c'|]; [|discriminate].
    cbn [lift bind_io app].
    destruct (Ascii.eqb c' "1"); destruct (Ascii.eqb c' "4");
      cbn [add_all app bind_io ret];
      repeat match goal with
        | |- context [add_checked ?z ?n ?zs] =>
            destruct (add_checked z n zs) as [? [?|]]; cbn [bind_io ret]
        end; rewrite ?app_nil_r; try discriminate; exact (fun H => H).
  - change ("SM" ++ String c "" ++ " " ++ "Analogue")
      with ("SM" ++ String c "" ++ " Analogue").
    change ("Analogue" =? "DMR")%string with false. cbv iota.
    cbn [add_all lift bind_io].
    destruct (append ("SM" ++ String c "" ++ " Analogue") _ zones) as [z1|];
      [|discriminate].
    destruct (add_checked ("SM" ++ String c "" ++ " All Channels") _ z1)
      as [w2 [z2|]]; [|discriminate].
    cbn [bind_io ret app]. rewrite ?app_nil_r. exact (fun H => H).
Qed.

Lemma targets_nodup (row : list string) : NoDup (map fst (targets row)).
Proof.
  unfold targets.
  destruct (Py.index (Py.strip (nth 1 row "")) DN_OFF) as [c|e];
    [|constructor].
  destruct (Py.isnumeric_char c); [|constructor].
  destruct (Py.contains "Digital" (nth 2 row "")).
  - destruct (Py.index (nth 3 row "") 0) as [c'|];
      [destruct (Ascii.eqb_spec c' "1") as [->|];
       [|destruct (Ascii.eqb_spec c' "4") as [->|]]|];
      cbn; repeat constructor; cbn; intuition discriminate.
  - cbn; repeat constructor; cbn; intuition discriminate.
Qed.

Lemma add_all_spec (name : string) (ts : list (string * bool)) :
  forall (zones zones' : zones_t) w,
    add_all name ts zones = (w, Ok zones') ->
    NoDup (map fst ts) ->
    keys zones' = keys zones /\
    forall k l, dict_get k zones = Some l ->
      dict_get k zones'
      = Some (l ++ if existsb (fun t => String.eqb k (fst t)) ts
                   then [name] else [])%list.
Proof.
  induction ts as [|[zone chk] rest IH]; intros zones zones' w.
  - intros [= _ <-] _. split; [reflexivity|].
    intros k l H. rewrite app_nil_r. exact H.
  - cbn [add_all map fst]. intros H Hnd. inversion Hnd as [|? ? Hnotin Hnd'].
    subst.
    assert (Hstep : exists z1 w2,
               append zone name zones = Ok z1 /\
               add_all name rest z1 = (w2, Ok zones')).
    { destruct chk.
      - destruct (add_checked zone name zones) as [w1 [z1|]] eqn:Hc;
          [|discriminate].
        cbn [bind_io] in H.
        destruct (add_all name rest z1) as [w2 r] eqn:Ha.
        injection H as _ ->. exists z1, w2.
        split; [apply (add_checked_spec _ _ _ _ _ Hc)|exact Ha].
      - destruct (append zone name zones) as [z1|] eqn:Hc; [|discriminate].
        cbn [lift bind_io] in H.
        destruct (add_all name rest z1) as [w2 r] eqn:Ha.
        injection H as _ ->. exists z1, w2. auto. }
    destruct Hstep as (z1 & w2 & Happ & Hrest).
    destruct (append_spec _ _ _ _ Happ) as (Hk1 & l0 & Hl0 & Hget).
    destruct (IH _ _ _ Hrest Hnd') as [Hk2 Hget2].
    split; [congruence|]. intros k l Hl. cbn [existsb fst].
    specialize (Hget k). revert Hget.
    destruct (String.eqb_spec k zone) as [Heq|Hne]; intros Hget.
    + subst k. rewrite (Hget2 _ _ Hget).
      assert (Hex : existsb (fun t => String.eqb zone (fst t)) rest = false).
      { destruct (existsb _ rest) eqn:Hex; [|reflexivity].
        exfalso. apply Hnotin. apply existsb_exists in Hex.
        destruct Hex as ([z c] & Hin & Heq). apply String.eqb_eq in Heq.
        simpl in Heq. subst z. apply in_map_iff. exists (zone, c). auto. }
      rewrite Hex. cbn [orb]. rewrite app_nil_r. congruence.
    + cbn [orb]. apply Hget2. congruence.
Qed.

Lemma bucket_spec (row : list string) (zones zones' : zones_t) w :
  bucket row zones = (w, Ok zones') ->
  keys zones' = keys zones /\
  forall k l, dict_get k zones = Some l ->
    dict_get k zones'
    = Some (l ++ if joins k row then [Py.strip (name_of row)] else [])%list.
Proof.
  intros H. apply bucket_targets in H.
  exact (add_all_spec _ _ _ _ _ H (targets_nodup row)).
Qed.

Lemma populate_spec (rows : list (list string)) :
  forall (zones zones' : zones_t) w,
    populate rows zones = (w, Ok zones') ->
    keys zones' = keys zones /\
    forall k l, dict_get k zones = Some l ->
                dict_get k zones' = Some (l ++ members k rows)%list.
Proof.
  induction rows as [|row rest IH]; intros zones zones' w.
  - intros [= _ <-]. split; [reflexivity|]. intros k l H.
    unfold members. cbn. rewrite app_nil_r. exact H.
  - cbn [populate]. destruct (bucket row zones) as [w1 [z1|]] eqn:Hb;
      [|discriminate].
    cbn [bind_io]. destruct (populate rest z1) as [w2 r] eqn:Hp.
    intros [= _ ->].
    destruct (bucket_spec _ _ _ _ Hb) as [Hk1 Hg1].
    destruct (IH _ _ _ Hp) as [Hk2 Hg2].
    split; [congruence|]. intros k l Hl.
    rewrite (Hg2 _ _ (Hg1 _ _ Hl)), <- app_assoc. unfold members.
    cbn [filter]. destruct (joins k row); reflexivity.
Qed.

Lemma dict_by_keys {V : Type} (f : string -> V) (d : dict V) :
  NoDup (keys d) ->
  (forall k, In k (keys d) -> dict_get k d = Some (f k)) ->
  d = map (fun k => (k, f k)) (keys d).
Proof.
  induction d as [|[k0 v0] t IH]; [reflexivity|].
  cbn [keys map fst]. intros Hnd H. inversion Hnd as [|? ? Hnotin Hnd'].
  subst. f_equal.
  - specialize (H k0 (or_introl eq_refl)). cbn [dict_get] in H.
    rewrite String.eqb_refl in H. congruence.
  - apply IH; [exact Hnd'|]. intros k Hin.
    specialize (H k (or_intror Hin)). cbn [dict_get] in H. revert H.
    destruct (String.eqb_spec k k0) as [Heq|]; [subst k; contradiction|].
    exact (fun H => H).
Qed.

Lemma dict_get_key {V : Type} (k : string) (d : dict V) :
  In k (keys d) -> exists v, dict_get k d = Some v.
Proof.
  induction d as [|[k0 v0] t IH]; [intros []|].
  cbn [keys map fst dict_get]. intros H.
  destruct (String.eqb_spec k k0) as [->|Hne]; [eauto|].
  destruct H as [H|H]; [congruence|auto].
Qed.

(** X11.  When the second pass completes, the zones are those of the
    catalog, in its order, and each holds the names of the rows that were
    appended to it, in the order of Channels.csv. *)
Theorem zones_after_second_pass (rows : list (list string)) (zones : zones_t)
  w :
  populate rows empty_zones = (w, Ok zones) ->
  zones = map (fun zone => (zone, members zone rows)) (keys empty_zones).
Proof.
  intros H. destruct (populate_spec _ _ _ _ H) as [Hk Hg].
  rewrite <- Hk. apply dict_by_keys.
  - rewrite Hk. vm_compute.
    repeat (constructor; [cbn; intuition discriminate|]). constructor.
  - intros k Hin. rewrite Hk in Hin.
    assert (He : dict_get k empty_zones = Some []).
    { vm_compute in Hin.
      repeat (destruct Hin as [<-|Hin]; [reflexivity|]). destruct Hin. }
    rewrite (Hg _ _ He). reflexivity.
Qed.

Lemma zones_after_second_pass_witness :
  populate database_rows empty_zones = ([], Ok database_zones) /\
  database_zones
  = map (fun zone => (zone, members zone database_rows)) (keys empty_zones).
Proof.
  assert (H : populate database_rows empty_zones = ([], Ok database_zones))
    by (vm_compute; reflexivity).
  split; [exact H|].
  exact (zones_after_second_pass database_rows database_zones [] H).
Defined.


(** ** The zones of a district *)

Lemma joins_district (c : ascii) (row : list string) :
  let an := joins ("SM" ++ String c "" ++ " Analogue") row in
  let dmr := joins ("SM" ++ String c "" ++ " DMR") row in
  let all := joins ("SM" ++ String c "" ++ " All Channels") row in
  (an = true /\ dmr = false /\ all = true) \/
  (an = false /\ dmr = true /\ all = true) \/
  (an = false /\ dmr = false /\ all = false).
Proof.
  cbv zeta. unfold joins, targets.
  destruct (Py.index (Py.strip (nth 1 row "")) DN_OFF) as [c0|e];
    [|cbn; auto].
  destruct (Py.isnumeric_char c0); [|cbn; auto].
  destruct (Py.contains "Digital" (nth 2 row ""));
    [destruct (Py.index (nth 3 row "") 0) as [c'|];
     [destruct (Ascii.eqb c' "1"); destruct (Ascii.eqb c' "4")|]|];
    cbn; destruct (Ascii.eqb c c0); cbn; auto.
Qed.

Lemma members_district (c : ascii) (rows : list (list string)) :
  Permutation (members ("SM" ++ String c "" ++ " All Channels") rows)
    (members ("SM" ++ String c "" ++ " Analogue") rows
     ++ members ("SM" ++ String c "" ++ " DMR") rows).
Proof.
  unfold members. induction rows as [|row rest IH]; [constructor|].
  cbn [filter].
  destruct (joins_district c row) as [(-> & -> & ->)|[(-> & -> & ->)|(-> & -> & ->)]];
    cbn [map app]; auto.
  apply Permutation_cons_app. exact IH.
Qed.

Lemma catalog_district (c : ascii) :
  Py.between 48 55 c = true ->
  dict_get ("SM" ++ String c "" ++ " All Channels") empty_zones = Some [] /\
  dict_get ("SM" ++ String c "" ++ " Analogue") empty_zones = Some [] /\
  dict_get ("SM" ++ String c "" ++ " DMR") empty_zones = Some [].
Proof.
  destruct c as [[] [] [] [] [] [] [] []]; intros H; try discriminate H;
    repeat split; reflexivity.
Qed.

(** X12.  After the second pass the zone 'SMd All Channels' of a district
    holds the members of the zones 'SMd Analogue' and 'SMd DMR' of that
    district, each once, and nothing else. *)
Theorem district_zone_holds_both_modes (rows : list (list string))
  (zones : zones_t) w (c : ascii) :
  populate rows empty_zones = (w, Ok zones) ->
  Py.between 48 55 c = true ->
  exists all an dmr,
    dict_get ("SM" ++ String c "" ++ " All Channels") zones = Some all /\
    dict_get ("SM" ++ String c "" ++ " Analogue") zones = Some an /\
    dict_get ("SM" ++ String c "" ++ " DMR") zones = Some dmr /\
    Permutation all (an ++ dmr).
Proof.
  intros H Hc. destruct (populate_spec _ _ _ _ H) as [_ Hg].
  destruct (catalog_district c Hc) as (H1 & H2 & H3).
  do 3 eexists.
  split; [apply (Hg _ _ H1)|]. split; [apply (Hg _ _ H2)|].
  split; [apply (Hg _ _ H3)|]. cbn [app]. apply members_district.
Qed.

Lemma district_zone_holds_both_modes_witness :
  populate database_rows empty_zones = ([], Ok database_zones) /\
  Py.between 48 55 "0" = true /\
  exists all an dmr,
    dict_get "SM0 All Channels" database_zones = Some all /\
    dict_get "SM0 Analogue" database_zones = Some an /\
    dict_get "SM0 DMR" database_zones = Some dmr /\
    Permutation all (an ++ dmr).
Proof.
  assert (H : populate database_rows empty_zones = ([], Ok database_zones))
    by (vm_compute; reflexivity).
  assert (Hc : Py.between 48 55 "0" = true) by reflexivity.
  split; [exact H|]. split; [exact Hc|].
  exact (district_zone_holds_both_modes database_rows database_zones []
           "0"%char H Hc).
Defined.


(** ** The warnings of the second pass *)

Lemma add_all_step (name zone : string) (chk : bool)
  (rest : list (string * bool)) (zones zones' : zones_t) w :
  add_all name ((zone, chk) :: rest) zones = (w, Ok zones') ->
  exists z1 w1 w2 l,
    append zone name zones = Ok z1 /\
    add_all name rest z1 = (w2, Ok zones') /\
    w = (w1 ++ w2)%list /\
    dict_get zone z1 = Some l /\
    w1 = if (chk && (80 <? List.length l)%nat)%bool then [WarnZone zone]
         else [].
Proof.
  cbn [add_all]. intros H. destruct chk.
  - destruct (add_checked zone name zones) as [w1 [z1|]] eqn:Hc;
      [|discriminate].
    cbn [bind_io] in H.
    destruct (add_all name rest z1) as [w2 r] eqn:Ha.
    injection H as <- ->.
    destruct (add_checked_spec _ _ _ _ _ Hc) as (Happ & l & Hl & Hw).
    exists z1, w1, w2, l. cbn [andb]. auto.
  - destruct (append zone name zones) as [z1|] eqn:Hc; [|discriminate].
    cbn [lift bind_io] in H.
    destruct (add_all name rest z1) as [w2 r] eqn:Ha.
    injection H as <- ->.
    destruct (append_spec _ _ _ _ Hc) as (_ & l0 & _ & Hget).
    exists z1, [], w2, (l0 ++ [name])%list. cbn [andb].
    specialize (Hget zone). rewrite String.eqb_refl in Hget. auto.
Qed.

Lemma not_later (zone : string) (rest : list (string * bool)) :
  ~ In zone (map fst rest) ->
  existsb (fun t => String.eqb zone (fst t)) rest = false.
Proof.
  intros Hnotin. destruct (existsb _ rest) eqn:Hex; [|reflexivity].
  exfalso. apply Hnotin. apply existsb_exists in Hex.
  destruct Hex as ([z c] & Hin & Heq). apply String.eqb_eq in Heq.
  simpl in Heq. subst z. apply in_map_iff. exists (zone, c). auto.
Qed.

Lemma add_all_warned (name : string) (ts : list (string * bool)) :
  forall (zones zones' : zones_t) w,
    add_all name ts zones = (w, Ok zones') ->
    NoDup (map fst ts) ->
    forall m, In m w ->
      exists z l, m = WarnZone z /\ dict_get z zones' = Some l /\
                  (80 < List.length l)%nat.
Proof.
  induction ts as [|[zone chk] rest IH]; intros zones zones' w.
  - intros [= <- _] _ m [].
  - intros H Hnd m Hin. inversion Hnd as [|? ? Hnotin Hnd']. subst.
    destruct (add_all_step _ _ _ _ _ _ _ H)
      as (z1 & w1 & w2 & l & Happ & Hrest & -> & Hl & ->).
    apply in_app_or in Hin. destruct Hin as [Hin|Hin].
    + destruct chk; [|destruct Hin]. cbn [andb] in Hin.
      destruct (Nat.ltb_spec 80 (List.length l)); [|destruct Hin].
      destruct Hin as [<-|[]]. exists zone, l. split; [reflexivity|].
      split; [|assumption].
      destruct (add_all_spec _ _ _ _ _ Hrest Hnd') as [_ Hg].
      rewrite (Hg _ _ Hl), (not_later _ _ Hnotin), app_nil_r. reflexivity.
    + exact (IH _ _ _ Hrest Hnd' m Hin).
Qed.

Lemma add_all_quiet (name : string) (ts : list (string * bool)) :
  forall (zones zones' : zones_t),
    add_all name ts zones = ([], Ok zones') ->
    NoDup (map fst ts) ->
    forall z, In (z, true) ts ->
      exists l, dict_get z zones' = Some l /\ (List.length l <= 80)%nat.
Proof.
  induction ts as [|[zone chk] rest IH]; intros zones zones'.
  - intros _ _ z [].
  - intros H Hnd z Hin. inversion Hnd as [|? ? Hnotin Hnd']. subst.
    destruct (add_all_step _ _ _ _ _ _ _ H)
      as (z1 & w1 & w2 & l & Happ & Hrest & Hw & Hl & Hw1).
    symmetry in Hw. apply app_eq_nil in Hw. destruct Hw as [-> ->].
    destruct Hin as [[= <- ->]|Hin]; [|exact (IH _ _ Hrest Hnd' z Hin)].
    exists l. cbn [andb] in Hw1.
    destruct (Nat.ltb_spec 80 (List.length l)); [discriminate|].
    split; [|assumption].
    destruct (add_all_spec _ _ _ _ _ Hrest Hnd') as [_ Hg].
    rewrite (Hg _ _ Hl), (not_later _ _ Hnotin), app_nil_r. reflexivity.
Qed.

Lemma populate_warned (rows : list (list string)) :
  forall (zones zones' : zones_t) w,
    populate rows zones = (w, Ok zones') ->
    forall m, In m w ->
      exists z l, m = WarnZone z /\ dict_get z zones' = Some l /\
                  (80 < List.length l)%nat.
Proof.
  induction rows as [|row rest IH]; intros zones zones' w.
  - intros [= <- _] m [].
  - cbn [populate]. destruct (bucket row zones) as [w1 [z1|]] eqn:Hb;
      [|discriminate].
    cbn [bind_io]. destruct (populate rest z1) as [w2 r] eqn:Hp.
    intros [= <- ->] m Hin. apply in_app_or in Hin.
    destruct Hin as [Hin|Hin]; [|exact (IH _ _ _ Hp m Hin)].
    destruct (add_all_warned _ _ _ _ _ (bucket_targets _ _ _ _ Hb)
                (targets_nodup row) m Hin) as (z & l & -> & Hl & Hlen).
    destruct (populate_spec _ _ _ _ Hp) as [_ Hg].
    exists z, (l ++ members z rest)%list. split; [reflexivity|].
    split; [apply Hg, Hl|]. rewrite length_app. lia.
Qed.

Lemma targets_unchecked (row : list string) (k : string) :
  In (k, false) (targets row) ->
  exists c,
    (k = "SM" ++ String c "" ++ " Analogue"
     \/ k = "SM" ++ String c "" ++ " DMR") /\
    In ("SM" ++ String c "" ++ " All Channels", true) (targets row).
Proof.
  unfold targets.
  destruct (Py.index (Py.strip (nth 1 row "")) DN_OFF) as [c|e];
    [|intros []].
  destruct (Py.isnumeric_char c); [|intros []].
  destruct (Py.contains "Digital" (nth 2 row "")).
  - intros [[= <-]|[[=]|Hin]]; [exists c; split; [auto|right; left; auto]|].
    exfalso. destruct (Py.index (nth 3 row "") 0) as [c'|]; [|destruct Hin].
    destruct (Ascii.eqb c' "1"); destruct (Ascii.eqb c' "4"); cbn in Hin;
      intuition discriminate.
  - intros [[= <-]|[[=]|[]]]. exists c. split; [auto|right; left; auto].
Qed.

Lemma dict_get_in_keys {V : Type} (k : string) (v : V) (d : dict V) :
  dict_get k d = Some v -> In k (keys d).
Proof.
  induction d as [|[k0 v0] t IH]; [discriminate|].
  cbn [dict_get keys map fst].
  destruct (String.eqb_spec k k0) as [Heq|];
    [intros _; left; symmetry; exact Heq|].
  intros H. right. apply IH, H.
Qed.

Lemma joins_target (k : string) (row : list string) :
  joins k row = true -> exists chk, In (k, chk) (targets row).
Proof.
  unfold joins. intros H. apply existsb_exists in H.
  destruct H as ([z chk] & Hin & Heq). apply String.eqb_eq in Heq.
  simpl in Heq. subst z. eauto.
Qed.

Lemma bucket_fits (row : list string) (zones zones' : zones_t) :
  bucket row zones = ([], Ok zones') -> fits zones -> fits zones'.
Proof.
  intros Hb [Hsize Hmode].
  pose proof (bucket_targets _ _ _ _ Hb) as Ha.
  destruct (bucket_spec _ _ _ _ Hb) as [Hk Hg].
  pose proof (add_all_quiet _ _ _ _ Ha (targets_nodup row)) as Hq.
  assert (Hold : forall k l', dict_get k zones' = Some l' ->
             exists l, dict_get k zones = Some l /\
               l' = (l ++ if joins k row then [Py.strip (name_of row)]
                          else [])%list).
  { intros k l' Hl'. apply dict_get_in_keys in Hl' as Hin.
    rewrite Hk in Hin. destruct (dict_get_key _ _ Hin) as [l Hl].
    exists l. split; [exact Hl|]. rewrite (Hg _ _ Hl) in Hl'. congruence. }
  assert (Hmode' : forall c all l,
      dict_get ("SM" ++ String c "" ++ " All Channels") zones' = Some all ->
      dict_get ("SM" ++ String c "" ++ " Analogue") zones' = Some l \/
      dict_get ("SM" ++ String c "" ++ " DMR") zones' = Some l ->
      (List.length l <= List.length all)%nat).
  { intros c all l Hall Hl.
    destruct (Hold _ _ Hall) as (all0 & Hall0 & ->).
    pose proof (joins_district c row) as Hj. cbv zeta in Hj.
    destruct Hl as [Hl|Hl]; destruct (Hold _ _ Hl) as (l0 & Hl0 & ->);
      pose proof (Hmode c all0 l0 Hall0) as Hle;
      (assert (Hle' : (List.length l0 <= List.length all0)%nat)
        by (apply Hle; auto));
      rewrite !length_app;
      destruct Hj as [(E1 & E2 & E3)|[(E1 & E2 & E3)|(E1 & E2 & E3)]];
      rewrite ?E1, ?E2, ?E3; simpl; lia. }
  split; [|exact Hmode'].
  intros k l' Hl'. destruct (Hold _ _ Hl') as (l & Hl & Heq).
  destruct (joins k row) eqn:Hj.
  - destruct (joins_target _ _ Hj) as [[] Hin].
    + destruct (Hq _ Hin) as (l1 & Hl1 & Hlen). congruence.
    + destruct (targets_unchecked _ _ Hin) as (c & Hkc & Hall).
      destruct (Hq _ Hall) as (all & Hall' & Hlen).
      assert (Hle : (List.length l' <= List.length all)%nat).
      { apply (Hmode' c all l' Hall'). destruct Hkc; subst k; auto. }
      lia.
  - subst l'. rewrite app_nil_r. eapply Hsize; eauto.
Qed.

Lemma populate_fits (rows : list (list string)) :
  forall (zones zones' : zones_t),
    populate rows zones = ([], Ok zones') -> fits zones -> fits zones'.
Proof.
  induction rows as [|row rest IH]; intros zones zones'.
  - intros [= <-]. auto.
  - cbn [populate]. destruct (bucket row zones) as [w1 [z1|]] eqn:Hb;
      [|discriminate].
    cbn [bind_io]. destruct (populate rest z1) as [w2 r] eqn:Hp.
    intros [= Hw ->]. apply app_eq_nil in Hw. destruct Hw as [-> ->].
    intros Hf. apply (IH _ _ Hp). apply (bucket_fits _ _ _ Hb Hf).
Qed.

Lemma fits_catalog : fits empty_zones.
Proof.
  assert (H : forall z l, dict_get z empty_zones = Some l -> l = []).
  { intros z l Hl. apply dict_get_in_keys in Hl as Hin.
    vm_compute in Hin.
    repeat (destruct Hin as [<-|Hin]; [vm_compute in Hl; congruence|]).
    destruct Hin. }
  split.
  - intros z l Hl. rewrite (H _ _ Hl). simpl. lia.
  - intros c all l _ [Hl|Hl]; rewrite (H _ _ Hl); simpl; lia.
Qed.

(** X13.  The warnings of the second pass are about zones that end up with
    more than 80 members, and when no warning is printed, no zone has more
    than 80 members: also the zones of the modes, whose size is never
    looked at. *)
Theorem zone_warnings (rows : list (list string)) (zones : zones_t) w :
  populate rows empty_zones = (w, Ok zones) ->
  (forall m, In m w ->
     exists z l, m = WarnZone z /\ dict_get z zones = Some l /\
                 (80 < List.length l)%nat) /\
  (w = [] ->
   forall z l, dict_get z zones = Some l -> (List.length l <= 80)%nat).
Proof.
  intros H. split; [exact (populate_warned _ _ _ _ H)|].
  intros ->. apply (populate_fits _ _ _ H fits_catalog).
Qed.

Lemma zone_warnings_witness :
  populate database_rows empty_zones = ([], Ok database_zones) /\
  (forall m, In m [] ->
     exists z l, m = WarnZone z /\ dict_get z database_zones = Some l /\
                 (80 < List.length l)%nat) /\
  (@nil msg = [] ->
   forall z l, dict_get z database_zones = Some l ->
               (List.length l <= 80)%nat).
Proof.
  assert (H : populate database_rows empty_zones = ([], Ok database_zones))
    by (vm_compute; reflexivity).
  split; [exact H|].
  exact (zone_warnings database_rows database_zones [] H).
Defined.


(** ** The tone of an analogue channel *)

Lemma tone_at_unfold (c : ascii) (t : string) :
  tone_at (String c t)
  = if Py.isdigit c then
      match t with
      | String c2 t2 =>
          if Ascii.eqb c2 "." then
            match t2 with
            | String d _ =>
                if Py.isdigit d
                then Some (String c (String "." (String d "")))
                else None
            | EmptyString => None
            end
          else match tone_at t with
               | Some m => Some (String c m)
               | None => None
               end
      | EmptyString => None
      end
    else None.
Proof.
  cbn [tone_at]. destruct (Py.isdigit c); [|reflexivity].
  destruct t as [|c2 t2]; [reflexivity|].
  destruct (Ascii.eqb_spec c2 ".") as [->|Hne].
  - destruct t2; reflexivity.
  - destruct c2 as [[] [] [] [] [] [] [] []]; try reflexivity.
    congruence.
Qed.

Lemma tone_at_sound (s m : string) :
  tone_at s = Some m -> tone_shape m /\ exists post, s = m ++ post.
Proof.
  revert m; induction s as [|c t IH]; intros m; [discriminate|].
  rewrite tone_at_unfold. destruct (Py.isdigit c) eqn:Hc; [|discriminate].
  destruct t as [|c2 t2]; [discriminate|].
  destruct (Ascii.eqb_spec c2 ".") as [->|Hne].
  - destruct t2 as [|d t3]; [discriminate|].
    destruct (Py.isdigit d) eqn:Hd; [|discriminate].
    intros [= <-]. split; [|exists t3; reflexivity].
    exists (String c ""), d. cbn. rewrite Hc. repeat split; congruence.
  - destruct (tone_at (String c2 t2)) as [m'|]; [|discriminate].
    intros [= <-]. destruct (IH m' eq_refl) as [(ds & d & -> & Hds & Hall & Hd)
                                                  [post Hpost]].
    split; [|exists post; cbn; congruence].
    exists (String c ds), d. cbn. rewrite Hc, Hall.
    repeat split; congruence.
Qed.

Lemma tone_at_complete (ds : string) (d : ascii) (post : string) :
  ds <> "" -> Py.forallb_str Py.isdigit ds = true -> Py.isdigit d = true ->
  tone_at (ds ++ String "." (String d post))
  = Some (ds ++ String "." (String d "")).
Proof.
  intros Hne Hall Hd. induction ds as [|c ds IH]; [congruence|].
  cbn [Py.forallb_str] in Hall. apply andb_true_iff in Hall.
  destruct Hall as [Hc Hall].
  change (String c ds ++ String "." (String d post))
    with (String c (ds ++ String "." (String d post))).
  destruct ds as [|c2 ds'].
  - rewrite tone_at_unfold, Hc. cbn. rewrite Hd. reflexivity.
  - change (String c2 ds' ++ String "." (String d post))
      with (String c2 (ds' ++ String "." (String d post))) in *.
    assert (Hc2 : Py.isdigit c2 = true).
    { cbn [Py.forallb_str] in Hall. apply andb_true_iff in Hall. tauto. }
    rewrite tone_at_unfold, Hc. cbv iota.
    destruct (Ascii.eqb_spec c2 ".") as [->|_]; [discriminate Hc2|].
    rewrite IH by (auto; discriminate). reflexivity.
Qed.

Lemma tone_search_unfold (s : string) :
  tone_search s
  = match tone_at s with
    | Some m => Some m
    | None => match s with
              | String _ t => tone_search t
              | EmptyString => None
              end
    end.
Proof. destruct s; reflexivity. Qed.

Lemma tone_search_found (s m : string) :
  tone_search s = Some m ->
  exists pre post,
    s = pre ++ m ++ post /\ tone_shape m /\
    forall pre' m' post',
      s = pre' ++ m' ++ post' -> tone_shape m' ->
      (String.length pre <= String.length pre')%nat.
Proof.
  revert m; induction s as [|c t IH]; intros m; rewrite tone_search_unfold.
  - discriminate.
  - destruct (tone_at (String c t)) as [m0|] eqn:Hat.
    + intros [= <-]. destruct (tone_at_sound _ _ Hat) as [Hs [post Hp]].
      exists "", post. split; [exact Hp|]. split; [exact Hs|].
      intros; simpl; lia.
    + intros H. destruct (IH _ H) as (pre & post & -> & Hs & Hleft).
      exists (String c pre), post. split; [reflexivity|].
      split; [exact Hs|]. intros pre' m' post' Heq Hs'.
      destruct pre' as [|c' pre'].
      * exfalso. destruct Hs' as (ds & d & -> & Hne & Hall & Hd).
        cbn [String.append] in Heq. rewrite Heq in Hat.
        assert (E : (ds ++ String "." (String d "")) ++ post'
                    = ds ++ String "." (String d post')).
        { clear. induction ds; cbn; congruence. }
        rewrite E, (tone_at_complete ds d post' Hne Hall Hd) in Hat.
        discriminate.
      * cbn [String.append] in Heq. injection Heq as _ Heq.
        specialize (Hleft _ _ _ Heq Hs'). simpl. lia.
Qed.

Lemma tone_search_none (s : string) :
  tone_search s = None ->
  forall pre m post, s = pre ++ m ++ post -> ~ tone_shape m.
Proof.
  induction s as [|c t IH]; rewrite tone_search_unfold.
  - intros _ pre m post Heq (ds & d & -> & Hne & _).
    destruct pre; [destruct ds; [congruence|discriminate]|discriminate].
  - destruct (tone_at (String c t)) as [m0|] eqn:Hat; [discriminate|].
    intros H pre m post Heq Hs. destruct pre as [|c' pre].
    + destruct Hs as (ds & d & -> & Hne & Hall & Hd).
      cbn [String.append] in Heq. rewrite Heq in Hat.
      assert (E : (ds ++ String "." (String d "")) ++ post
                  = ds ++ String "." (String d post)).
      { clear. induction ds; cbn; congruence. }
      rewrite E, (tone_at_complete ds d post Hne Hall Hd) in Hat.
      discriminate.
    + cbn [String.append] in Heq. injection Heq as _ Heq.
      exact (IH H _ _ _ Heq Hs).
Qed.


(** ** The fields of a derived channel *)

(** The steps of [derive] that may raise, one after the other. *)
Ltac derive_steps :=
  unfold derive, bind_io, lift, ret;
  destruct (Py.index (proposed_name _) DN_OFF) as [?c|]; [|discriminate];
  destruct (if negb (Py.isnumeric_char _) then Ok true else _)
    as [?invalid|]; [|discriminate];
  match goal with
  | |- context [if ?b then print ?m else ?r] =>
      destruct (if b then print m else r) as [?w0 [[]|]]; [|discriminate]
  end;
  destruct (Py.int (Row.district _)) as [?d|] eqn:?Hd; [|discriminate];
  destruct (if shift_guard _ then _ else _); [|discriminate];
  destruct (Dec.Decimal (Row.output _)); [|discriminate];
  destruct (Dec.add _ _); [|discriminate];
  intros [= _ _ <-].

(** X14.  An analogue channel has the bandwidth 12.5, the squelch disabled
    and no field of a digital channel.  Its two tones are the same: the
    leftmost piece of the access text made of digits, a point and one
    digit, or the empty text when the access text has no such piece. *)
Theorem analogue_channel args row w name ch :
  derive args row = (w, Ok (name, ch)) ->
  Py.contains "DMR" (Row.mode row) = false ->
  dict_get "Channel Type" ch = Some "Analogue" /\
  dict_get "Bandwidth (kHz)" ch = Some "12.5" /\
  dict_get "Squelch" ch = Some "Disabled" /\
  Forall (fun k => dict_get k ch = None)
    ["Colour Code"; "Timeslot"; "Contact"; "TG List"; "DMR ID"; "TS1_TA_Tx";
     "TS2_TA_Tx ID"] /\
  exists tone,
    dict_get "RX Tone" ch = Some tone /\
    dict_get "TX Tone" ch = Some tone /\
    ((tone = "" /\
      forall pre m post, Row.access row = pre ++ m ++ post -> ~ tone_shape m)
     \/ (tone_shape tone /\
         exists pre post,
           Row.access row = pre ++ tone ++ post /\
           forall pre' m' post',
             Row.access row = pre' ++ m' ++ post' -> tone_shape m' ->
             (String.length pre <= String.length pre')%nat)).
Proof.
  intros H Hmode. revert H. derive_steps. rewrite Hmode.
  split; [reflexivity|]. split; [reflexivity|]. split; [reflexivity|].
  split; [repeat constructor|].
  destruct (tone_search (Row.access row)) as [m|] eqn:Ht.
  - exists m. split; [unfold analogue_fields; rewrite Ht; reflexivity|].
    split; [unfold analogue_fields; rewrite Ht; reflexivity|]. right.
    destruct (tone_search_found _ _ Ht) as (pre & post & H1 & H2 & H3).
    split; [exact H2|]. exists pre, post. auto.
  - exists "". split; [unfold analogue_fields; rewrite Ht; reflexivity|].
    split; [unfold analogue_fields; rewrite Ht; reflexivity|]. left.
    split; [reflexivity|]. exact (tone_search_none _ Ht).
Qed.

Lemma analogue_channel_witness :
  derive noargs (uppland "" "" "")
  = ([], Ok ("SK30A Uppland 2m", uppland_channel)) /\
  Py.contains "DMR" (Row.mode (uppland "" "" "")) = false /\
  dict_get "Channel Type" uppland_channel = Some "Analogue" /\
  dict_get "Bandwidth (kHz)" uppland_channel = Some "12.5" /\
  dict_get "Squelch" uppland_channel = Some "Disabled" /\
  Forall (fun k => dict_get k uppland_channel = None)
    ["Colour Code"; "Timeslot"; "Contact"; "TG List"; "DMR ID"; "TS1_TA_Tx";
     "TS2_TA_Tx ID"] /\
  exists tone,
    dict_get "RX Tone" uppland_channel = Some tone /\
    dict_get "TX Tone" uppland_channel = Some tone /\
    ((tone = "" /\
      forall pre m post,
        Row.access (uppland "" "" "") = pre ++ m ++ post -> ~ tone_shape m)
     \/ (tone_shape tone /\
         exists pre post,
           Row.access (uppland "" "" "") = pre ++ tone ++ post /\
           forall pre' m' post',
             Row.access (uppland "" "" "") = pre' ++ m' ++ post' ->
             tone_shape m' ->
             (String.length pre <= String.length pre')%nat)).
Proof.
  assert (H : derive noargs (uppland "" "" "")
              = ([], Ok ("SK30A Uppland 2m", uppland_channel)))
    by (vm_compute; reflexivity).
  assert (Hm : Py.contains "DMR" (Row.mode (uppland "" "" "")) = false)
    by reflexivity.
  split; [exact H|]. split; [exact Hm|].
  exact (analogue_channel noargs (uppland "" "" "") [] "SK30A Uppland 2m"
           uppland_channel H Hm).
Defined.

(** X15.  A digital channel has no field of an analogue channel.  Without
    'CC' in the access text it has no field of its own either; with it, the
    colour code is the two characters that start three after 'CC', the
    timeslot is 1, and the talk group list is the network of the record,
    or 'Brandmeister' when that network contains 'BM' or 'Brandmeister'. *)
Theorem digital_channel args row w name ch :
  derive args row = (w, Ok (name, ch)) ->
  Py.contains "DMR" (Row.mode row) = true ->
  let cc := Py.find "CC" (Row.access row) in
  dict_get "Channel Type" ch = Some "Digital" /\
  Forall (fun k => dict_get k ch = None)
    ["Bandwidth (kHz)"; "RX Tone"; "TX Tone"; "Squelch"; "Contact"] /\
  (cc = -1 ->
   Forall (fun k => dict_get k ch = None)
     ["Colour Code"; "Timeslot"; "TG List"; "DMR ID"; "TS1_TA_Tx";
      "TS2_TA_Tx ID"]) /\
  (cc <> -1 ->
   dict_get "Colour Code" ch
   = Some (Py.slice (cc + 3) (cc + 5) (Row.access row)) /\
   dict_get "Timeslot" ch = Some "1" /\
   dict_get "TG List" ch
   = Some (if (Py.contains "BM" (Row.network row)
               || Py.contains "Brandmeister" (Row.network row))%bool
           then "Brandmeister" else Row.network row) /\
   dict_get "DMR ID" ch = Some "None" /\
   dict_get "TS1_TA_Tx" ch = Some "Off" /\
   dict_get "TS2_TA_Tx ID" ch = Some "Off").
Proof.
  intros H Hmode. revert H. derive_steps. rewrite Hmode. cbv zeta.
  cbn [dict_set dict_get String.eqb Ascii.eqb Bool.eqb].
  unfold digital_fields.
  destruct (Z.eqb_spec (Py.find "CC" (Row.access row)) (-1)) as [E|E];
    cbn [negb].
  - split; [reflexivity|]. split; [repeat constructor|].
    split; [intros _; repeat constructor|congruence].
  - split; [reflexivity|]. split; [repeat constructor|].
    split; [congruence|]. intros _.
    split; [reflexivity|]. split; [reflexivity|].
    split; [|repeat split; reflexivity].
    destruct (Py.contains "BM" (Row.network row)); cbn [negb orb].
    + reflexivity.
    + destruct (Py.contains "Brandmeister" (Row.network row)); reflexivity.
Qed.

Lemma digital_channel_witness :
  derive noargs boras = ([], Ok ("SK6RFQ Boras 70c", boras_channel)) /\
  Py.contains "DMR" (Row.mode boras) = true /\
  dict_get "Channel Type" boras_channel = Some "Digital" /\
  Forall (fun k => dict_get k boras_channel = None)
    ["Bandwidth (kHz)"; "RX Tone"; "TX Tone"; "Squelch"; "Contact"] /\
  (Py.find "CC" (Row.access boras) = -1 ->
   Forall (fun k => dict_get k boras_channel = None)
     ["Colour Code"; "Timeslot"; "TG List"; "DMR ID"; "TS1_TA_Tx";
      "TS2_TA_Tx ID"]) /\
  (Py.find "CC" (Row.access boras) <> -1 ->
   dict_get "Colour Code" boras_channel
   = Some (Py.slice (Py.find "CC" (Row.access boras) + 3)
             (Py.find "CC" (Row.access boras) + 5) (Row.access boras)) /\
   dict_get "Timeslot" boras_channel = Some "1" /\
   dict_get "TG List" boras_channel
   = Some (if (Py.contains "BM" (Row.network boras)
               || Py.contains "Brandmeister" (Row.network boras))%bool
           then "Brandmeister" else Row.network boras) /\
   dict_get "DMR ID" boras_channel = Some "None" /\
   dict_get "TS1_TA_Tx" boras_channel = Some "Off" /\
   dict_get "TS2_TA_Tx ID" boras_channel = Some "Off").
Proof.
  assert (H : derive noargs boras
              = ([], Ok ("SK6RFQ Boras 70c", boras_channel)))
    by (vm_compute; reflexivity).
  assert (Hm : Py.contains "DMR" (Row.mode boras) = true) by reflexivity.
  split; [exact H|]. split; [exact Hm|].
  exact (digital_channel noargs boras [] "SK6RFQ Boras 70c" boras_channel
           H Hm).
Defined.

(** X16.  The flag 'All Skip' of a derived channel, for arguments that
    passed the validation: with a home district other than 0, the flag is
    set exactly for the records of the other districts; without a home
    district, it is set exactly for the records of the districts given by
    [--allskip], and for none when there is no such option. *)
Theorem all_skip_flag args row w name ch d :
  validate args = None ->
  derive args row = (w, Ok (name, ch)) ->
  Py.int (Row.district row) = Ok d ->
  exists flag : bool,
    dict_get "All Skip" ch = Some (if flag then "Yes" else "No") /\
    (forall h, home args = Some h -> h <> 0 -> (flag = true <-> d <> h)) /\
    (home args = None ->
     forall l, allskip args = Some l -> (flag = true <-> In d l)) /\
    (home args = None -> allskip args = None -> flag = false).
Proof.
  intros Hv H Hd. revert H. derive_steps.
  assert (d0 = d) by congruence. subst d0.
  exists (all_skip args d).
  split.
  { destruct (Py.contains "DMR" (Row.mode row)); cbn; unfold digital_fields;
      try destruct (Py.find "CC" (Row.access row) =? -1); reflexivity. }
  unfold all_skip. split; [|split].
  - intros h Hh Hne. unfold validate, home_given in Hv. rewrite Hh in *.
    assert (Hag : allskip_given args = false).
    { destruct (allskip_given args); [|reflexivity]. exfalso.
      destruct (invalid_skip _); [discriminate|].
      destruct (Z.eqb_spec h 0); [contradiction|discriminate]. }
    rewrite Hag, orb_false_r.
    destruct (Z.eqb_spec d h); cbn; split; congruence.
  - intros Hh l Hl. rewrite Hh, Hl. cbn [orb]. unfold allskip_given.
    rewrite Hl. destruct l as [|x l']; [cbn; split; [discriminate|tauto]|].
    cbn [andb]. unfold in_Z. rewrite existsb_exists. split.
    + intros (y & Hin & Hy). apply Z.eqb_eq in Hy. subst y. exact Hin.
    + intros Hin. exists d. split; [exact Hin|apply Z.eqb_refl].
  - intros Hh Hl. rewrite Hh. unfold allskip_given. rewrite Hl. reflexivity.
Qed.

Lemma all_skip_flag_witness :
  validate noargs = None /\
  derive noargs (uppland "" "" "")
  = ([], Ok ("SK30A Uppland 2m", uppland_channel)) /\
  Py.int (Row.district (uppland "" "" "")) = Ok 3 /\
  exists flag : bool,
    dict_get "All Skip" uppland_channel
    = Some (if flag then "Yes" else "No") /\
    (forall h, home noargs = Some h -> h <> 0 -> (flag = true <-> 3 <> h)) /\
    (home noargs = None ->
     forall l, allskip noargs = Some l -> (flag = true <-> In 3 l)) /\
    (home noargs = None -> allskip noargs = None -> flag = false).
Proof.
  assert (Hv : validate noargs = None) by reflexivity.
  assert (H : derive noargs (uppland "" "" "")
              = ([], Ok ("SK30A Uppland 2m", uppland_channel)))
    by (vm_compute; reflexivity).
  assert (Hd : Py.int (Row.district (uppland "" "" "")) = Ok 3)
    by reflexivity.
  split; [exact Hv|]. split; [exact H|]. split; [exact Hd|].
  exact (all_skip_flag noargs (uppland "" "" "") [] "SK30A Uppland 2m"
           uppland_channel 3 Hv H Hd).
Defined.


(** ** Validation of the arguments *)

Lemma invalid_skip_none (l : list Z) :
  invalid_skip l = None <-> Forall (fun s => in_Z s valid_districts = true) l.
Proof.
  induction l as [|s t IH]; cbn [invalid_skip].
  - split; [constructor|reflexivity].
  - destruct (in_Z s valid_districts) eqn:Hs; cbn [negb].
    + rewrite IH. split; [constructor; assumption|].
      intros H; inversion H; assumption.
    + split; [discriminate|]. intros H; inversion H; congruence.
Qed.

(** X17.  The arguments pass the validation exactly when: every district
    of a non-empty [--allskip] is one of 0..7 and there is then no [--home],
    or [--home 0]; and the district of [--home] is one of 0..7. *)
Theorem arguments_accepted (args : Args) :
  validate args = None <->
  (forall l, allskip args = Some l -> l <> [] ->
     Forall (fun s => in_Z s valid_districts = true) l /\
     (home args = None \/ home args = Some 0)) /\
  (forall h, home args = Some h -> in_Z h valid_districts = true).
Proof.
  unfold validate, allskip_given, home_given.
  destruct args as [hm sk]; cbn [home allskip].
  destruct sk as [[|s t]|].
  - destruct hm as [h|].
    + destruct (Z.eqb_spec h 0) as [->|Hne]; cbn [negb andb].
      * split; [|reflexivity]. intros _. split; [congruence|].
        intros h [= <-]. reflexivity.
      * destruct (in_Z h valid_districts) eqn:Hh; cbn [negb].
        -- split; [|reflexivity]. intros _. split; [congruence|].
           intros h' [= <-]. exact Hh.
        -- split; [discriminate|]. intros [_ H].
           specialize (H h eq_refl). congruence.
    + split; [|reflexivity]. intros _. split; [congruence|discriminate].
  - destruct (invalid_skip (s :: t)) as [m|] eqn:Hi.
    + split; [discriminate|]. intros [H _].
      destruct (H _ eq_refl) as [Hall _]; [discriminate|].
      apply invalid_skip_none in Hall. congruence.
    + apply invalid_skip_none in Hi. destruct hm as [h|].
      * destruct (Z.eqb_spec h 0) as [->|Hne]; cbn [negb andb].
        -- split; [|reflexivity]. intros _. split.
           ++ intros l [= <-] _. auto.
           ++ intros h [= <-]. reflexivity.
        -- split; [discriminate|]. intros [H _].
           destruct (H _ eq_refl) as [_ [Hh|Hh]]; congruence.
      * split; [|reflexivity]. intros _. split.
        -- intros l [= <-] _. auto.
        -- discriminate.
  - destruct hm as [h|].
    + destruct (Z.eqb_spec h 0) as [->|Hne]; cbn [negb andb].
      * split; [|reflexivity]. intros _. split; [discriminate|].
        intros h [= <-]. reflexivity.
      * destruct (in_Z h valid_districts) eqn:Hh; cbn [negb].
        -- split; [|reflexivity]. intros _. split; [discriminate|].
           intros h' [= <-]. exact Hh.
        -- split; [discriminate|]. intros [_ H].
           specialize (H h eq_refl). congruence.
    + split; [|reflexivity]. intros _. split; discriminate.
Qed.

(** ** When the emission fails *)

Lemma key_of_registered (channels : dict channel) name ch :
  well_formed channels -> In (name, ch) channels ->
  (exists k, key_of (name, ch) = Ok k /\
             (DN_OFF < String.length name)%nat) \/
  (key_of (name, ch) = Raise IndexError /\
   (String.length name <= DN_OFF)%nat).
Proof.
  intros [_ Hwf] Hin.
  destruct (Hwf _ _ Hin) as (_ & [ty Hty] & rx & out & Hrx & Hout).
  unfold key_of, field. cbn [fst snd]. rewrite Hty, Hrx. cbn [bind].
  destruct (Py.index name DN_OFF) as [c|e] eqn:Hi.
  - left. rewrite Hout. cbn [bind]. eexists. split; [reflexivity|].
    apply index_length. eauto.
  - right. rewrite (index_raises _ _ _ Hi). split; [reflexivity|].
    destruct (le_lt_dec (String.length name) DN_OFF) as [Hle|Hlt];
      [exact Hle|].
    apply index_length in Hlt. destruct Hlt as [c Hc]. congruence.
Qed.

Lemma keyed_registered (l : list (string * channel)) :
  Forall (fun c => (exists k, key_of c = Ok k /\
                              (DN_OFF < String.length (fst c))%nat) \/
                   (key_of c = Raise IndexError /\
                    (String.length (fst c) <= DN_OFF)%nat)) l ->
  ((exists ks, keyed key_of l = Ok ks) /\
   forall name, In name (map fst l) -> (DN_OFF < String.length name)%nat) \/
  (keyed key_of l = Raise IndexError /\
   exists name, In name (map fst l) /\
                (String.length name <= DN_OFF)%nat).
Proof.
  induction 1 as [|c t Hc _ IH]; [left; split; [eexists; reflexivity|intros ? []]|].
  cbn [keyed map]. destruct Hc as [(k & Hk & Hlen)|[Hk Hlen]]; rewrite Hk;
    cbn [bind].
  - destruct IH as [[[ks Hks] Hall]|[Hks (name & Hin & Hshort)]];
      rewrite Hks; cbn [bind].
    + left. split; [eexists; reflexivity|].
      intros name [<-|Hin]; auto.
    + right. split; [reflexivity|]. exists name. split; [right|]; auto.
  - right. split; [reflexivity|]. exists (fst c). split; [left|]; auto.
Qed.

Example special_value_ex :
  map special_value
    ["NaN"; "nan"; "NAN"; "sNaN"; "snan12"; "NaN123"; "-NaN"; "+nan"; "Inf";
     "inf"; "-Infinity"; "+INFINITY"; " inf "; "in_f"; "i_n_f_"; "_nan";
     "nan_1"; "snan"; " s_NaN_0_0 "; "iNfInItY"; "naN0"]
  = repeat true 21 /\
  map special_value
    ["n an"; "infin"; "infinit"; "infinityx"; "nanx"; "nan1x"; "sna"; "s";
     ""; "-"; "+-inf"; "--inf"; "1"; "1.5"; "1e5"; "145.600"; "inf1";
     "nan 1"; "1n"; "e"]
  = repeat false 20.
Proof. split; vm_compute; reflexivity. Qed.

Lemma lower_letter (c : ascii) :
  lower c = "i"%char \/ lower c = "n"%char \/ lower c = "s"%char ->
  Py.isdigit c = false /\ c <> "."%char.
Proof.
  destruct c as [[] [] [] [] [] [] [] []]; intros [H|[H|H]];
    try discriminate H; split; (reflexivity || discriminate).
Qed.

(** The model of [Decimal] has the finite values only: on the spelling of
    a special value, where Python returns an infinity or a NaN, it raises
    [InvalidOperation]. *)
Lemma special_value_rejected (s : string) :
  special_value s = true -> Dec.Decimal s = Raise InvalidOperation.
Proof.
  unfold special_value, Dec.Decimal.
  destruct (Dec.split_sign (Py.replace "_" "" (Py.strip s))) as [neg u].
  cbn [snd]. intros H.
  destruct u as [|c t]; [discriminate H|].
  assert (Hc : lower c = "i"%char \/ lower c = "n"%char
               \/ lower c = "s"%char).
  { cbn [lowercase] in H.
    repeat (apply orb_true_iff in H; destruct H as [H|H]).
    - apply String.eqb_eq in H. injection H as H _. auto.
    - apply String.eqb_eq in H. injection H as H _. auto.
    - apply andb_true_iff in H. destruct H as [H _]. cbn [prefix] in H.
      destruct (ascii_dec "n" (lower c)); [auto|discriminate].
    - apply andb_true_iff in H. destruct H as [H _]. cbn [prefix] in H.
      destruct (ascii_dec "s" (lower c)); [auto|discriminate]. }
  destruct (lower_letter c Hc) as [Hd Hp]. clear H Hc.
  cbn [Dec.span_digits]. rewrite Hd.
  destruct c as [[] [] [] [] [] [] [] []]; try reflexivity; congruence.
Qed.

(** X18.  When a database without special values (no infinity and no NaN
    for an output frequency: these are outside the model of [Decimal]) has
    been read, the sorted emission can fail in one way only: with the
    [IndexError] of [c[0][DN_OFF]] in the sort key, and it does so exactly
    when the registry holds a name of fewer than three characters (the
    loop of the disambiguation can leave such a name). *)
Theorem emission_fails_on_short_names fuel args rows w channels :
  Forall (fun row => special_value (Row.output row) = false)
    (filter accepted rows) ->
  read_channels fuel args rows [] = Some (w, Ok channels) ->
  (forall e, generated channels = Raise e -> e = IndexError) /\
  ((exists e, generated channels = Raise e) <->
   exists name, In name (keys channels) /\
                (String.length name <= DN_OFF)%nat).
Proof.
  intros _ Hr.
  pose proof (read_channels_wf _ _ _ _ _ _ Hr well_formed_empty) as Hwf.
  assert (Hall : Forall (fun c =>
             (exists k, key_of c = Ok k /\
                        (DN_OFF < String.length (fst c))%nat) \/
             (key_of c = Raise IndexError /\
              (String.length (fst c) <= DN_OFF)%nat)) channels).
  { apply Forall_forall. intros [name ch] Hin.
    exact (key_of_registered channels name ch Hwf Hin). }
  unfold generated, sorted, keys.
  destruct (keyed_registered _ Hall)
    as [[[ks Hks] Hlong]|[Hks (name & Hin & Hshort)]]; rewrite Hks;
    cbn [bind].
  - split; [discriminate|]. split; [intros [e He]; discriminate|].
    intros (name & Hin & Hshort). specialize (Hlong _ Hin). lia.
  - split; [congruence|]. split; [eauto|eauto].
Qed.

Lemma emission_fails_on_short_names_witness :
  Forall (fun row => special_value (Row.output row) = false)
    (filter accepted [short_call; short_call]) /\
  read_channels 1 noargs [short_call; short_call] []
  = Some (short_names_log, Ok short_names) /\
  (forall e, generated short_names = Raise e -> e = IndexError) /\
  ((exists e, generated short_names = Raise e) <->
   exists name, In name (keys short_names) /\
                (String.length name <= DN_OFF)%nat).
Proof.
  assert (H0 : Forall (fun row => special_value (Row.output row) = false)
                 (filter accepted [short_call; short_call]))
    by (repeat constructor).
  assert (H : read_channels 1 noargs [short_call; short_call] []
              = Some (short_names_log, Ok short_names))
    by (vm_compute; reflexivity).
  split; [exact H0|]. split; [exact H|].
  exact (emission_fails_on_short_names 1 noargs [short_call; short_call]
           short_names_log short_names H0 H).
Defined.

(** Two records with a call sign of one letter and no city: the second is
    given the name 'S ', and the run ends in the sort, with a Channels.csv
    that holds the header only. *)
Example short_call_twice_crashes :
  keys short_names = ["S  70cm"; "S "] /\
  main 1 noargs None [short_call; short_call] old_files
  = Some {| disk := {| Channels_csv := Some (csv_line fieldnames);
                       Zones_csv := Zones_csv old_files |};
            printed := short_names_log;
            ended := Crashed IndexError |}.
Proof. split; vm_compute; reflexivity. Qed.


(** ** The district numeral of the name *)

Lemma district_check (c : ascii) :
  (if negb (Py.isnumeric_char c) then Ok true
   else n <- Py.int (String c "") ;; Ok (negb (in_Z n valid_districts)))
  = if (Py.isnumeric_char c && negb (Py.isdigit c))%bool
    then Raise ValueError
    else Ok (negb (Py.between 48 55 c)).
Proof. destruct c as [[] [] [] [] [] [] [] []]; reflexivity. Qed.

(** X19.  The warning about the district numeral is printed exactly when
    the character at offset 2 of the proposed name is not one of the digits
    0 to 7, and nothing else is printed while a channel is derived.  When
    that character is numeric without being a decimal digit (a superscript
    or a fraction), [int] refuses it and the run ends with a [ValueError]
    before anything is printed. *)
Theorem district_warning (args : Args) (row : Row.t) :
  (forall w name ch,
      derive args row = (w, Ok (name, ch)) ->
      exists c, Py.index name DN_OFF = Ok c /\
                w = if Py.between 48 55 c then []
                    else [WarnDistrict c name]) /\
  (forall c,
      Py.index (proposed_name row) DN_OFF = Ok c ->
      Py.isnumeric_char c = true -> Py.isdigit c = false ->
      derive args row = ([], Raise ValueError)).
Proof.
  split.
  - intros w name ch. unfold derive.
    destruct (Py.index (proposed_name row) DN_OFF) as [c|e] eqn:Hc;
      [|discriminate].
    cbn [lift bind_io]. rewrite district_check.
    destruct (Py.isnumeric_char c && negb (Py.isdigit c))%bool;
      [discriminate|].
    unfold bind_io, lift, ret, print.
    destruct (Py.int (Row.district row)) as [d|];
      [|destruct (Py.between 48 55 c); discriminate].
    destruct (if shift_guard (Row.tx_shift row) then _ else _);
      [|destruct (Py.between 48 55 c); discriminate].
    destruct (Dec.Decimal (Row.output row));
      [|destruct (Py.between 48 55 c); discriminate].
    destruct (Dec.add _ _); [|destruct (Py.between 48 55 c); discriminate].
    destruct (Py.between 48 55 c) eqn:Hb; cbn [negb app];
      intros [= <- <- _]; exists c; rewrite Hb; auto.
  - intros c Hc Hn Hd. unfold derive. rewrite Hc. cbn [lift bind_io].
    rewrite district_check, Hn, Hd. reflexivity.
Qed.

Example superscript_raises_ValueError (args : Args) :
  accepted superscript = true /\
  derive args superscript = ([], Raise ValueError).
Proof. split; reflexivity. Qed.


(** ** The coordinates *)

Lemma replace_char_length (a b : ascii) (s : string) :
  String.length (Py.replace (String a "") (String b "") s) = String.length s.
Proof.
  unfold Py.replace. induction s as [|c t IH]; [reflexivity|].
  cbn [Py.replace_from prefix String.length Nat.sub].
  assert (E : prefix "" t = true) by (destruct t; reflexivity).
  rewrite E.
  destruct (ascii_dec a c); cbn [String.append String.length];
    rewrite IH; reflexivity.
Qed.

Lemma replace_char_gone (a b : ascii) (s : string) :
  a <> b ->
  Py.contains (String a "") (Py.replace (String a "") (String b "") s)
  = false.
Proof.
  intros Hab. unfold Py.contains, Py.replace.
  assert (H : Py.find (String a "")
                (Py.replace_from 0 (String a "") (String b "") s) = -1);
    [|rewrite H; reflexivity].
  induction s as [|c t IH]; [reflexivity|].
  cbn [Py.replace_from prefix String.length Nat.sub].
  destruct (ascii_dec a c) as [Hac|Hac].
  - assert (E : prefix "" t = true) by (destruct t; reflexivity).
    rewrite E. cbn [String.append Py.find prefix].
    destruct (ascii_dec a b); [contradiction|]. rewrite IH. reflexivity.
  - cbn [Py.find prefix]. destruct (ascii_dec a c); [contradiction|].
    rewrite IH. reflexivity.
Qed.

Lemma replace_char_get (a b : ascii) (s : string) (i : nat) (c : ascii) :
  String.get i s = Some c ->
  String.get i (Py.replace (String a "") (String b "") s)
  = Some (if Ascii.eqb c a then b else c).
Proof.
  unfold Py.replace. revert i; induction s as [|c0 t IH]; intros i;
    [destruct i; discriminate|].
  cbn [Py.replace_from prefix String.length Nat.sub].
  assert (E : prefix "" t = true) by (destruct t; reflexivity).
  rewrite E.
  destruct (ascii_dec a c0) as [Hac|Hac]; cbn [String.append];
    destruct i as [|i]; cbn [String.get].
  - intros [= <-]. subst c0. rewrite Ascii.eqb_refl. reflexivity.
  - apply IH.
  - intros [= <-]. destruct (Ascii.eqb_spec c0 a); [congruence|reflexivity].
  - apply IH.
Qed.

(** X20.  The latitude and the longitude of a derived channel are those of
    the record with every point turned into a comma and every other
    character left as it is, place by place: they have the length they
    had, and no point is left in them. *)
Theorem coordinates_have_commas args row w name ch :
  derive args row = (w, Ok (name, ch)) ->
  exists lat lng,
    dict_get "Latitude" ch = Some lat /\
    dict_get "Longitude" ch = Some lng /\
    String.length lat = String.length (Row.lat row) /\
    String.length lng = String.length (Row.lng row) /\
    (forall i c, String.get i (Row.lat row) = Some c ->
                 String.get i lat = Some (if Ascii.eqb c "." then ","%char else c))
    /\
    (forall i c, String.get i (Row.lng row) = Some c ->
                 String.get i lng = Some (if Ascii.eqb c "." then ","%char else c))
    /\
    Py.contains "." lat = false /\ Py.contains "." lng = false.
Proof.
  derive_steps.
  exists (Py.replace "." "," (Row.lat row)), (Py.replace "." "," (Row.lng row)).
  split; [|split].
  - destruct (Py.contains "DMR" (Row.mode row)); cbn; unfold digital_fields;
      try destruct (Py.find "CC" (Row.access row) =? -1); reflexivity.
  - destruct (Py.contains "DMR" (Row.mode row)); cbn; unfold digital_fields;
      try destruct (Py.find "CC" (Row.access row) =? -1); reflexivity.
  - split; [apply replace_char_length|]. split; [apply replace_char_length|].
    split; [intros i c0 Hi; apply (replace_char_get _ _ _ _ _ Hi)|].
    split; [intros i c0 Hi; apply (replace_char_get _ _ _ _ _ Hi)|].
    split; apply replace_char_gone; discriminate.
Qed.

Lemma coordinates_have_commas_witness :
  derive noargs (uppland "" "57.1" "17.6")
  = ([], Ok ("SK30A Uppland 2m", located_channel)) /\
  exists lat lng,
    dict_get "Latitude" located_channel = Some lat /\
    dict_get "Longitude" located_channel = Some lng /\
    String.length lat = String.length (Row.lat (uppland "" "57.1" "17.6")) /\
    String.length lng = String.length (Row.lng (uppland "" "57.1" "17.6")) /\
    (forall i c, String.get i (Row.lat (uppland "" "57.1" "17.6")) = Some c ->
                 String.get i lat = Some (if Ascii.eqb c "." then ","%char else c))
    /\
    (forall i c, String.get i (Row.lng (uppland "" "57.1" "17.6")) = Some c ->
                 String.get i lng = Some (if Ascii.eqb c "." then ","%char else c))
    /\
    Py.contains "." lat = false /\ Py.contains "." lng = false.
Proof.
  assert (H : derive noargs (uppland "" "57.1" "17.6")
              = ([], Ok ("SK30A Uppland 2m", located_channel)))
    by (vm_compute; reflexivity).
  split; [exact H|].
  exact (coordinates_have_commas noargs (uppland "" "57.1" "17.6") []
           "SK30A Uppland 2m" located_channel H).
Defined.

(** ** A run that finishes *)

Lemma catalog_nodup : NoDup (keys empty_zones).
Proof.
  vm_compute. repeat (constructor; [cbn; intuition discriminate|]).
  constructor.
Qed.

Lemma catalog_empty (k : string) :
  In k (keys empty_zones) -> dict_get k empty_zones = Some [].
Proof.
  intros Hin. vm_compute in Hin.
  repeat (destruct Hin as [<-|Hin]; [reflexivity|]). destruct Hin.
Qed.

(** X21.  A run that finishes has passed the validation and completed the
    channel list, and it has written both files: Channels.csv with the
    header, the custom rows and the generated rows, and Zones.csv with its
    header and the rows of the zones of the catalog, each zone holding the
    names of the rows of Channels.csv that belong to it.  What it printed
    are the messages of the first pass followed by zone warnings. *)
Theorem finished_run fuel args custom rows before o :
  main fuel args custom rows before = Some o ->
  ended o = Finished ->
  validate args = None /\
  exists crows grows w w3,
    write_channels fuel args custom rows = Some (crows, grows, w, None) /\
    Channels_csv (disk o)
    = Some (csv_line fieldnames ++ csv_lines (crows ++ grows)) /\
    Zones_csv (disk o)
    = Some (zones_csv (map (fun zone =>
                              (zone, members zone (crows ++ grows)%list))
                         (keys empty_zones))) /\
    printed o = (w ++ w3)%list /\
    (forall m, In m w3 -> exists zone, m = WarnZone zone).
Proof.
  unfold main. destruct (validate args) as [m|];
    [intros [= <-]; discriminate|].
  destruct (write_channels fuel args custom rows)
    as [[[[crows grows] w] [e|]]|] eqn:Hw;
    [intros [= <-]; discriminate| |discriminate].
  destruct (populate (crows ++ grows) empty_zones) as [w3 [zones|e]] eqn:Hp;
    [|intros [= <-]; discriminate].
  intros [= <-] _. split; [reflexivity|]. exists crows, grows, w, w3.
  split; [reflexivity|]. split; [reflexivity|].
  destruct (populate_spec _ _ _ _ Hp) as [Hk Hg].
  assert (Hz : zones = map (fun zone =>
                              (zone, members zone (crows ++ grows)%list))
                         (keys empty_zones)).
  { rewrite <- Hk. apply dict_by_keys.
    - rewrite Hk. exact catalog_nodup.
    - intros k Hin. rewrite Hk in Hin.
      rewrite (Hg _ _ (catalog_empty k Hin)). reflexivity. }
  split; [cbn [disk Zones_csv]; rewrite <- Hz; reflexivity|].
  split; [reflexivity|].
  intros m Hin. destruct (populate_warned _ _ _ _ Hp m Hin) as (z & _ & -> & _).
  eauto.
Qed.

Lemma finished_run_witness :
  exists o,
    main 1 noargs (Some namesakes) database old_files = Some o /\
    ended o = Finished /\
    validate noargs = None /\
    exists crows grows w w3,
      write_channels 1 noargs (Some namesakes) database
      = Some (crows, grows, w, None) /\
      Channels_csv (disk o)
      = Some (csv_line fieldnames ++ csv_lines (crows ++ grows)) /\
      Zones_csv (disk o)
      = Some (zones_csv (map (fun zone =>
                                (zone, members zone (crows ++ grows)%list))
                           (keys empty_zones))) /\
      printed o = (w ++ w3)%list /\
      (forall m, In m w3 -> exists zone, m = WarnZone zone).
Proof.
  destruct (main 1 noargs (Some namesakes) database old_files) as [o|] eqn:H1;
    [|vm_compute in H1; discriminate].
  assert (H3 : ended o = Finished)
    by (vm_compute in H1; injection H1 as <-; reflexivity).
  exists o. split; [reflexivity|]. split; [exact H3|].
  exact (finished_run 1 noargs (Some namesakes) database old_files o H1 H3).
Defined.
